(** * SimExchange: matching engine and simulation orchestrator

    A shallow embedding of the order book and of the simulation cycle of
    the SimExchange repository, in both generations the repository holds:

    - the package [simexchange.core] ([models/order.py], [models/trade.py],
      [services/order_book_service.py], [services/simulation_service.py],
      [services/trading_simulator.py]), below in the modules [Order],
      [Trade], [OrderBookService], [SimulationService] and
      [TradingSimulator];
    - the earlier top-level scripts ([order_book.py], [trading_agent.py],
      [simulator.py]), below in the module [Legacy].

    Python [int] is [Z]. Python [float] (prices, balances, timestamps) is
    read as an exact rational, [Q]: the order book only copies and compares
    prices, and the arithmetic of the statistics is stated without rounding.
    Exceptions are values of type [exn]; a method that can raise returns
    [(exn + A) * state], the state being the one the exception leaves
    behind. *)

From Stdlib Require Import String List ZArith QArith Qabs Bool Lia Lqa Sorted Qround Permutation.
Import ListNotations.
Local Open Scope Z_scope.

(** ** Python built-ins used by the sources *)

Section PyList.
Context {A : Type}.

(** [l[i:]]: a negative [i] counts from the end, out-of-range bounds are
    clipped; [l[-0:]] is [l[0:]], the whole list. *)
Definition slice_from (i : Z) (l : list A) : list A :=
  if i <? 0
  then skipn (Z.to_nat (Z.max 0 (Z.of_nat (length l) + i))) l
  else skipn (Z.to_nat i) l.

(** [l[:n]]. *)
Definition slice_to (n : Z) (l : list A) : list A :=
  if n <? 0
  then firstn (Z.to_nat (Z.max 0 (Z.of_nat (length l) + n))) l
  else firstn (Z.to_nat n) l.

(** [l.pop(i)] for an index in range, keeping the list only. *)
Definition pop (i : nat) (l : list A) : list A :=
  firstn i l ++ skipn (S i) l.

(** [for i in reversed(idxs): l.pop(i)]. *)
Definition pop_reversed (idxs : list nat) (l : list A) : list A :=
  fold_left (fun acc i => pop i acc) (rev idxs) l.

(** [l[-1]] when [l] is not empty. *)
Definition last_opt (l : list A) : option A :=
  match rev l with
  | [] => None
  | x :: _ => Some x
  end.
End PyList.

(** [a > b] and [a < b] on floats. *)
Definition Qgt_bool (a b : Q) : bool := negb (Qle_bool a b).
Definition Qlt_bool (a b : Q) : bool := negb (Qle_bool b a).

(** Truth value of a float: [0.0] is false. *)
Definition truthy (x : Q) : bool := negb (Qeq_bool x 0).

(** [min(a, b)] and [max(a, b)] return the first argument on a tie. *)
Definition py_min (a b : Q) : Q := if Qlt_bool b a then b else a.
Definition py_max (a b : Q) : Q := if Qgt_bool b a then b else a.

(** [x ** 0.5] for [x >= 0]: the root itself when [x] is the square of a
    rational, and the root rounded down to a multiple of [1 / Qden x]
    otherwise. *)
Definition pow_half (x : Q) : Q :=
  Z.sqrt (Qnum x * Z.pos (Qden x)) # Qden x.

(** [sum(l)] over floats and over ints. *)
Definition Qsum (l : list Q) : Q := fold_left Qplus l 0%Q.
Definition Zsum (l : list Z) : Z := fold_left Z.add l 0.

(** [l[i]]: a negative [i] counts from the end; [None] stands for the
    [IndexError] of an index out of range. *)
Definition py_index {A : Type} (i : Z) (l : list A) : option A :=
  let j := if i <? 0 then i + Z.of_nat (length l) else i in
  if j <? 0 then None else nth_error l (Z.to_nat j).

(** [int(x)] on a float: the integer part, rounded towards zero. *)
Definition py_int (x : Q) : Z := Z.quot (Qnum x) (Z.pos (Qden x)).

(** [min(l)] and [max(l)] over a list that starts with [x]: the first of
    the least, resp. of the greatest elements. *)
Definition py_min_of (x : Q) (l : list Q) : Q := fold_left py_min l x.
Definition py_max_of (x : Q) (l : list Q) : Q := fold_left py_max l x.

(** [sum(1 for x in l if p(x))]. *)
Definition count_if {A : Type} (p : A -> bool) (l : list A) : Z :=
  Z.of_nat (length (filter p l)).

(** [range(n)]. *)
Definition py_range (n : Z) : list Z := map Z.of_nat (seq 0 (Z.to_nat n)).

(** [l.sort(key=key, reverse=True)]: decreasing keys, the elements with
    equal keys in the order they had. As a stable sort has one possible
    result, [sort_reverse] computes it by insertion. *)
Section SortReverse.
Context {A : Type}.
Variable key : A -> Q.

Fixpoint insert_reverse (x : A) (l : list A) : list A :=
  match l with
  | [] => [x]
  | y :: l' =>
    if Qgt_bool (key y) (key x) then y :: insert_reverse x l' else x :: l
  end.

Definition sort_reverse (l : list A) : list A := fold_right insert_reverse [] l.
End SortReverse.

(** Floats. A float is read as the rational it is, and floats are
    compared as rationals. Arithmetic on them is written exact where
    what is stated does not depend on how the machine rounds. Where a
    method returns the result of a computation on floats, a mean or a
    ratio, the operations are those of a [FloatArith], of which nothing is
    assumed: [fsum l] stands for [sum(l)], [fsub x y] for [x - y],
    [fmul x y] for [x * y] and [fdiv x y] for [x / y] with [y] not zero,
    each with the rounding of the machine. What is proved of such a method
    holds however the machine rounds. *)
Class FloatArith : Type := {
  fsum : list Q -> Q;
  fsub : Q -> Q -> Q;
  fmul : Q -> Q -> Q;
  fdiv : Q -> Q -> Q
}.

(** The arithmetic that does not round. *)
Definition exact_arith : FloatArith :=
  {| fsum := Qsum; fsub := Qminus; fmul := Qmult; fdiv := Qdiv |}.

(** ** Exceptions *)

Inductive exn : Type :=
| ValueError (msg : string)
| ZeroDivisionError.

(** A method of an object with state [S]: it returns a value or raises,
    and leaves a state behind in both cases. *)
Definition method (S A : Type) : Type := S -> (exn + A) * S.

Definition ret {S A : Type} (a : A) : method S A := fun s => (inr a, s).

Definition bind {S A B : Type} (m : method S A) (k : A -> method S B)
  : method S B :=
  fun s =>
    match m s with
    | (inl e, s') => (inl e, s')
    | (inr a, s') => k a s'
    end.

(** A method that only reads the attributes of [self]. *)
Definition gets {S A : Type} (f : S -> A) : method S A := fun s => (inr (f s), s).

(** An assignment to attributes of [self]. *)
Definition modify {S : Type} (f : S -> S) : method S unit := fun s => (inr tt, f s).

Notation "x <- m ;; k" := (bind m (fun x => k))
  (at level 61, m at next level, right associativity).

(** ** [models/order.py] (and the [Order] dataclass of [order_book.py]) *)

Inductive OrderType : Type := BUY | SELL.

Definition OrderType_eqb (a b : OrderType) : bool :=
  match a, b with
  | BUY, BUY | SELL, SELL => true
  | _, _ => false
  end.

Module Order.
Record t : Type := mk {
  id : Z;
  price : Q;
  quantity : Z;
  order_type : OrderType;
  agent_id : Z;
  timestamp : Q
}.

(** [__post_init__]: the validation run by the dataclass constructor of
    [models/order.py]. The dataclass of [order_book.py] has none. *)
Definition post_init (o : t) : exn + t :=
  if Qle_bool (price o) 0 then inl (ValueError "price must be positive")
  else if quantity o <=? 0 then inl (ValueError "quantity must be positive")
  else if agent_id o <? 0 then inl (ValueError "agent id must be non-negative")
  else inr o.

(** The constructor [Order(...)] of [models/order.py]. *)
Definition new (id : Z) (price : Q) (quantity : Z) (order_type : OrderType)
           (agent_id : Z) (timestamp : Q) : exn + t :=
  post_init (mk id price quantity order_type agent_id timestamp).

(** [now] is the reading of [time.time()]. *)
Definition create_buy_order (order_id : Z) (price : Q) (quantity agent_id : Z)
           (now : Q) : exn + t :=
  new order_id price quantity BUY agent_id now.

Definition create_sell_order (order_id : Z) (price : Q) (quantity agent_id : Z)
           (now : Q) : exn + t :=
  new order_id price quantity SELL agent_id now.

Definition is_buy (o : t) : bool := OrderType_eqb (order_type o) BUY.
Definition is_sell (o : t) : bool := OrderType_eqb (order_type o) SELL.

(** [order.quantity = q]. *)
Definition set_quantity (o : t) (q : Z) : t :=
  mk (id o) (price o) q (order_type o) (agent_id o) (timestamp o).

(** [order.id = i]. *)
Definition set_id (o : t) (i : Z) : t :=
  mk i (price o) (quantity o) (order_type o) (agent_id o) (timestamp o).
(** [get_total_value]. *)
Definition get_total_value (o : t) : Q := (price o * inject_Z (quantity o))%Q.

(** [can_match_with]: [self.price >= other.price] for a buy order against
    a sell order, [self.price <= other.price] for a sell order against a
    buy order. *)
Definition can_match_with (self other : t) : bool :=
  if OrderType_eqb (order_type self) (order_type other) then false
  else if is_buy self && is_sell other then Qle_bool (price other) (price self)
  else if is_sell self && is_buy other then Qle_bool (price self) (price other)
  else false.

End Order.

(** ** [models/trade.py] (and the [Trade] dataclass of [order_book.py]) *)

Module Trade.
Record t : Type := mk {
  id : Z;
  price : Q;
  quantity : Z;
  buyer_id : Z;
  seller_id : Z;
  timestamp : Q
}.

Definition post_init (tr : t) : exn + t :=
  if Qle_bool (price tr) 0 then inl (ValueError "price must be positive")
  else if quantity tr <=? 0 then inl (ValueError "quantity must be positive")
  else if buyer_id tr <? 0 then inl (ValueError "buyer id must be non-negative")
  else if seller_id tr <? 0 then inl (ValueError "seller id must be non-negative")
  else inr tr.

(** [Trade.create_from_orders]; [now] is the reading of [time.time()].
    The price of the trade is the price of [sell_order]. *)
Definition create_from_orders (trade_id : Z) (buy_order sell_order : Order.t)
           (quantity : Z) (now : Q) : exn + t :=
  if negb (Order.is_buy buy_order)
  then inl (ValueError "first order must be a buy order")
  else if negb (Order.is_sell sell_order)
  then inl (ValueError "second order must be a sell order")
  else if quantity <=? 0
  then inl (ValueError "quantity must be positive")
  else if quantity >? Z.min (Order.quantity buy_order) (Order.quantity sell_order)
  then inl (ValueError "trade quantity exceeds the orders")
  else post_init (mk trade_id (Order.price sell_order) quantity
                     (Order.agent_id buy_order) (Order.agent_id sell_order) now).

Definition get_total_value (tr : t) : Q := (price tr * inject_Z (quantity tr))%Q.
Definition get_buyer_value (tr : t) : Q := (- get_total_value tr)%Q.

Definition get_seller_value (tr : t) : Q := get_total_value tr.

Definition involves_agent (agent_id : Z) (tr : t) : bool :=
  (buyer_id tr =? agent_id) || (seller_id tr =? agent_id).

Definition get_agent_role (agent_id : Z) (tr : t) : option string :=
  if buyer_id tr =? agent_id then Some "buyer"%string
  else if seller_id tr =? agent_id then Some "seller"%string
  else None.

Definition get_agent_quantity_change (agent_id : Z) (tr : t) : Z :=
  if buyer_id tr =? agent_id then quantity tr
  else if seller_id tr =? agent_id then - quantity tr
  else 0.

Definition get_agent_value_change (agent_id : Z) (tr : t) : Q :=
  if buyer_id tr =? agent_id then get_buyer_value tr
  else if seller_id tr =? agent_id then get_seller_value tr
  else 0%Q.

End Trade.

(** ** The scan of the opposing book

    [_process_buy_order] and [_process_sell_order] of
    [order_book_service.py], and the two branches of [add_order] of
    [order_book.py], run the same [for i, resting in enumerate(book)] loop.
    They differ in the crossing test and in how the trade is built, which
    are the parameters [crosses] and [create_trade] here; [order_book.py]
    keeps every trade and assigns [self.current_price] inside the loop,
    [order_book_service.py] caps [self.trades] and assigns the price after
    the loop ([max_trades_history], [price_in_loop]).

    The loop mutates the resting order in place ([resting.quantity -=
    trade_quantity]); [match_loop] returns the book with that element
    replaced. When [create_trade] raises, the loop stops with the book and
    the locals as they are at that point. *)

Record loop_state : Type := mk_loop_state {
  new_trades : list Trade.t;
  remaining_quantity : Z;
  orders_to_remove : list nat;
  self_trades : list Trade.t;     (* self.trades *)
  self_next_trade_id : Z;         (* self.next_trade_id *)
  self_current_price : Q          (* self.current_price *)
}.

Section MatchLoop.
(** [None]: the history of trades is not capped ([order_book.py]). *)
Variable max_trades_history : option Z.
(** Whether the body of the loop assigns [self.current_price]. *)
Variable price_in_loop : bool.
Variable crosses : Order.t -> bool.
Variable create_trade : Z -> Order.t -> Z -> Q -> exn + Trade.t.
(** [clock k]: what [time.time()] returns when the [k]-th trade of the
    call is built. *)
Variable clock : nat -> Q.

Definition cap_trades (l : list Trade.t) : list Trade.t :=
  match max_trades_history with
  | None => l
  | Some m => if Z.of_nat (length l) >? m then slice_from (- m) l else l
  end.

Fixpoint match_loop (i : nat) (book : list Order.t) (st : loop_state)
  : list Order.t * loop_state * option exn :=
  match book with
  | [] => ([], st, None)
  | resting :: rest =>
    if crosses resting && (0 <? remaining_quantity st) then
      let trade_quantity := Z.min (remaining_quantity st) (Order.quantity resting) in
      match create_trade (self_next_trade_id st) resting trade_quantity
                         (clock (length (new_trades st))) with
      | inl e => (book, st, Some e)
      | inr trade =>
        let remaining := remaining_quantity st - trade_quantity in
        let resting' :=
          Order.set_quantity resting (Order.quantity resting - trade_quantity) in
        let st' := {|
          new_trades := new_trades st ++ [trade];
          remaining_quantity := remaining;
          orders_to_remove :=
            if Order.quantity resting' =? 0
            then orders_to_remove st ++ [i]
            else orders_to_remove st;
          self_trades := cap_trades (self_trades st ++ [trade]);
          self_next_trade_id := self_next_trade_id st + 1;
          self_current_price :=
            if price_in_loop then Order.price resting
            else self_current_price st |} in
        if remaining =? 0 then (resting' :: rest, st', None)
        else
          let '(rest', st'', e) := match_loop (S i) rest st' in
          (resting' :: rest', st'', e)
      end
    else
      let '(rest', st', e) := match_loop (S i) rest st in
      (resting :: rest', st', e)
  end.
End MatchLoop.

(** ** [services/order_book_service.py] *)

Module OrderBookService.
Record t : Type := mk {
  initial_price : Q;
  current_price : Q;
  max_trades_history : Z;
  buy_orders : list Order.t;
  sell_orders : list Order.t;
  trades : list Trade.t;
  next_order_id : Z;
  next_trade_id : Z
}.

(** [__init__]. *)
Definition init (initial_price : Q) (max_trades_history : Z) : t :=
  mk initial_price initial_price max_trades_history [] [] [] 1 1.

Definition set_current_price (s : t) (p : Q) : t :=
  mk (initial_price s) p (max_trades_history s) (buy_orders s) (sell_orders s)
     (trades s) (next_order_id s) (next_trade_id s).
Definition set_buy_orders (s : t) (l : list Order.t) : t :=
  mk (initial_price s) (current_price s) (max_trades_history s) l (sell_orders s)
     (trades s) (next_order_id s) (next_trade_id s).
Definition set_sell_orders (s : t) (l : list Order.t) : t :=
  mk (initial_price s) (current_price s) (max_trades_history s) (buy_orders s) l
     (trades s) (next_order_id s) (next_trade_id s).
Definition set_trades (s : t) (l : list Trade.t) (next : Z) : t :=
  mk (initial_price s) (current_price s) (max_trades_history s) (buy_orders s)
     (sell_orders s) l (next_order_id s) next.
Definition set_next_order_id (s : t) (n : Z) : t :=
  mk (initial_price s) (current_price s) (max_trades_history s) (buy_orders s)
     (sell_orders s) (trades s) n (next_trade_id s).

(** [_insert_buy_order]: before the first resting order with a strictly
    lower price, else at the end. *)
Fixpoint _insert_buy_order (order : Order.t) (buy_orders : list Order.t)
  : list Order.t :=
  match buy_orders with
  | [] => [order]
  | existing_order :: rest =>
    if Qgt_bool (Order.price order) (Order.price existing_order)
    then order :: buy_orders
    else existing_order :: _insert_buy_order order rest
  end.

(** [_insert_sell_order]: before the first resting order with a strictly
    higher price, else at the end. *)
Fixpoint _insert_sell_order (order : Order.t) (sell_orders : list Order.t)
  : list Order.t :=
  match sell_orders with
  | [] => [order]
  | existing_order :: rest =>
    if Qlt_bool (Order.price order) (Order.price existing_order)
    then order :: sell_orders
    else existing_order :: _insert_sell_order order rest
  end.

Section Methods.
Variable clock : nat -> Q.

(** The locals and counters at the head of a scan. *)
Definition start (order : Order.t) (s : t) : loop_state :=
  {| new_trades := []; remaining_quantity := Order.quantity order;
     orders_to_remove := []; self_trades := trades s;
     self_next_trade_id := next_trade_id s;
     self_current_price := current_price s |}.

Definition _process_buy_order (order : Order.t) : method t (list Trade.t) :=
  fun s =>
      let '(sells, st, e) :=
        match_loop (Some (max_trades_history s)) false
          (fun sell_order => Qle_bool (Order.price sell_order) (Order.price order))
          (fun trade_id sell_order trade_quantity now =>
             Trade.create_from_orders trade_id order sell_order trade_quantity now)
          clock 0 (sell_orders s) (start order s) in
      let s1 := set_trades (set_sell_orders s sells)
                  (self_trades st) (self_next_trade_id st) in
      match e with
      | Some err => (inl err, s1)
      | None =>
        let s2 := set_sell_orders s1 (pop_reversed (orders_to_remove st) sells) in
        if 0 <? remaining_quantity st
        then (inr (new_trades st),
              set_buy_orders s2
                (_insert_buy_order (Order.set_quantity order (remaining_quantity st))
                                   (buy_orders s2)))
        else (inr (new_trades st), s2)
      end.

Definition _process_sell_order (order : Order.t) : method t (list Trade.t) :=
  fun s =>
      let '(buys, st, e) :=
        match_loop (Some (max_trades_history s)) false
          (fun buy_order => Qle_bool (Order.price order) (Order.price buy_order))
          (fun trade_id buy_order trade_quantity now =>
             Trade.create_from_orders trade_id buy_order order trade_quantity now)
          clock 0 (buy_orders s) (start order s) in
      let s1 := set_trades (set_buy_orders s buys)
                  (self_trades st) (self_next_trade_id st) in
      match e with
      | Some err => (inl err, s1)
      | None =>
        let s2 := set_buy_orders s1 (pop_reversed (orders_to_remove st) buys) in
        if 0 <? remaining_quantity st
        then (inr (new_trades st),
              set_sell_orders s2
                (_insert_sell_order (Order.set_quantity order (remaining_quantity st))
                                    (sell_orders s2)))
        else (inr (new_trades st), s2)
      end.

Definition add_order (order : Order.t) : method t (list Trade.t) :=
  new_trades <-
    match Order.order_type order with
    | BUY => _process_buy_order order
    | SELL => _process_sell_order order
    end ;;
  _ <-
    match last_opt new_trades with
    | Some tr => modify (fun s => set_current_price s (Trade.price tr))
    | None => ret tt
    end ;;
  ret new_trades.

End Methods.

Definition get_best_bid : method t (option Q) :=
  gets (fun s =>
    match buy_orders s with
    | [] => None
    | o :: _ => Some (Order.price o)
    end).

Definition get_best_ask : method t (option Q) :=
  gets (fun s =>
    match sell_orders s with
    | [] => None
    | o :: _ => Some (Order.price o)
    end).

(** [if best_bid and best_ask]: [None] and [0.0] are both false. *)
Definition get_spread : method t (option Q) :=
  best_bid <- get_best_bid ;;
  best_ask <- get_best_ask ;;
  ret (match best_bid, best_ask with
       | Some bid, Some ask =>
         if truthy bid && truthy ask then Some (ask - bid)%Q else None
       | _, _ => None
       end).

(** One entry of ['buy_levels'] / ['sell_levels']. *)
Record level : Type := mk_level {
  level_price : Q;
  level_quantity : Z;
  level_agent_id : Z;
  level_timestamp : Q
}.

Definition level_of (o : Order.t) : level :=
  mk_level (Order.price o) (Order.quantity o) (Order.agent_id o) (Order.timestamp o).

(** The dictionary returned by [get_order_book_data]. *)
Record order_book_data : Type := mk_data {
  buy_levels : list level;
  sell_levels : list level;
  data_current_price : Q;
  best_bid : option Q;
  best_ask : option Q;
  spread : option Q;
  total_trades : Z;
  total_buy_orders : Z;
  total_sell_orders : Z
}.

Definition get_order_book_data (levels : Z) : method t order_book_data :=
  buys <- gets (fun s => map level_of (slice_to levels (buy_orders s))) ;;
  sells <- gets (fun s => map level_of (slice_to levels (sell_orders s))) ;;
  price <- gets current_price ;;
  bid <- get_best_bid ;;
  ask <- get_best_ask ;;
  spr <- get_spread ;;
  n_trades <- gets (fun s => Z.of_nat (length (trades s))) ;;
  n_buys <- gets (fun s => Z.of_nat (length (buy_orders s))) ;;
  n_sells <- gets (fun s => Z.of_nat (length (sell_orders s))) ;;
  ret (mk_data buys sells price bid ask spr n_trades n_buys n_sells).

(** [clear_old_orders]; [current_time] is the reading of [time.time()]. *)
Definition clear_old_orders (current_time max_age_seconds : Q) : method t unit :=
  modify (fun s =>
    let young (order : Order.t) :=
      Qlt_bool (current_time - Order.timestamp order) max_age_seconds in
    set_sell_orders (set_buy_orders s (filter young (buy_orders s)))
                    (filter young (sell_orders s))).

(** [reset]. *)
Definition reset : method t unit :=
  modify (fun s => mk (initial_price s) (initial_price s) (max_trades_history s)
                      [] [] [] 1 1).

(** [get_trades]; [limit = None] is the default. *)
Definition get_trades (limit : option Z) : method t (list Trade.t) :=
  gets (fun s =>
    match limit with
    | None => trades s
    | Some n => if n >? 0 then slice_from (- n) (trades s) else []
    end).

Definition get_total_volume : method t Z :=
  gets (fun s => Zsum (map Trade.quantity (trades s))).

Definition get_total_value : method t Q :=
  gets (fun s => Qsum (map Trade.get_total_value (trades s))).

Definition get_agent_trades (agent_id : Z) : method t (list Trade.t) :=
  gets (fun s => filter (Trade.involves_agent agent_id) (trades s)).

Definition get_agent_volume (agent_id : Z) : method t Z :=
  agent_trades <- get_agent_trades agent_id ;;
  ret (Zsum (map Trade.quantity agent_trades)).

Definition get_agent_value (agent_id : Z) : method t Q :=
  agent_trades <- get_agent_trades agent_id ;;
  ret (Qsum (map Trade.get_total_value agent_trades)).

(** The dictionary returned by [get_price_statistics]. The last three keys
    are there only when the history holds a trade. *)
Record price_moves : Type := mk_price_moves {
  moves_current_price : Q;
  price_change : Q;
  price_change_percent : Q
}.

Record price_statistics : Type := mk_price_statistics {
  min_price : Q;
  max_price : Q;
  avg_price : Q;
  price_range : Q;
  moves : option price_moves
}.

(** [get_price_statistics]; [(... / self.initial_price) * 100] raises when
    the initial price is [0.0]. The mean, the range and the changes are
    computed on floats. *)
Definition get_price_statistics {FA : FloatArith} : method t price_statistics :=
  fun s =>
  match map Trade.price (trades s) with
  | [] =>
    (inr (mk_price_statistics (current_price s) (current_price s)
                              (current_price s) 0 None), s)
  | p :: ps =>
    let prices := p :: ps in
    let min_price := fold_left py_min ps p in
    let max_price := fold_left py_max ps p in
    let avg_price := fdiv (fsum prices) (inject_Z (Z.of_nat (length prices))) in
    if Qeq_bool (initial_price s) 0 then (inl ZeroDivisionError, s)
    else
      (inr (mk_price_statistics min_price max_price avg_price
              (fsub max_price min_price)
              (Some (mk_price_moves
                       (current_price s)
                       (fsub (current_price s) (initial_price s))
                       (fmul (fdiv (fsub (current_price s) (initial_price s))
                                   (initial_price s))
                             100)))), s)
  end.

End OrderBookService.

(** ** The earlier scripts: [order_book.py], [trading_agent.py], [simulator.py] *)

(** [list.sort(key=lambda x: x.price)] and [..., reverse=True)]. Python's
    sort is stable, also under [reverse=True], and a stable sort has one
    possible result; [stable_sort] computes it by insertion. [before a b]
    says that key [a] comes strictly before key [b]. *)
Section StableSort.
Variable before : Q -> Q -> bool.

Fixpoint stable_insert (x : Order.t) (l : list Order.t) : list Order.t :=
  match l with
  | [] => [x]
  | y :: l' =>
    if before (Order.price y) (Order.price x)
    then y :: stable_insert x l'
    else x :: l
  end.

Definition stable_sort (l : list Order.t) : list Order.t :=
  fold_right stable_insert [] l.
End StableSort.

Module Legacy.

Module OrderBook.
Record t : Type := mk {
  initial_price : Q;
  current_price : Q;
  buy_orders : list Order.t;
  sell_orders : list Order.t;
  trades : list Trade.t;
  next_order_id : Z;
  next_trade_id : Z
}.

(** [__init__]. *)
Definition init (initial_price : Q) : t :=
  mk initial_price initial_price [] [] [] 1 1.

Definition set_next_order_id (s : t) (n : Z) : t :=
  mk (initial_price s) (current_price s) (buy_orders s) (sell_orders s)
     (trades s) n (next_trade_id s).

Section Methods.
Variable clock : nat -> Q.

Definition start (order : Order.t) (s : t) : loop_state :=
  {| new_trades := []; remaining_quantity := Order.quantity order;
     orders_to_remove := []; self_trades := trades s;
     self_next_trade_id := next_trade_id s;
     self_current_price := current_price s |}.

(** [add_order]. The [Trade] dataclass of [order_book.py] validates
    nothing, so that the call cannot raise. *)
Definition add_order (order : Order.t) : method t (list Trade.t) :=
  fun s =>
  match Order.order_type order with
  | BUY =>
    let '(sells, st, _) :=
      match_loop None true
        (fun sell_order => Qle_bool (Order.price sell_order) (Order.price order))
        (fun trade_id sell_order trade_quantity now =>
           inr (Trade.mk trade_id (Order.price sell_order) trade_quantity
                         (Order.agent_id order) (Order.agent_id sell_order) now))
        clock 0 (sell_orders s) (start order s) in
    let sells' := pop_reversed (orders_to_remove st) sells in
    let buys' :=
      if 0 <? remaining_quantity st
      then stable_sort Qgt_bool
             (buy_orders s ++ [Order.set_quantity order (remaining_quantity st)])
      else buy_orders s in
    (inr (new_trades st),
     mk (initial_price s) (self_current_price st) buys' sells'
        (self_trades st) (next_order_id s) (self_next_trade_id st))
  | SELL =>
    let '(buys, st, _) :=
      match_loop None true
        (fun buy_order => Qle_bool (Order.price order) (Order.price buy_order))
        (fun trade_id buy_order trade_quantity now =>
           inr (Trade.mk trade_id (Order.price buy_order) trade_quantity
                         (Order.agent_id buy_order) (Order.agent_id order) now))
        clock 0 (buy_orders s) (start order s) in
    let buys' := pop_reversed (orders_to_remove st) buys in
    let sells' :=
      if 0 <? remaining_quantity st
      then stable_sort Qlt_bool
             (sell_orders s ++ [Order.set_quantity order (remaining_quantity st)])
      else sell_orders s in
    (inr (new_trades st),
     mk (initial_price s) (self_current_price st) buys' sells'
        (self_trades st) (next_order_id s) (self_next_trade_id st))
  end.
End Methods.

Definition get_best_bid : method t (option Q) :=
  gets (fun s =>
    match buy_orders s with
    | [] => None
    | o :: _ => Some (Order.price o)
    end).

Definition get_best_ask : method t (option Q) :=
  gets (fun s =>
    match sell_orders s with
    | [] => None
    | o :: _ => Some (Order.price o)
    end).

(** [if best_bid and best_ask]: [None] and [0.0] are both false. *)
Definition get_spread : method t (option Q) :=
  best_bid <- get_best_bid ;;
  best_ask <- get_best_ask ;;
  ret (match best_bid, best_ask with
       | Some bid, Some ask =>
         if truthy bid && truthy ask then Some (ask - bid)%Q else None
       | _, _ => None
       end).

Record level : Type := mk_level {
  level_price : Q;
  level_quantity : Z;
  level_agent_id : Z
}.

Definition level_of (o : Order.t) : level :=
  mk_level (Order.price o) (Order.quantity o) (Order.agent_id o).

Record order_book_data : Type := mk_data {
  buy_levels : list level;
  sell_levels : list level;
  data_current_price : Q;
  best_bid : option Q;
  best_ask : option Q;
  spread : option Q;
  total_trades : Z
}.

Definition get_order_book_data (levels : Z) : method t order_book_data :=
  buys <- gets (fun s => map level_of (slice_to levels (buy_orders s))) ;;
  sells <- gets (fun s => map level_of (slice_to levels (sell_orders s))) ;;
  price <- gets current_price ;;
  bid <- get_best_bid ;;
  ask <- get_best_ask ;;
  spr <- get_spread ;;
  n_trades <- gets (fun s => Z.of_nat (length (trades s))) ;;
  ret (mk_data buys sells price bid ask spr n_trades).

End OrderBook.

(** [trading_agent.py]. The strategy object and the random behavioural
    parameters are left out: no method below reads them. *)
Module Agent.
Record t : Type := mk {
  id : Z;
  balance : Q;
  position : Z;
  last_trade_time : Q;
  buy_orders_count : Z;
  sell_orders_count : Z;
  total_orders_count : Z
}.

(** [Agent.update_after_trade]. *)
Definition update_after_trade (trade_price : Q) (trade_quantity : Z)
           (is_buyer : bool) (a : t) : t :=
  if is_buyer
  then mk (id a) (balance a - trade_price * inject_Z trade_quantity)%Q
          (position a + trade_quantity) (last_trade_time a)
          (buy_orders_count a) (sell_orders_count a) (total_orders_count a)
  else mk (id a) (balance a + trade_price * inject_Z trade_quantity)%Q
          (position a - trade_quantity) (last_trade_time a)
          (buy_orders_count a) (sell_orders_count a) (total_orders_count a).

Section GenerateOrder.
(** What [should_trade] and [self.strategy.generate_order(market_data,
    self.balance, self.position)] give for the agent in this cycle: the
    random draws and the market data are folded into the function. *)
Variable strategy_order : t -> option Order.t.
(** The reading of [time.time()]. *)
Variable now : Q.

(** [Agent.generate_order]: stamps the order and counts it. *)
Definition generate_order (a : t) : option Order.t * t :=
  match strategy_order a with
  | None => (None, a)
  | Some order =>
    (Some (Order.mk (Order.id order) (Order.price order) (Order.quantity order)
                    (Order.order_type order) (id a) now),
     mk (id a) (balance a) (position a) now
        (match Order.order_type order with
         | BUY => buy_orders_count a + 1
         | SELL => buy_orders_count a
         end)
        (match Order.order_type order with
         | BUY => sell_orders_count a
         | SELL => sell_orders_count a + 1
         end)
        (total_orders_count a + 1))
  end.
End GenerateOrder.

Definition get_portfolio_value (current_price : Q) (a : t) : Q :=
  (balance a + inject_Z (position a) * current_price)%Q.
End Agent.

(** [simulator.py]. The trading bot, and with it the second half of
    [run_cycle], is left out. *)
Module TradingSimulator.
Record t : Type := mk {
  order_book : OrderBook.t;
  agents : list Agent.t;
  cycle : Z;
  price_history : list Q;
  volume_history : list Z;
  trade_count_history : list Z;
  spread_history : list Q;
  avg_spread_cycles : Z;
  balance_increase_cycles : Z;
  balance_increase_amount : Q;
  last_balance_increase_cycle : Z
}.

(** The body of [for trade in trades:] in [run_cycle]. *)
Definition settle (agent : Agent.t) (trade : Trade.t) : Agent.t :=
  if Trade.buyer_id trade =? Agent.id agent
  then Agent.update_after_trade (Trade.price trade) (Trade.quantity trade) true agent
  else if Trade.seller_id trade =? Agent.id agent
  then Agent.update_after_trade (Trade.price trade) (Trade.quantity trade) false agent
  else agent.

Section RunCycle.
Variable strategy_order : Agent.t -> option Order.t.
Variable now : Q.
(** [clock j k]: the time stamp of the [k]-th trade of the order of the
    [j]-th agent. *)
Variable clock : nat -> nat -> Q.

(** The body of [for agent in self.agents:] for the [j]-th agent. *)
Definition agent_turn (j : nat) (agent : Agent.t) (ob : OrderBook.t)
  : Agent.t * OrderBook.t * list Trade.t :=
  match Agent.generate_order strategy_order now agent with
  | (None, agent1) => (agent1, ob, [])
  | (Some order, agent1) =>
    let order1 := Order.set_id order (OrderBook.next_order_id ob) in
    let ob1 := OrderBook.set_next_order_id ob (OrderBook.next_order_id ob + 1) in
    match OrderBook.add_order (clock j) order1 ob1 with
    | (inr trades, ob2) => (fold_left settle trades agent1, ob2, trades)
    | (inl _, ob2) => (agent1, ob2, [])
    end
  end.

(** [for agent in self.agents:] of [run_cycle], each agent object being
    updated in place. *)
Fixpoint agents_loop (j : nat) (pending : list Agent.t) (ob : OrderBook.t)
         (new_trades : list Trade.t)
  : list Agent.t * OrderBook.t * list Trade.t :=
  match pending with
  | [] => ([], ob, new_trades)
  | agent :: rest =>
    let '(agent', ob', trades) := agent_turn j agent ob in
    let '(rest', ob'', new_trades') :=
      agents_loop (S j) rest ob' (new_trades ++ trades) in
    (agent' :: rest', ob'', new_trades')
  end.
End RunCycle.

(** [set_avg_spread_cycles]. *)
Definition set_avg_spread_cycles (cycles : Z) : method t unit :=
  modify (fun s =>
   mk (order_book s) (agents s) (cycle s) (price_history s) (volume_history s)
      (trade_count_history s) (spread_history s)
      (Z.max 1 (Z.min cycles 1000))
      (balance_increase_cycles s) (balance_increase_amount s)
      (last_balance_increase_cycle s)).

(** [set_balance_increase_settings]; the message it prints is left out. *)
Definition set_balance_increase_settings (cycles : Z) (amount : Q)
  : method t unit :=
  modify (fun s =>
   mk (order_book s) (agents s) (cycle s) (price_history s) (volume_history s)
      (trade_count_history s) (spread_history s) (avg_spread_cycles s)
      (Z.max 1 (Z.min cycles 10000)) (py_max 0 amount)
      (last_balance_increase_cycle s)).

(** [for i in range(1, len(recent_prices))] of [_calculate_volatility]:
    the rates [(recent_prices[i] - recent_prices[i-1]) / recent_prices[i-1]];
    dividing by [0.0] raises. *)
Fixpoint return_rates (recent_prices : list Q) : exn + list Q :=
  match recent_prices with
  | previous :: (current :: _) as rest =>
    if Qeq_bool previous 0 then inl ZeroDivisionError
    else
      match return_rates rest with
      | inl e => inl e
      | inr rates => inr (((current - previous) / previous)%Q :: rates)
      end
  | _ => inr []
  end.

(** [_calculate_volatility]: the standard deviation of the return rates
    over the last 10 prices, kept within [0.005, 0.05]. *)
Definition _calculate_volatility (s : t) : exn + Q :=
  if Z.of_nat (length (price_history s)) <? 2 then inr (1 # 100)%Q
  else
    let recent_prices := slice_from (- 10) (price_history s) in
    match return_rates recent_prices with
    | inl e => inl e
    | inr [] => inr (1 # 100)%Q
    | inr rates =>
      let n := inject_Z (Z.of_nat (length rates)) in
      let mean_return := (Qsum rates / n)%Q in
      let variance :=
        (Qsum (map (fun r => (r - mean_return) * (r - mean_return)) rates) / n)%Q in
      let volatility := pow_half variance in
      inr (py_max (5 # 1000)%Q (py_min (5 # 100)%Q volatility))
    end.

(** [_update_statistics]: the four histories are cut to their last 1000
    entries when the history of prices is longer than that. *)
Definition _update_statistics (new_trades : list Trade.t) (s : t) : t :=
  let price_history1 := price_history s ++ [OrderBook.current_price (order_book s)] in
  let volume_history1 := volume_history s ++ [Zsum (map Trade.quantity new_trades)] in
  let trade_count_history1 :=
    trade_count_history s ++ [Z.of_nat (length new_trades)] in
  let spread_history1 :=
    match fst (OrderBook.get_spread (order_book s)) with
    | inr (Some current_spread) => spread_history s ++ [current_spread]
    | _ => spread_history s
    end in
  let max_history := 1000 in
  if Z.of_nat (length price_history1) >? max_history
  then mk (order_book s) (agents s) (cycle s)
          (slice_from (- max_history) price_history1)
          (slice_from (- max_history) volume_history1)
          (slice_from (- max_history) trade_count_history1)
          (slice_from (- max_history) spread_history1)
          (avg_spread_cycles s) (balance_increase_cycles s)
          (balance_increase_amount s) (last_balance_increase_cycle s)
  else mk (order_book s) (agents s) (cycle s)
          price_history1 volume_history1 trade_count_history1 spread_history1
          (avg_spread_cycles s) (balance_increase_cycles s)
          (balance_increase_amount s) (last_balance_increase_cycle s).
(** [get_average_spread]; the quotient raises when the slice is empty. The
    mean is computed on floats. *)
Definition get_average_spread {FA : FloatArith} (s : t) : exn + option Q :=
  match spread_history s with
  | [] => inr None
  | _ =>
    let cycles_to_use :=
      Z.min (avg_spread_cycles s) (Z.of_nat (length (spread_history s))) in
    let recent_spreads := slice_from (- cycles_to_use) (spread_history s) in
    match recent_spreads with
    | [] => inl ZeroDivisionError
    | _ => inr (Some (fdiv (fsum recent_spreads)
                           (inject_Z (Z.of_nat (length recent_spreads)))))
    end
  end.

(** [self.cycle += 1], the first statement of [run_cycle]. *)
Definition next_cycle (s : t) : t :=
  mk (order_book s) (agents s) (cycle s + 1) (price_history s) (volume_history s)
     (trade_count_history s) (spread_history s) (avg_spread_cycles s)
     (balance_increase_cycles s) (balance_increase_amount s)
     (last_balance_increase_cycle s).

(** [_check_balance_increase]; the message it prints is left out. *)
Definition _check_balance_increase (s : t) : t :=
  if cycle s - last_balance_increase_cycle s >=? balance_increase_cycles s
  then
    mk (order_book s)
       (map (fun agent =>
               Agent.mk (Agent.id agent)
                        (Agent.balance agent + balance_increase_amount s)%Q
                        (Agent.position agent) (Agent.last_trade_time agent)
                        (Agent.buy_orders_count agent) (Agent.sell_orders_count agent)
                        (Agent.total_orders_count agent))
            (agents s))
       (cycle s) (price_history s) (volume_history s)
       (trade_count_history s) (spread_history s) (avg_spread_cycles s)
       (balance_increase_cycles s) (balance_increase_amount s)
       (cycle s)
  else s.

(** The dictionary returned by [get_price_chart_data]. *)
Record price_chart_data : Type := mk_chart {
  prices : list Q;
  volumes : list Z;
  cycles : list Z
}.

Definition get_price_chart_data (s : t) : price_chart_data :=
  mk_chart (price_history s) (volume_history s)
           (py_range (Z.of_nat (length (price_history s)))).

End TradingSimulator.

End Legacy.

(** ** [models/simulation_config.py]

    The ranges of the agent parameters and the distribution of the
    strategies are left out, with the checks [__post_init__] makes on
    them. *)
Module SimulationConfig.
Record t : Type := mk {
  initial_price : Q;
  num_agents : Z;
  initial_balance : Q;
  max_history_size : Z;
  max_trades_history : Z;
  performance_mode : bool;
  skip_volatility_calculation : bool;
  balance_increase_cycles : Z;
  balance_increase_amount : Q;
  avg_spread_cycles : Z
}.

(** The default values of the dataclass. *)
Definition default : t :=
  mk 100 20 10000 1000 5000 false false 100 1000 50.

Definition post_init (c : t) : exn + t :=
  if Qle_bool (initial_price c) 0
  then inl (ValueError "initial price must be positive")
  else if num_agents c <=? 0
  then inl (ValueError "number of agents must be positive")
  else if Qle_bool (initial_balance c) 0
  then inl (ValueError "initial balance must be positive")
  else if max_history_size c <=? 0
  then inl (ValueError "maximal history size must be positive")
  else if max_trades_history c <=? 0
  then inl (ValueError "maximal trades history size must be positive")
  else if balance_increase_cycles c <=? 0
  then inl (ValueError "balance increase cycles must be positive")
  else if Qlt_bool (balance_increase_amount c) 0
  then inl (ValueError "balance increase amount cannot be negative")
  else if avg_spread_cycles c <=? 0
  then inl (ValueError "spread cycles must be positive")
  else inr c.

(** [config.max_history_size = n], resp. the keyword argument
    [max_history_size=n] of the constructor. *)
Definition set_max_history_size (c : t) (n : Z) : t :=
  mk (initial_price c) (num_agents c) (initial_balance c) n (max_trades_history c)
     (performance_mode c) (skip_volatility_calculation c)
     (balance_increase_cycles c) (balance_increase_amount c) (avg_spread_cycles c).
End SimulationConfig.

(** ** [models/market_data.py] *)
Module MarketData.
Record t : Type := mk {
  current_price : Q;
  price_history : list Q;
  volume_history : list Z;
  volatility : Q;
  spread : option Q;
  best_bid : option Q;
  best_ask : option Q
}.

Definition post_init (m : t) : exn + t :=
  if Qle_bool (current_price m) 0
  then inl (ValueError "current price must be positive")
  else if Qlt_bool (volatility m) 0
  then inl (ValueError "volatility cannot be negative")
  else if match spread m with Some x => Qlt_bool x 0 | None => false end
  then inl (ValueError "spread cannot be negative")
  else if match best_bid m with Some x => Qle_bool x 0 | None => false end
  then inl (ValueError "best bid must be positive")
  else if match best_ask m with Some x => Qle_bool x 0 | None => false end
  then inl (ValueError "best ask must be positive")
  else inr m.

(** The constructor [MarketData(...)]. *)
Definition new (current_price : Q) (price_history : list Q) (volume_history : list Z)
           (volatility : Q) (spread best_bid best_ask : option Q) : exn + t :=
  post_init (mk current_price price_history volume_history volatility
                spread best_bid best_ask).

(** What a method that indexes the history of prices gives: the
    [IndexError] of an index out of range, or what it returns. *)
Inductive indexed (A : Type) : Type :=
| IndexError
| Returns (a : A).
Arguments IndexError {A}.
Arguments Returns {A} a.

(** [get_price_change]; the default of [periods] is [1]. *)
Definition get_price_change (periods : Z) (m : t) : indexed (option Q) :=
  if Z.of_nat (length (price_history m)) <? periods + 1 then Returns None
  else
    match py_index (- (periods + 1)) (price_history m) with
    | None => IndexError
    | Some previous => Returns (Some (current_price m - previous)%Q)
    end.

(** [get_price_change_percentage]. *)
Definition get_price_change_percentage (periods : Z) (m : t) : indexed (option Q) :=
  match get_price_change periods m with
  | IndexError => IndexError
  | Returns None => Returns None
  | Returns (Some price_change) =>
    if Z.of_nat (length (price_history m)) <? periods + 1 then Returns None
    else
      match py_index (- (periods + 1)) (price_history m) with
      | None => IndexError
      | Some previous =>
        if Qeq_bool previous 0 then Returns None
        else Returns (Some (price_change / previous * 100)%Q)
      end
  end.

(** [is_trending_up], [is_trending_down] and [is_sideways]; the defaults
    are [periods=5] and [threshold=0.01]. *)
Definition is_trending_up (periods : Z) (threshold : Q) (m : t) : indexed bool :=
  match get_price_change_percentage periods m with
  | IndexError => IndexError
  | Returns None => Returns false
  | Returns (Some price_change_pct) => Returns (Qgt_bool price_change_pct threshold)
  end.

Definition is_trending_down (periods : Z) (threshold : Q) (m : t) : indexed bool :=
  match get_price_change_percentage periods m with
  | IndexError => IndexError
  | Returns None => Returns false
  | Returns (Some price_change_pct) => Returns (Qlt_bool price_change_pct (- threshold))
  end.

Definition is_sideways (periods : Z) (threshold : Q) (m : t) : indexed bool :=
  match get_price_change_percentage periods m with
  | IndexError => IndexError
  | Returns None => Returns false
  | Returns (Some price_change_pct) =>
    Returns (Qle_bool (Qabs price_change_pct) threshold)
  end.

(** [get_average_price]; [periods = None] is the default. An empty slice
    gives [None]. *)
Definition get_average_price (periods : option Z) (m : t) : option Q :=
  match price_history m with
  | [] => None
  | _ =>
    let prices :=
      match periods with
      | None => price_history m
      | Some n => slice_from (- n) (price_history m)
      end in
    match prices with
    | [] => None
    | _ => Some (Qsum prices / inject_Z (Z.of_nat (length prices)))%Q
    end
  end.

(** [get_total_volume]. *)
Definition get_total_volume (periods : option Z) (m : t) : Z :=
  match volume_history m with
  | [] => 0
  | _ =>
    Zsum (match periods with
          | None => volume_history m
          | Some n => slice_from (- n) (volume_history m)
          end)
  end.

(** [get_average_volume]: a quotient of integers, a float. *)
Definition get_average_volume (periods : option Z) (m : t) : option Q :=
  match volume_history m with
  | [] => None
  | _ =>
    let volumes :=
      match periods with
      | None => volume_history m
      | Some n => slice_from (- n) (volume_history m)
      end in
    match volumes with
    | [] => None
    | _ => Some (inject_Z (Zsum volumes) / inject_Z (Z.of_nat (length volumes)))%Q
    end
  end.
End MarketData.

(** ** [services/simulation_service.py] *)
Module SimulationService.
Record t : Type := mk {
  config : SimulationConfig.t;
  cycle : Z;
  is_running : bool;
  price_history : list Q;
  volume_history : list Z;
  trade_count_history : list Z;
  spread_history : list Q;
  last_balance_increase_cycle : Z
}.

(** [__init__]. *)
Definition init (config : SimulationConfig.t) : t :=
  mk config 0 false [SimulationConfig.initial_price config] [0] [0] [] 0.

(** The shared tail of [update_price], [update_volume],
    [update_trade_count] and [update_spread]:
    [h.append(x); if len(h) > cap: keep_size = cap // 2; h = h[-keep_size:]]. *)
Definition append_capped {A : Type} (cap : Z) (x : A) (h : list A) : list A :=
  let h1 := h ++ [x] in
  if Z.of_nat (length h1) >? cap
  then let keep_size := cap / 2 in slice_from (- keep_size) h1
  else h1.

Definition update_price (new_price : Q) (s : t) : t :=
  mk (config s) (cycle s) (is_running s)
     (append_capped (SimulationConfig.max_history_size (config s)) new_price
                    (price_history s))
     (volume_history s) (trade_count_history s) (spread_history s)
     (last_balance_increase_cycle s).

Definition update_volume (volume : Z) (s : t) : t :=
  mk (config s) (cycle s) (is_running s) (price_history s)
     (append_capped (SimulationConfig.max_history_size (config s)) volume
                    (volume_history s))
     (trade_count_history s) (spread_history s) (last_balance_increase_cycle s).

Definition update_trade_count (count : Z) (s : t) : t :=
  mk (config s) (cycle s) (is_running s) (price_history s) (volume_history s)
     (append_capped (SimulationConfig.max_history_size (config s)) count
                    (trade_count_history s))
     (spread_history s) (last_balance_increase_cycle s).

Definition update_spread (spread : Q) (s : t) : t :=
  mk (config s) (cycle s) (is_running s) (price_history s) (volume_history s)
     (trade_count_history s)
     (append_capped (SimulationConfig.max_history_size (config s)) spread
                    (spread_history s))
     (last_balance_increase_cycle s).

(** [for i in range(1, len(recent_prices)): change = (recent_prices[i] -
    recent_prices[i-1]) / recent_prices[i-1]]; dividing by [0.0] raises. *)
Fixpoint price_changes (recent_prices : list Q) : exn + list Q :=
  match recent_prices with
  | previous :: (current :: _) as rest =>
    if Qeq_bool previous 0 then inl ZeroDivisionError
    else
      match price_changes rest with
      | inl e => inl e
      | inr changes => inr (((current - previous) / previous)%Q :: changes)
      end
  | _ => inr []
  end.

(** [calculate_volatility]. *)
Definition calculate_volatility (s : t) : exn + Q :=
  if Z.of_nat (length (price_history s)) <? 2 then inr (1 # 100)%Q
  else if SimulationConfig.skip_volatility_calculation (config s)
  then inr (1 # 100)%Q
  else
    let recent_prices := slice_from (- 5) (price_history s) in
    if Z.of_nat (length recent_prices) <? 2 then inr (1 # 100)%Q
    else
      match price_changes recent_prices with
      | inl e => inl e
      | inr [] => inr (1 # 100)%Q
      | inr changes =>
        let avg_change :=
          (Qsum (map Qabs changes) / inject_Z (Z.of_nat (length changes)))%Q in
        let volatility := py_min (avg_change * 2)%Q (5 # 100)%Q in
        inr (py_max (5 # 1000)%Q volatility)
      end.
(** [get_current_price]. *)
Definition get_current_price (s : t) : Q :=
  match last_opt (price_history s) with
  | Some p => p
  | None => SimulationConfig.initial_price (config s)
  end.

(** The body shared by [get_price_history], [get_volume_history],
    [get_trade_count_history] and [get_spread_history]: [h.copy()] without
    a limit, [h[-limit:] if limit > 0 else []] with one. *)
Definition limited {A : Type} (limit : option Z) (h : list A) : list A :=
  match limit with
  | None => h
  | Some n => if n >? 0 then slice_from (- n) h else []
  end.

Definition get_price_history (limit : option Z) (s : t) : list Q :=
  limited limit (price_history s).

Definition get_volume_history (limit : option Z) (s : t) : list Z :=
  limited limit (volume_history s).

Definition get_trade_count_history (limit : option Z) (s : t) : list Z :=
  limited limit (trade_count_history s).

Definition get_spread_history (limit : option Z) (s : t) : list Q :=
  limited limit (spread_history s).

(** [get_average_spread]; the quotient raises when the slice is empty. The
    mean is computed on floats. *)
Definition get_average_spread {FA : FloatArith} (s : t) : exn + option Q :=
  match spread_history s with
  | [] => inr None
  | _ =>
    let cycles_to_use :=
      Z.min (SimulationConfig.avg_spread_cycles (config s))
            (Z.of_nat (length (spread_history s))) in
    let recent_spreads := slice_from (- cycles_to_use) (spread_history s) in
    match recent_spreads with
    | [] => inl ZeroDivisionError
    | _ => inr (Some (fdiv (fsum recent_spreads)
                           (inject_Z (Z.of_nat (length recent_spreads)))))
    end
  end.

Definition increment_cycle (s : t) : t :=
  mk (config s) (cycle s + 1) (is_running s) (price_history s) (volume_history s)
     (trade_count_history s) (spread_history s) (last_balance_increase_cycle s).

Definition should_increase_balance (s : t) : bool :=
  cycle s - last_balance_increase_cycle s
  >=? SimulationConfig.balance_increase_cycles (config s).

Definition mark_balance_increased (s : t) : t :=
  mk (config s) (cycle s) (is_running s) (price_history s) (volume_history s)
     (trade_count_history s) (spread_history s) (cycle s).

(** The dictionary returned by [get_balance_increase_info]. *)
Record balance_increase_info : Type := mk_info {
  info_cycles : Z;
  info_amount : Q;
  next_increase : Z;
  last_increase_cycle : Z
}.

Definition get_balance_increase_info (s : t) : balance_increase_info :=
  let cycles_remaining :=
    SimulationConfig.balance_increase_cycles (config s)
    - (cycle s - last_balance_increase_cycle s) in
  mk_info (SimulationConfig.balance_increase_cycles (config s))
          (SimulationConfig.balance_increase_amount (config s))
          cycles_remaining (last_balance_increase_cycle s).

(** [create_market_data]. *)
Definition create_market_data (current_price : Q) (spread best_bid best_ask : option Q)
           (s : t) : exn + MarketData.t :=
  match calculate_volatility s with
  | inl e => inl e
  | inr volatility =>
    MarketData.new current_price (get_price_history (Some 20) s)
                   (get_volume_history (Some 20) s) volatility
                   spread best_bid best_ask
  end.

(** [reset]. *)
Definition reset (s : t) : t :=
  mk (config s) 0 false [SimulationConfig.initial_price (config s)] [0] [0] [] 0.

End SimulationService.

(** ** [models/agent.py] *)
Module Agent.
Record t : Type := mk {
  id : Z;
  balance : Q;
  position : Z;
  risk_tolerance : Q;
  trading_frequency : Q;
  price_sensitivity : Q;
  buy_orders_count : Z;
  sell_orders_count : Z;
  total_orders_count : Z;
  total_volume_traded : Z;
  total_value_traded : Q;
  last_trade_time : Q;
  trade_cooldown : Q
}.

(** [not (0 <= x <= 1)]. *)
Definition outside_unit (x : Q) : bool := negb (Qle_bool 0 x && Qle_bool x 1).

Definition post_init (a : t) : exn + t :=
  if Qlt_bool (balance a) 0
  then inl (ValueError "balance cannot be negative")
  else if outside_unit (risk_tolerance a)
  then inl (ValueError "risk tolerance must be between 0 and 1")
  else if outside_unit (trading_frequency a)
  then inl (ValueError "trading frequency must be between 0 and 1")
  else if outside_unit (price_sensitivity a)
  then inl (ValueError "price sensitivity must be between 0 and 1")
  else inr a.

(** [Agent(id=..., balance=..., position=..., risk_tolerance=...,
    trading_frequency=..., price_sensitivity=..., trade_cooldown=...)], the
    other fields taking their defaults. *)
Definition new (id : Z) (balance : Q) (position : Z)
           (risk_tolerance trading_frequency price_sensitivity trade_cooldown : Q)
  : exn + t :=
  post_init (mk id balance position risk_tolerance trading_frequency
                price_sensitivity 0 0 0 0 0 0 trade_cooldown).

Definition should_trade (current_time : Q) (a : t) : bool :=
  if Qlt_bool (current_time - last_trade_time a) (trade_cooldown a)
  then false else true.

(** [can_buy]; the product is written exact, and nothing is stated that
    rests on its rounding. *)
Definition can_buy (price : Q) (quantity : Z) (a : t) : bool :=
  Qle_bool (price * inject_Z quantity) (balance a).

Definition can_sell (quantity : Z) (a : t) : bool := quantity <=? position a.

(** The default of [max_short] is [1000]. *)
Definition can_short_sell (quantity max_short : Z) (a : t) : bool :=
  - max_short <=? position a - quantity.

Definition get_max_sell_quantity (a : t) : Z := Z.max 0 (position a).

Definition get_portfolio_value (current_price : Q) (a : t) : Q :=
  (balance a + inject_Z (position a) * current_price)%Q.

Definition get_profit (initial_balance current_price : Q) (a : t) : Q :=
  (get_portfolio_value current_price a - initial_balance)%Q.

Definition get_profit_percentage (initial_balance current_price : Q) (a : t) : Q :=
  if Qgt_bool initial_balance 0
  then (get_profit initial_balance current_price a / initial_balance * 100)%Q
  else 0%Q.

(** [update_after_trade]; [now] is the reading of [time.time()]. The cash
    and the value traded are written with exact arithmetic, and nothing is
    stated that rests on their rounding; the position and the volume are
    integers. *)
Definition update_after_trade (trade_price : Q) (trade_quantity : Z)
           (is_buyer : bool) (now : Q) (a : t) : t :=
  mk (id a)
     (if is_buyer
      then balance a - trade_price * inject_Z trade_quantity
      else balance a + trade_price * inject_Z trade_quantity)%Q
     (if is_buyer then position a + trade_quantity else position a - trade_quantity)
     (risk_tolerance a) (trading_frequency a) (price_sensitivity a)
     (buy_orders_count a) (sell_orders_count a) (total_orders_count a)
     (total_volume_traded a + trade_quantity)
     (total_value_traded a + trade_price * inject_Z trade_quantity)%Q
     now (trade_cooldown a).

Definition add_order_statistics (order_type : OrderType) (a : t) : t :=
  mk (id a) (balance a) (position a)
     (risk_tolerance a) (trading_frequency a) (price_sensitivity a)
     (match order_type with BUY => buy_orders_count a + 1 | SELL => buy_orders_count a end)
     (match order_type with BUY => sell_orders_count a | SELL => sell_orders_count a + 1 end)
     (total_orders_count a + 1)
     (total_volume_traded a) (total_value_traded a)
     (last_trade_time a) (trade_cooldown a).

Definition reset_statistics (a : t) : t :=
  mk (id a) (balance a) (position a)
     (risk_tolerance a) (trading_frequency a) (price_sensitivity a)
     0 0 0 0 0 0 (trade_cooldown a).

(** [agent.balance = b]. *)
Definition set_balance (a : t) (b : Q) : t :=
  mk (id a) b (position a)
     (risk_tolerance a) (trading_frequency a) (price_sensitivity a)
     (buy_orders_count a) (sell_orders_count a) (total_orders_count a)
     (total_volume_traded a) (total_value_traded a)
     (last_trade_time a) (trade_cooldown a).

(** [agent.position = p]. *)
Definition set_position (a : t) (p : Z) : t :=
  mk (id a) (balance a) p
     (risk_tolerance a) (trading_frequency a) (price_sensitivity a)
     (buy_orders_count a) (sell_orders_count a) (total_orders_count a)
     (total_volume_traded a) (total_value_traded a)
     (last_trade_time a) (trade_cooldown a).
End Agent.

(** ** [services/agent_service.py]

    The agents are objects that the service holds in a list and changes in
    place; a method that changes the agent [get_agent] finds is a change of
    the first agent of the list with that identifier. *)
Module AgentService.
Record t : Type := mk {
  config : SimulationConfig.t;
  agents : list Agent.t;
  initial_balance : Q
}.

(** [__init__]. *)
Definition init (config : SimulationConfig.t) : t :=
  mk config [] (SimulationConfig.initial_balance config).

Definition set_agents (s : t) (l : list Agent.t) : t :=
  mk (config s) l (initial_balance s).

Section CreateAgents.
(** What the four calls of [random.uniform] in [_create_agent] return for
    the agent with a given identifier: its risk tolerance, trading
    frequency, price sensitivity and trade cooldown. *)
Variable draw : Z -> Q * Q * Q * Q.

Definition _create_agent (agent_id : Z) (s : t) : exn + Agent.t :=
  let '(risk_tolerance, trading_frequency, price_sensitivity, trade_cooldown) :=
    draw agent_id in
  Agent.new agent_id (initial_balance s) 0
            risk_tolerance trading_frequency price_sensitivity trade_cooldown.

(** [for i in range(num_agents): self.agents.append(self._create_agent(i))]. *)
Fixpoint create_loop (ids : list Z) : method t unit :=
  match ids with
  | [] => ret tt
  | i :: rest =>
    fun s =>
    match _create_agent i s with
    | inl e => (inl e, s)
    | inr agent => create_loop rest (set_agents s (agents s ++ [agent]))
    end
  end.

Definition create_agents (num_agents : Z) : method t (list Agent.t) :=
  _ <- modify (fun s => set_agents s []) ;;
  _ <- create_loop (py_range num_agents) ;;
  gets agents.

(** [reset_all_agents]. *)
Definition reset_all_agents : method t unit :=
  _ <- modify (fun s => set_agents s []) ;;
  _ <- (fun s => create_agents (SimulationConfig.num_agents (config s)) s) ;;
  ret tt.
End CreateAgents.

Definition get_agents (s : t) : list Agent.t := agents s.

Definition get_agent (agent_id : Z) (s : t) : option Agent.t :=
  find (fun agent => Agent.id agent =? agent_id) (agents s).

Definition get_agent_count (s : t) : Z := Z.of_nat (length (agents s)).

(** The change [f] made to the agent that [get_agent] finds. *)
Fixpoint change_agent (agent_id : Z) (f : Agent.t -> Agent.t) (l : list Agent.t)
  : list Agent.t :=
  match l with
  | [] => []
  | agent :: rest =>
    if Agent.id agent =? agent_id then f agent :: rest
    else agent :: change_agent agent_id f rest
  end.

(** [update_agent_after_trade]; [now] is the reading of [time.time()]. *)
Definition update_agent_after_trade (agent_id : Z) (trade_price : Q)
           (trade_quantity : Z) (is_buyer : bool) (now : Q) (s : t) : t :=
  set_agents s
    (change_agent agent_id
       (Agent.update_after_trade trade_price trade_quantity is_buyer now) (agents s)).

Definition add_agent_order_statistics (agent_id : Z) (order_type : OrderType)
           (s : t) : t :=
  set_agents s
    (change_agent agent_id (Agent.add_order_statistics order_type) (agents s)).

Definition increase_all_balances (amount : Q) (s : t) : t :=
  set_agents s
    (map (fun agent => Agent.set_balance agent (Agent.balance agent + amount)%Q)
         (agents s)).

(** One dictionary of the list that [get_agent_statistics] returns. *)
Record agent_stats : Type := mk_stats {
  stats_id : Z;
  stats_balance : Q;
  stats_position : Z;
  portfolio_value : Q;
  profit : Q;
  profit_percent : Q;
  stats_risk_tolerance : Q;
  stats_trading_frequency : Q;
  stats_price_sensitivity : Q;
  buy_orders : Z;
  sell_orders : Z;
  total_orders : Z;
  total_volume : Z;
  total_value : Q;
  stats_last_trade_time : Q
}.

Definition stats_of (initial_balance current_price : Q) (agent : Agent.t)
  : agent_stats :=
  mk_stats (Agent.id agent) (Agent.balance agent) (Agent.position agent)
           (Agent.get_portfolio_value current_price agent)
           (Agent.get_profit initial_balance current_price agent)
           (Agent.get_profit_percentage initial_balance current_price agent)
           (Agent.risk_tolerance agent) (Agent.trading_frequency agent)
           (Agent.price_sensitivity agent)
           (Agent.buy_orders_count agent) (Agent.sell_orders_count agent)
           (Agent.total_orders_count agent) (Agent.total_volume_traded agent)
           (Agent.total_value_traded agent) (Agent.last_trade_time agent).

(** [get_agent_statistics]: one dictionary for each agent, by decreasing
    profit. *)
Definition get_agent_statistics (current_price : Q) (s : t) : list agent_stats :=
  sort_reverse profit (map (stats_of (initial_balance s) current_price) (agents s)).

(** [get_top_agents] and [get_worst_agents]; the default of [count] is
    [10]. *)
Definition get_top_agents (current_price : Q) (count : Z) (s : t) : list agent_stats :=
  slice_to count (get_agent_statistics current_price s).

Definition get_worst_agents (current_price : Q) (count : Z) (s : t)
  : list agent_stats :=
  slice_from (- count) (get_agent_statistics current_price s).

(** The dictionary returned by [get_agent_performance_summary]. Four keys
    are there only when there are agents. *)
Record summary_ratios : Type := mk_ratios {
  profitable_percentage : Q;
  losing_percentage : Q;
  average_volume_per_agent : Q;
  average_orders_per_agent : Q
}.

Record performance_summary : Type := mk_summary {
  total_agents : Z;
  profitable_agents : Z;
  losing_agents : Z;
  break_even_agents : Z;
  total_profit : Q;
  average_profit : Q;
  best_profit : Q;
  worst_profit : Q;
  summary_total_volume : Z;
  summary_total_orders : Z;
  ratios : option summary_ratios
}.

(** [get_agent_performance_summary]; the quotients by
    [len(agent_stats)] that are not guarded raise when it is [0]. The sum
    and the mean of the profits and the four ratios are computed on
    floats. *)
Definition get_agent_performance_summary {FA : FloatArith} (current_price : Q)
           (s : t) : exn + performance_summary :=
  match agents s with
  | [] => inr (mk_summary 0 0 0 0 0 0 0 0 0 0 None)
  | _ =>
    let agent_stats := get_agent_statistics current_price s in
    let len := Z.of_nat (length agent_stats) in
    let profits := map profit agent_stats in
    let profitable := count_if (fun x => Qgt_bool (profit x) 0) agent_stats in
    let losing := count_if (fun x => Qlt_bool (profit x) 0) agent_stats in
    let break_even := count_if (fun x => Qeq_bool (profit x) 0) agent_stats in
    let total_profit := fsum profits in
    let average_profit :=
      match agent_stats with
      | [] => 0%Q
      | _ => fdiv total_profit (inject_Z len)
      end in
    let best_profit :=
      match profits with [] => 0%Q | p :: ps => py_max_of p ps end in
    let worst_profit :=
      match profits with [] => 0%Q | p :: ps => py_min_of p ps end in
    let total_volume := Zsum (map total_volume agent_stats) in
    let total_orders := Zsum (map total_orders agent_stats) in
    if len =? 0 then inl ZeroDivisionError
    else
      inr (mk_summary len profitable losing break_even
             total_profit average_profit best_profit worst_profit
             total_volume total_orders
             (Some (mk_ratios
                      (fmul (fdiv (inject_Z profitable) (inject_Z len)) 100)
                      (fmul (fdiv (inject_Z losing) (inject_Z len)) 100)
                      (fdiv (inject_Z total_volume) (inject_Z len))
                      (fdiv (inject_Z total_orders) (inject_Z len)))))
  end.

Definition reset_agent_statistics (s : t) : t :=
  set_agents s (map Agent.reset_statistics (agents s)).

Definition reset_agent_balances (s : t) : t :=
  set_agents s
    (map (fun agent =>
            Agent.set_position (Agent.set_balance agent (initial_balance s)) 0)
         (agents s)).

(** The dictionaries with the keys ['low'], ['medium'] and ['high'] that
    [get_agent_risk_distribution] and
    [get_agent_trading_frequency_distribution] return. *)
Record distribution : Type := mk_distribution {
  low : Z;
  medium : Z;
  high : Z
}.

(** [for agent in self.agents:] with the two thresholds of the method. *)
Definition distribute (value : Agent.t -> Q) (t1 t2 : Q) (l : list Agent.t)
  : distribution :=
  fold_left
    (fun d agent =>
       if Qlt_bool (value agent) t1 then mk_distribution (low d + 1) (medium d) (high d)
       else if Qlt_bool (value agent) t2
       then mk_distribution (low d) (medium d + 1) (high d)
       else mk_distribution (low d) (medium d) (high d + 1))
    l (mk_distribution 0 0 0).

Definition get_agent_risk_distribution (s : t) : distribution :=
  distribute Agent.risk_tolerance (3 # 10) (7 # 10) (agents s).

Definition get_agent_trading_frequency_distribution (s : t) : distribution :=
  distribute Agent.trading_frequency (2 # 10) (5 # 10) (agents s).
End AgentService.

(** ** [services/trading_simulator.py] *)
Module TradingSimulator.

(** [set_balance_increase_settings]: writes the fields of the shared
    configuration object, the constructor and its checks not being run. *)
Definition set_balance_increase_settings (cycles : Z) (amount : Q)
  : method SimulationConfig.t unit :=
  modify (fun c =>
   SimulationConfig.mk
     (SimulationConfig.initial_price c) (SimulationConfig.num_agents c)
     (SimulationConfig.initial_balance c) (SimulationConfig.max_history_size c)
     (SimulationConfig.max_trades_history c) (SimulationConfig.performance_mode c)
     (SimulationConfig.skip_volatility_calculation c)
     (Z.max 1 (Z.min cycles 10000)) (py_max 0 amount)
     (SimulationConfig.avg_spread_cycles c)).

(** [set_avg_spread_cycles]. *)
Definition set_avg_spread_cycles (cycles : Z)
  : method SimulationConfig.t unit :=
  modify (fun c =>
   SimulationConfig.mk
     (SimulationConfig.initial_price c) (SimulationConfig.num_agents c)
     (SimulationConfig.initial_balance c) (SimulationConfig.max_history_size c)
     (SimulationConfig.max_trades_history c) (SimulationConfig.performance_mode c)
     (SimulationConfig.skip_volatility_calculation c)
     (SimulationConfig.balance_increase_cycles c)
     (SimulationConfig.balance_increase_amount c)
     (Z.max 1 (Z.min cycles 1000))).

Section PlaceOrder.
Variable clock : nat -> Q.

(** The end of [_generate_agent_order] and the call that follows it in
    [run_cycle]: [order = Order(id=self.order_book_service.next_order_id,
    ...)], [next_order_id += 1], [self.order_book_service.add_order(order)]. *)
Definition place_order (price : Q) (quantity : Z) (order_type : OrderType)
           (agent_id : Z) (current_time : Q)
  : method OrderBookService.t (list Trade.t) :=
  fun s =>
  match Order.new (OrderBookService.next_order_id s) price quantity order_type
                  agent_id current_time with
  | inl err => (inl err, s)
  | inr order =>
    OrderBookService.add_order clock order
      (OrderBookService.set_next_order_id s (OrderBookService.next_order_id s + 1))
  end.
End PlaceOrder.
(** [set_performance_mode]; the default of [skip_volatility] is [False]. *)
Definition set_performance_mode (enabled skip_volatility : bool)
  : method SimulationConfig.t unit :=
  modify (fun c =>
   SimulationConfig.mk
     (SimulationConfig.initial_price c) (SimulationConfig.num_agents c)
     (SimulationConfig.initial_balance c) (SimulationConfig.max_history_size c)
     (SimulationConfig.max_trades_history c) enabled skip_volatility
     (SimulationConfig.balance_increase_cycles c)
     (SimulationConfig.balance_increase_amount c)
     (SimulationConfig.avg_spread_cycles c)).

(** The head of [run_cycle]: [current_price =
    self.simulation_service.get_current_price()] and [market_data =
    self.simulation_service.create_market_data(current_price,
    self.order_book_service.get_spread(), ...get_best_bid(),
    ...get_best_ask())]. *)
Definition cycle_market_data (order_book_service : OrderBookService.t)
           (simulation_service : SimulationService.t) : exn + MarketData.t :=
  let current_price := SimulationService.get_current_price simulation_service in
  match fst (OrderBookService.get_spread order_book_service),
        fst (OrderBookService.get_best_bid order_book_service),
        fst (OrderBookService.get_best_ask order_book_service) with
  | inr spread, inr best_bid, inr best_ask =>
    SimulationService.create_market_data current_price spread best_bid best_ask
                                         simulation_service
  | inl e, _, _ | _, inl e, _ | _, _, inl e => inl e
  end.

(** [_update_simulation_statistics]; the order book is only read. *)
Definition _update_simulation_statistics (new_trades : list Trade.t)
           (order_book_service : OrderBookService.t)
           (simulation_service : SimulationService.t) : SimulationService.t :=
  let s1 :=
    SimulationService.update_price
      (OrderBookService.current_price order_book_service) simulation_service in
  let s2 := SimulationService.update_volume (Zsum (map Trade.quantity new_trades)) s1 in
  let s3 := SimulationService.update_trade_count (Z.of_nat (length new_trades)) s2 in
  match fst (OrderBookService.get_spread order_book_service) with
  | inr (Some spread) => SimulationService.update_spread spread s3
  | _ => s3
  end.

(** The end of [run_cycle], from [if
    self.simulation_service.should_increase_balance():] on; the cycle
    counter was incremented at its head. *)
Definition close_cycle (new_trades : list Trade.t)
           (order_book_service : OrderBookService.t)
           (simulation_service : SimulationService.t) (agent_service : AgentService.t)
  : SimulationService.t * AgentService.t :=
  let '(s1, a1) :=
    if SimulationService.should_increase_balance simulation_service
    then (SimulationService.mark_balance_increased simulation_service,
          AgentService.increase_all_balances
            (SimulationConfig.balance_increase_amount
               (SimulationService.config simulation_service))
            agent_service)
    else (simulation_service, agent_service) in
  (_update_simulation_statistics new_trades order_book_service s1, a1).

Section GenerateAgentOrder.
(** The reading of [time.time()], and the draws of [random]: the two calls
    of [random.random()], [random.uniform(0.95, 1.05)], and
    [random.randint]. *)
Variable current_time : Q.
Variable trade_draw side_draw price_draw : Q.
Variable randint : Z -> Z -> Z.

(** [_generate_agent_order]. [int((agent.balance * agent.risk_tolerance) /
    price)] raises when the price is [0.0]; the constructor of the order
    may raise; the counter of the order book moves only once the order is
    built. The price and the greatest quantity of a buy order are written
    with exact arithmetic, and nothing is stated of their values; a
    quotient too large for a float, on which [int] raises as well and
    before the counter moves, is left aside. *)
Definition _generate_agent_order (agent : Agent.t) (market_data : MarketData.t)
  : method OrderBookService.t (option Order.t) :=
  fun s =>
  if negb (Agent.should_trade current_time agent) then (inr None, s)
  else if Qgt_bool trade_draw (Agent.trading_frequency agent) then (inr None, s)
  else
    let order_type := if Qlt_bool side_draw (1 # 2) then BUY else SELL in
    let price_variation := (price_draw * Agent.price_sensitivity agent)%Q in
    let price := (MarketData.current_price market_data * price_variation)%Q in
    let drawn : exn + option Z :=
      match order_type with
      | BUY =>
        if Qeq_bool price 0 then inl ZeroDivisionError
        else
          let max_quantity :=
            py_int (Agent.balance agent * Agent.risk_tolerance agent / price) in
          if max_quantity <=? 0 then inr None
          else inr (Some (randint 1 (Z.max 1 max_quantity)))
      | SELL =>
        let max_quantity :=
          if Agent.position agent <=? 0 then 10 else Agent.position agent in
        if max_quantity <=? 0 then inr None
        else inr (Some (randint 1 (Z.max 1 max_quantity)))
      end in
    match drawn with
    | inl e => (inl e, s)
    | inr None => (inr None, s)
    | inr (Some quantity) =>
      let allowed :=
        match order_type with
        | BUY => Agent.can_buy price quantity agent
        | SELL => Agent.can_short_sell quantity 1000 agent
        end in
      if negb allowed then (inr None, s)
      else
        match Order.new (OrderBookService.next_order_id s) price quantity order_type
                        (Agent.id agent) current_time with
        | inl err => (inl err, s)
        | inr order =>
          (inr (Some order),
           OrderBookService.set_next_order_id s (OrderBookService.next_order_id s + 1))
        end
    end.

Variable clock : nat -> Q.

(** The head of the body of [for agent in self.agent_service.get_agents():]
    in [run_cycle]: [order = self._generate_agent_order(agent, market_data)]
    and, [if order:], [trades = self.order_book_service.add_order(order)];
    the result is what the turn of the agent adds to [new_trades]. *)
Definition agent_order (agent : Agent.t) (market_data : MarketData.t)
  : method OrderBookService.t (list Trade.t) :=
  fun s =>
  match _generate_agent_order agent market_data s with
  | (inl e, s1) => (inl e, s1)
  | (inr None, s1) => (inr [], s1)
  | (inr (Some order), s1) => OrderBookService.add_order clock order s1
  end.
End GenerateAgentOrder.

End TradingSimulator.

(** ** Vocabulary of the statements *)

(** What the constructor of [models/order.py] lets through. *)
Definition valid_order (o : Order.t) : Prop :=
  (0 < Order.price o)%Q /\ 0 < Order.quantity o /\ 0 <= Order.agent_id o.

(** A book as the engine builds it: every resting order is valid and lies
    on its own side. *)
Definition wf_books (buys sells : list Order.t) : Prop :=
  Forall (fun r => valid_order r /\ Order.order_type r = BUY) buys /\
  Forall (fun r => valid_order r /\ Order.order_type r = SELL) sells.

(** Price-time priority: [a] may stand before [b] in the buy book, resp. in
    the sell book. *)
Definition buy_before (a b : Order.t) : Prop :=
  (Order.price b < Order.price a)%Q \/
  (Order.price a == Order.price b /\ Order.timestamp a <= Order.timestamp b)%Q.

Definition sell_before (a b : Order.t) : Prop :=
  (Order.price a < Order.price b)%Q \/
  (Order.price a == Order.price b /\ Order.timestamp a <= Order.timestamp b)%Q.

(** Every order of the book stands before all the orders that follow it. *)
Definition sorted_books (buys sells : list Order.t) : Prop :=
  StronglySorted buy_before buys /\ StronglySorted sell_before sells.

(** The incoming order is not older than the orders that rest. *)
Definition arrives_last (order : Order.t) (book : list Order.t) : Prop :=
  Forall (fun r => (Order.timestamp r <= Order.timestamp order)%Q) book.

(** The book the order is matched against, and the book it may rest in. *)
Definition opposing_book (order : Order.t) (buys sells : list Order.t)
  : list Order.t :=
  match Order.order_type order with BUY => sells | SELL => buys end.

Definition own_book (order : Order.t) (buys sells : list Order.t)
  : list Order.t :=
  match Order.order_type order with BUY => buys | SELL => sells end.

(** A resting order after [f] units of it were traded. *)
Definition reduce (r : Order.t) (f : Z) : Order.t :=
  Order.set_quantity r (Order.quantity r - f).

Definition reduce_all (book : list Order.t) (fills : list Z) : list Order.t :=
  map (fun rf => reduce (fst rf) (snd rf)) (combine book fills).

Definition live (r : Order.t) : bool := negb (Order.quantity r =? 0).
Definition nonzero (f : Z) : bool := negb (f =? 0).

(** Conservation of quantity by one call: [fills] gives, for each resting
    order of the opposing book, the quantity traded against it, and [rem]
    the quantity of the incoming order that is left and rests. *)
Definition conserves (order : Order.t) (opp own opp' own' : list Order.t)
           (new_trades : list Trade.t) : Prop :=
  exists (fills : list Z) (rem : Z),
    length fills = length opp /\
    Forall2 (fun r f => 0 <= f <= Order.quantity r) opp fills /\
    map Trade.quantity new_trades = filter nonzero fills /\
    0 <= rem /\
    Order.quantity order = Zsum (map Trade.quantity new_trades) + rem /\
    opp' = filter live (reduce_all opp fills) /\
    (rem = 0 -> own' = own) /\
    (0 < rem ->
     exists l1 l2, own = l1 ++ l2 /\
                   own' = l1 ++ Order.set_quantity order rem :: l2).

(** The quantities the scan trades against each resting order. *)
Fixpoint fills_of (crosses : Order.t -> bool) (rem : Z) (book : list Order.t)
  : list Z :=
  match book with
  | [] => []
  | r :: rest =>
    if crosses r && (0 <? rem)
    then Z.min rem (Order.quantity r)
         :: fills_of crosses (rem - Z.min rem (Order.quantity r)) rest
    else 0 :: fills_of crosses rem rest
  end.

(** The indices, counted from [i], of the orders whose quantity is zero. *)
Fixpoint zero_idx (i : nat) (book : list Order.t) : list nat :=
  match book with
  | [] => []
  | r :: rest =>
    if Order.quantity r =? 0 then i :: zero_idx (S i) rest
    else zero_idx (S i) rest
  end.

(** The last [n] elements of a list, or all of them. *)
Definition last_n {A : Type} (n : nat) (l : list A) : list A :=
  skipn (length l - n) l.

(** What the eviction policy asks of a history [h] with cap [cap] that
    gains the entry [x] and becomes [h']: beyond the cap, the last
    [cap // 2] entries are kept; within the cap, all of them. *)
Definition cut_to_trailing_half {A : Type} (cap : Z) (x : A) (h h' : list A)
  : Prop :=
  (Z.of_nat (length (h ++ [x])) > cap ->
   h' = last_n (Z.to_nat (cap / 2)) (h ++ [x]) /\
   Z.of_nat (length h') = cap / 2) /\
  (Z.of_nat (length (h ++ [x])) <= cap -> h' = h ++ [x]).

(** The per-step returns [(p1 - p0) / p0] of a series of prices. *)
Definition returns (prices : list Q) : list Q :=
  map (fun pq => ((snd pq - fst pq) / fst pq)%Q) (combine prices (tl prices)).

Definition mean (l : list Q) : Q :=
  (Qsum l / inject_Z (Z.of_nat (length l)))%Q.

Definition clamp (lo hi x : Q) : Q :=
  if Qlt_bool x lo then lo else if Qlt_bool hi x then hi else x.

(** The volatility as the specification words it. *)
Definition volatility_spec (fast_mode : bool) (history : list Q) : Q :=
  if fast_mode then (1 # 100)%Q
  else clamp (5 # 1000) (5 # 100) (mean (map Qabs (returns (last_n 5 history))) * 2)%Q.

(** The ledger of [id] over a list of trades. *)
Definition bought (id : Z) (l : list Trade.t) : Z :=
  Zsum (map Trade.quantity (filter (fun tr => Trade.buyer_id tr =? id) l)).
Definition sold (id : Z) (l : list Trade.t) : Z :=
  Zsum (map Trade.quantity (filter (fun tr => Trade.seller_id tr =? id) l)).
Definition paid (id : Z) (l : list Trade.t) : Q :=
  Qsum (map Trade.get_total_value (filter (fun tr => Trade.buyer_id tr =? id) l)).
Definition received (id : Z) (l : list Trade.t) : Q :=
  Qsum (map Trade.get_total_value (filter (fun tr => Trade.seller_id tr =? id) l)).

(** Both parties of every trade are settled: each agent's position and
    cash move by what it bought and sold. *)
Definition settled (before after : list Legacy.Agent.t) (l : list Trade.t)
  : Prop :=
  Forall2
    (fun a a' =>
       Legacy.Agent.position a' =
       Legacy.Agent.position a + bought (Legacy.Agent.id a) l
       - sold (Legacy.Agent.id a) l /\
       (Legacy.Agent.balance a' ==
        Legacy.Agent.balance a - paid (Legacy.Agent.id a) l
        + received (Legacy.Agent.id a) l)%Q)
    before after.

(** The configuration [c'] is [c] but for the settings of the increase of
    the balances, resp. but for [avg_spread_cycles]. *)
Definition only_balance_increase_set (c c' : SimulationConfig.t) : Prop :=
  SimulationConfig.initial_price c' = SimulationConfig.initial_price c /\
  SimulationConfig.num_agents c' = SimulationConfig.num_agents c /\
  SimulationConfig.initial_balance c' = SimulationConfig.initial_balance c /\
  SimulationConfig.max_history_size c' = SimulationConfig.max_history_size c /\
  SimulationConfig.max_trades_history c' = SimulationConfig.max_trades_history c /\
  SimulationConfig.performance_mode c' = SimulationConfig.performance_mode c /\
  SimulationConfig.skip_volatility_calculation c' =
  SimulationConfig.skip_volatility_calculation c /\
  SimulationConfig.avg_spread_cycles c' = SimulationConfig.avg_spread_cycles c.

Definition only_avg_spread_cycles_set (c c' : SimulationConfig.t) : Prop :=
  SimulationConfig.initial_price c' = SimulationConfig.initial_price c /\
  SimulationConfig.num_agents c' = SimulationConfig.num_agents c /\
  SimulationConfig.initial_balance c' = SimulationConfig.initial_balance c /\
  SimulationConfig.max_history_size c' = SimulationConfig.max_history_size c /\
  SimulationConfig.max_trades_history c' = SimulationConfig.max_trades_history c /\
  SimulationConfig.performance_mode c' = SimulationConfig.performance_mode c /\
  SimulationConfig.skip_volatility_calculation c' =
  SimulationConfig.skip_volatility_calculation c /\
  SimulationConfig.balance_increase_cycles c' =
  SimulationConfig.balance_increase_cycles c /\
  SimulationConfig.balance_increase_amount c' =
  SimulationConfig.balance_increase_amount c.

(** The same of the simulator of [simulator.py], whose settings are fields
    of the simulator itself: its order book, agents, cycle counter and
    histories are as they were, and so is the other setting. *)
Definition legacy_rest_kept (l l' : Legacy.TradingSimulator.t) : Prop :=
  Legacy.TradingSimulator.order_book l' = Legacy.TradingSimulator.order_book l /\
  Legacy.TradingSimulator.agents l' = Legacy.TradingSimulator.agents l /\
  Legacy.TradingSimulator.cycle l' = Legacy.TradingSimulator.cycle l /\
  Legacy.TradingSimulator.price_history l' = Legacy.TradingSimulator.price_history l /\
  Legacy.TradingSimulator.volume_history l' = Legacy.TradingSimulator.volume_history l /\
  Legacy.TradingSimulator.trade_count_history l' =
  Legacy.TradingSimulator.trade_count_history l /\
  Legacy.TradingSimulator.spread_history l' = Legacy.TradingSimulator.spread_history l /\
  Legacy.TradingSimulator.last_balance_increase_cycle l' =
  Legacy.TradingSimulator.last_balance_increase_cycle l.

Definition legacy_only_balance_increase_set (l l' : Legacy.TradingSimulator.t) : Prop :=
  legacy_rest_kept l l' /\
  Legacy.TradingSimulator.avg_spread_cycles l' =
  Legacy.TradingSimulator.avg_spread_cycles l.

Definition legacy_only_avg_spread_cycles_set (l l' : Legacy.TradingSimulator.t) : Prop :=
  legacy_rest_kept l l' /\
  Legacy.TradingSimulator.balance_increase_cycles l' =
  Legacy.TradingSimulator.balance_increase_cycles l /\
  Legacy.TradingSimulator.balance_increase_amount l' =
  Legacy.TradingSimulator.balance_increase_amount l.

(** Priority looks at the price and at the time stamp only. *)
Definition same_priority (r r' : Order.t) : Prop :=
  Order.price r' = Order.price r /\ Order.timestamp r' = Order.timestamp r.

(** A sequence of calls of [add_order], and the orders of a sequence coming
    in with time stamps that do not decrease. *)
Definition service_run (clock : nat -> Q) (orders : list Order.t)
           (s : OrderBookService.t) : OrderBookService.t :=
  fold_left (fun s o => snd (OrderBookService.add_order clock o s)) orders s.

Definition legacy_run (clock : nat -> Q) (orders : list Order.t)
           (s : Legacy.OrderBook.t) : Legacy.OrderBook.t :=
  fold_left (fun s o => snd (Legacy.OrderBook.add_order clock o s)) orders s.

Definition in_arrival_order (orders : list Order.t) : Prop :=
  StronglySorted (fun a b => (Order.timestamp a <= Order.timestamp b)%Q) orders.

(** The crossing test that [add_order] applies to a resting order. *)
Definition crosses_of (order : Order.t) : Order.t -> bool :=
  match Order.order_type order with
  | BUY => fun resting => Qle_bool (Order.price resting) (Order.price order)
  | SELL => fun resting => Qle_bool (Order.price order) (Order.price resting)
  end.

(** No buy order bids as much as a sell order asks. *)
Definition uncrossed (buys sells : list Order.t) : Prop :=
  Forall (fun b => Forall (fun a => (Order.price b < Order.price a)%Q) sells) buys.

(** The trade each engine builds from the incoming order and a resting
    order. *)
Definition service_trade (order : Order.t) : Z -> Order.t -> Z -> Q -> Trade.t :=
  match Order.order_type order with
  | BUY => fun trade_id resting q now =>
      Trade.mk trade_id (Order.price resting) q
               (Order.agent_id order) (Order.agent_id resting) now
  | SELL => fun trade_id resting q now =>
      Trade.mk trade_id (Order.price order) q
               (Order.agent_id resting) (Order.agent_id order) now
  end.

Definition legacy_trade (order : Order.t) : Z -> Order.t -> Z -> Q -> Trade.t :=
  match Order.order_type order with
  | BUY => fun trade_id resting q now =>
      Trade.mk trade_id (Order.price resting) q
               (Order.agent_id order) (Order.agent_id resting) now
  | SELL => fun trade_id resting q now =>
      Trade.mk trade_id (Order.price resting) q
               (Order.agent_id resting) (Order.agent_id order) now
  end.

(** The trades of a scan that meets no exception. *)
Fixpoint trades_of (mk_trade : Z -> Order.t -> Z -> Q -> Trade.t) (clock : nat -> Q)
         (crosses : Order.t -> bool) (trade_id : Z) (k : nat) (rem : Z)
         (book : list Order.t) : list Trade.t :=
  match book with
  | [] => []
  | r :: rest =>
    if crosses r && (0 <? rem)
    then mk_trade trade_id r (Z.min rem (Order.quantity r)) (clock k)
         :: trades_of mk_trade clock crosses (trade_id + 1) (S k)
                      (rem - Z.min rem (Order.quantity r)) rest
    else trades_of mk_trade clock crosses trade_id k rem rest
  end.

(** Where the remainder of the incoming order comes to rest. *)
Definition service_rest (order : Order.t) (rem : Z) (own : list Order.t)
  : list Order.t :=
  if 0 <? rem then
    match Order.order_type order with
    | BUY => OrderBookService._insert_buy_order (Order.set_quantity order rem) own
    | SELL => OrderBookService._insert_sell_order (Order.set_quantity order rem) own
    end
  else own.

Definition legacy_rest (order : Order.t) (rem : Z) (own : list Order.t)
  : list Order.t :=
  if 0 <? rem then
    match Order.order_type order with
    | BUY => stable_sort Qgt_bool (own ++ [Order.set_quantity order rem])
    | SELL => stable_sort Qlt_bool (own ++ [Order.set_quantity order rem])
    end
  else own.

(** A trade between the incoming order and a resting order of the opposing
    book, at a price no worse than the limit of either. *)
Definition within_limits (order : Order.t) (opp : list Order.t) (tr : Trade.t)
  : Prop :=
  exists resting,
    In resting opp /\
    match Order.order_type order with
    | BUY =>
      Trade.buyer_id tr = Order.agent_id order /\
      Trade.seller_id tr = Order.agent_id resting /\
      (Order.price resting <= Trade.price tr <= Order.price order)%Q
    | SELL =>
      Trade.seller_id tr = Order.agent_id order /\
      Trade.buyer_id tr = Order.agent_id resting /\
      (Order.price order <= Trade.price tr <= Order.price resting)%Q
    end.

(** [n], [n + 1], ..., [k] identifiers in all. *)
Fixpoint ids_from (n : Z) (k : nat) : list Z :=
  match k with
  | O => []
  | S k' => n :: ids_from (n + 1) k'
  end.

(** The identifiers of the history go up, and the counter is above them. *)
Definition ids_ascending (next_trade_id : Z) (history : list Trade.t) : Prop :=
  StronglySorted Z.lt (map Trade.id history) /\
  Forall (fun tr => Trade.id tr < next_trade_id) history.

(** The incoming order crosses a resting order with the price [p]. *)
Definition crosses_price (order : Order.t) (p : Q) : Prop :=
  match Order.order_type order with
  | BUY => (p <= Order.price order)%Q
  | SELL => (Order.price order <= p)%Q
  end.

(** The best price of the opposing book, among what [get_best_bid] and
    [get_best_ask] return. *)
Definition best_opposing (order : Order.t) (best_bid best_ask : exn + option Q)
  : option Q :=
  match (match Order.order_type order with BUY => best_ask | SELL => best_bid end) with
  | inr best => best
  | inl _ => None
  end.

(** The party of a trade that is not the incoming order. *)
Definition counterparty (order : Order.t) (tr : Trade.t) : Z :=
  match Order.order_type order with
  | BUY => Trade.seller_id tr
  | SELL => Trade.buyer_id tr
  end.

(** The trades [ts] are made against the first resting orders of the book
    [opp], one trade for each and in the order of the book; each order but
    the last one is traded in full. *)
Definition matched_from_top (order : Order.t) (opp : list Order.t)
           (ts : list Trade.t) : Prop :=
  let hit := firstn (length ts) opp in
  length hit = length ts /\
  Forall (fun r => crosses_of order r = true) hit /\
  Forall2 (fun r tr =>
             counterparty order tr = Order.agent_id r /\
             0 < Trade.quantity tr <= Order.quantity r)
          hit ts /\
  Forall2 (fun r tr => Trade.quantity tr = Order.quantity r)
          (removelast hit) (removelast ts).

(** The counters of orders of an agent add up. *)
Definition counts_add_up (a : Agent.t) : Prop :=
  Agent.total_orders_count a = Agent.buy_orders_count a + Agent.sell_orders_count a.

(** A parameter of an agent that [Agent.__post_init__] accepts. *)
Definition in_unit (x : Q) : Prop := (0 <= x <= 1)%Q.

(** An agent as [_create_agent] builds it from an identifier and the cash
    it starts with. *)
Definition fresh_agent (agent_id : Z) (initial_balance : Q) (a : Agent.t) : Prop :=
  Agent.id a = agent_id /\ Agent.balance a = initial_balance /\
  Agent.position a = 0 /\
  Agent.buy_orders_count a = 0 /\ Agent.sell_orders_count a = 0 /\
  Agent.total_orders_count a = 0 /\ Agent.total_volume_traded a = 0.

(** The increase of the balances is not overdue: fewer than
    [balance_increase_cycles] cycles have gone by since the last one. *)
Definition increase_pending (cycle last_increase cycles : Z) : Prop :=
  0 <= cycle - last_increase < cycles.

(** The histories of [simulator.py] move together. *)
Definition legacy_histories_aligned (s : Legacy.TradingSimulator.t) : Prop :=
  length (Legacy.TradingSimulator.volume_history s) =
  length (Legacy.TradingSimulator.price_history s) /\
  length (Legacy.TradingSimulator.trade_count_history s) =
  length (Legacy.TradingSimulator.price_history s) /\
  (length (Legacy.TradingSimulator.spread_history s) <=
   length (Legacy.TradingSimulator.price_history s))%nat /\
  (1 <= length (Legacy.TradingSimulator.price_history s) <= 1000)%nat.

(** The histories of prices, volumes and trade counts of
    [SimulationService] move together. *)
Definition histories_aligned (s : SimulationService.t) : Prop :=
  length (SimulationService.volume_history s) =
  length (SimulationService.price_history s) /\
  length (SimulationService.trade_count_history s) =
  length (SimulationService.price_history s).

(** The orders that rest bear pairwise distinct identifiers, all of them
    below the counter [next]. *)
Definition fresh_ids (next : Z) (buys sells : list Order.t) : Prop :=
  NoDup (map Order.id (buys ++ sells)) /\
  Forall (fun o => Order.id o < next) (buys ++ sells).

(** [random.randint(a, b)] gives an integer of [a..b]. *)
Definition randint_in_range (randint : Z -> Z -> Z) : Prop :=
  forall a b, a <= b -> a <= randint a b <= b.

(** The order rested for less than [max_age_seconds] at [current_time]. *)
Definition younger_than (current_time max_age_seconds : Q) (o : Order.t) : Prop :=
  (current_time - Order.timestamp o < max_age_seconds)%Q.

(** ** Concrete books and orders, used to exercise the statements *)

Definition ex_clock : nat -> Q := fun k => inject_Z (Z.of_nat k).
Definition ex_sell99 : Order.t := Order.mk 1 99 10 SELL 0 1.
Definition ex_sell101 : Order.t := Order.mk 2 101 10 SELL 1 2.
Definition ex_buy100 : Order.t := Order.mk 3 100 15 BUY 2 3.

(** The book of each engine after Sell 10@99 and Sell 10@101. *)
Definition ex_service : OrderBookService.t :=
  snd (OrderBookService.add_order ex_clock ex_sell101
         (snd (OrderBookService.add_order ex_clock ex_sell99
                 (OrderBookService.init 100 5000)))).

Definition ex_legacy : Legacy.OrderBook.t :=
  snd (Legacy.OrderBook.add_order ex_clock ex_sell101
         (snd (Legacy.OrderBook.add_order ex_clock ex_sell99
                 (Legacy.OrderBook.init 100)))).

(** An order with price 0, as [order_book.py] lets one build it. *)
Definition ex_free_order : Order.t := Order.mk 1 0 5 BUY 0 0.

(** Two agents and a cycle in which agent 0 asks 99 for 10 units and
    agent 1 bids 100 for 10 units. *)
Definition ex_agent (i : Z) : Legacy.Agent.t := Legacy.Agent.mk i 10000 0 0 0 0 0.

Definition ex_strategy (a : Legacy.Agent.t) : option Order.t :=
  if Legacy.Agent.id a =? 0
  then Some (Order.mk 0 99 10 SELL 0 0)
  else Some (Order.mk 0 100 10 BUY 0 0).

Definition ex_cycle : list Legacy.Agent.t * Legacy.OrderBook.t * list Trade.t :=
  Legacy.TradingSimulator.agents_loop ex_strategy 0 (fun _ => ex_clock) 0
    [ex_agent 0; ex_agent 1] (Legacy.OrderBook.init 100) [].

(** The simulator of [simulator.py] as [__init__] leaves it, with two
    agents. *)
Definition ex_simulator : Legacy.TradingSimulator.t :=
  Legacy.TradingSimulator.mk (Legacy.OrderBook.init 100) [ex_agent 0; ex_agent 1]
    0 [100%Q] [0] [0] [] 50 100 1000 0.

(** That simulator with a history of two prices, and with a history of
    prices that has reached the cap of 1000. *)
Definition ex_simulator_two_prices : Legacy.TradingSimulator.t :=
  Legacy.TradingSimulator.mk (Legacy.OrderBook.init 100) [ex_agent 0; ex_agent 1]
    1 [100%Q; 110%Q] [0; 5] [0; 1] [] 50 100 1000 0.

Definition ex_simulator_full : Legacy.TradingSimulator.t :=
  Legacy.TradingSimulator.mk (Legacy.OrderBook.init 100) [ex_agent 0; ex_agent 1]
    999 (repeat 100%Q 1000) (repeat 0 1000) (repeat 0 1000) [] 50 100 1000 0.

(** A service with the cap 4 on its histories, the history of prices being
    full. *)
Definition ex_capped_service : SimulationService.t :=
  SimulationService.mk
    (SimulationConfig.set_max_history_size SimulationConfig.default 4)
    3 false [100; 101; 102; 103]%Q [0; 1; 2; 3] [0; 1; 1; 1] [1%Q] 0.

(** The default configuration with [max_history_size=1]. *)
Definition ex_config_cap1 : SimulationConfig.t :=
  SimulationConfig.set_max_history_size SimulationConfig.default 1.

(** A service whose history of prices has seven entries. *)
Definition ex_history_service : SimulationService.t :=
  SimulationService.mk SimulationConfig.default 6 false
    [100; 110; 121; 100; 90; 91; 99]%Q [0] [0] [] 0.

(** The data of a market whose price went from 100 to 110. *)
Definition ex_market_data : MarketData.t :=
  MarketData.mk 110 [100%Q; 110%Q] [0; 5] (1 # 100) None None None.

(** A service of agents with two agents. *)
Definition ex_agent_service : AgentService.t :=
  AgentService.mk SimulationConfig.default
    [Agent.mk 0 10 0 0 0 0 0 0 0 0 0 0 1; Agent.mk 1 20 0 0 0 0 0 0 0 0 0 0 1] 10.

(** An agent with the defaults of [models/agent.py]. *)
Definition ex_trader : Agent.t := Agent.mk 7 10000 0 (1 # 2) (3 # 10) (4 # 5) 0 0 0 0 0 0 1.

(** ** Facts on the built-ins *)

Lemma Qgt_bool_true (a b : Q) : Qgt_bool a b = true <-> (b < a)%Q.
Proof.
  unfold Qgt_bool. rewrite negb_true_iff.
  split; intros H.
  - apply Qnot_le_lt. intros Hle. apply Qle_bool_iff in Hle. congruence.
  - destruct (Qle_bool a b) eqn:E; [|reflexivity].
    apply Qle_bool_iff in E. exfalso. apply (Qlt_not_le _ _ H E).
Qed.

Lemma Qgt_bool_false (a b : Q) : Qgt_bool a b = false <-> (a <= b)%Q.
Proof.
  unfold Qgt_bool. rewrite negb_false_iff. apply Qle_bool_iff.
Qed.

Lemma Qlt_bool_true (a b : Q) : Qlt_bool a b = true <-> (a < b)%Q.
Proof. apply (Qgt_bool_true b a). Qed.

Lemma Qlt_bool_false (a b : Q) : Qlt_bool a b = false <-> (b <= a)%Q.
Proof. apply (Qgt_bool_false b a). Qed.

Lemma Zsum_acc (l : list Z) (a : Z) : fold_left Z.add l a = a + Zsum l.
Proof.
  unfold Zsum. revert a.
  induction l as [|x l IH]; intros a; simpl; [lia|].
  rewrite IH, (IH x). lia.
Qed.

Lemma Zsum_cons (x : Z) (l : list Z) : Zsum (x :: l) = x + Zsum l.
Proof. unfold Zsum at 1. simpl. apply Zsum_acc. Qed.

Lemma Qsum_acc (l : list Q) (a : Q) : (fold_left Qplus l a == a + Qsum l)%Q.
Proof.
  unfold Qsum. revert a.
  induction l as [|x l IH]; intros a; simpl; [ring|].
  rewrite IH, (IH (0 + x)%Q). ring.
Qed.

Lemma Qsum_cons (x : Q) (l : list Q) : (Qsum (x :: l) == x + Qsum l)%Q.
Proof. unfold Qsum at 1. simpl. rewrite Qsum_acc. ring. Qed.

Lemma pop_reversed_cons {A : Type} (i : nat) (idxs : list nat) (l : list A) :
  pop_reversed (i :: idxs) l = pop i (pop_reversed idxs l).
Proof.
  unfold pop_reversed. simpl. rewrite fold_left_app. reflexivity.
Qed.

Lemma pop_reversed_shift {A : Type} (idxs : list nat) (x : A) (l : list A) :
  pop_reversed (map S idxs) (x :: l) = x :: pop_reversed idxs l.
Proof.
  induction idxs as [|i idxs IH]; [reflexivity|].
  simpl map. rewrite !pop_reversed_cons, IH. reflexivity.
Qed.

Lemma zero_idx_S (i : nat) (book : list Order.t) :
  zero_idx (S i) book = map S (zero_idx i book).
Proof.
  revert i. induction book as [|r rest IH]; intros i; simpl; [reflexivity|].
  destruct (Order.quantity r =? 0); simpl; rewrite IH; reflexivity.
Qed.

(** Popping the indices of the emptied orders, last first, is removing
    the emptied orders. *)
Lemma pop_reversed_zero_idx (book : list Order.t) :
  pop_reversed (zero_idx 0 book) book = filter live book.
Proof.
  induction book as [|r rest IH]; [reflexivity|].
  simpl. unfold live at 1. rewrite zero_idx_S.
  destruct (Order.quantity r =? 0); simpl.
  - rewrite pop_reversed_cons, pop_reversed_shift, IH. reflexivity.
  - rewrite pop_reversed_shift, IH. reflexivity.
Qed.

Lemma last_opt_cons {A : Type} (x : A) (l : list A) :
  last_opt (x :: l) = match last_opt l with Some y => Some y | None => Some x end.
Proof.
  unfold last_opt. simpl. destruct (rev l) as [|y l'] eqn:E; reflexivity.
Qed.

Lemma last_opt_map {A B : Type} (f : A -> B) (l : list A) :
  last_opt (map f l) = option_map f (last_opt l).
Proof.
  unfold last_opt. rewrite <- map_rev. destruct (rev l); reflexivity.
Qed.

Lemma reduce_0 (r : Order.t) : reduce r 0 = r.
Proof. destruct r. unfold reduce, Order.set_quantity. simpl. rewrite Z.sub_0_r. reflexivity. Qed.

Lemma Zsum_filter_nonzero (l : list Z) : Zsum (filter nonzero l) = Zsum l.
Proof.
  induction l as [|x l IH]; [reflexivity|].
  simpl. unfold nonzero at 1.
  destruct (Z.eqb_spec x 0) as [->|Hx]; simpl; rewrite ?Zsum_cons, IH; lia.
Qed.

(** ** Facts on the scan of the opposing book *)

Section MatchLoopFacts.
Variable max_trades_history : option Z.
Variable price_in_loop : bool.
Variable crosses : Order.t -> bool.
Variable create_trade : Z -> Order.t -> Z -> Q -> exn + Trade.t.
Variable clock : nat -> Q.

Local Notation "'loop'" :=
  (match_loop max_trades_history price_in_loop crosses create_trade clock).

(** Once nothing remains, the scan changes nothing. *)
Lemma match_loop_idle (book : list Order.t) (i : nat) (st : loop_state) :
  remaining_quantity st <= 0 -> loop i book st = (book, st, None).
Proof.
  intros Hrem. revert i.
  induction book as [|r rest IH]; intros i; simpl; [reflexivity|].
  replace (0 <? remaining_quantity st) with false
    by (symmetry; apply Z.ltb_ge; exact Hrem).
  rewrite andb_false_r, IH. reflexivity.
Qed.

(** The [break] of the loop only saves idle iterations. *)
Lemma match_loop_step (r : Order.t) (rest : list Order.t) (i : nat) (st : loop_state) :
  loop i (r :: rest) st =
  if crosses r && (0 <? remaining_quantity st) then
    let trade_quantity := Z.min (remaining_quantity st) (Order.quantity r) in
    match create_trade (self_next_trade_id st) r trade_quantity
                       (clock (length (new_trades st))) with
    | inl e => (r :: rest, st, Some e)
    | inr trade =>
      let r' := reduce r trade_quantity in
      let st' := {|
        new_trades := new_trades st ++ [trade];
        remaining_quantity := remaining_quantity st - trade_quantity;
        orders_to_remove :=
          if Order.quantity r' =? 0
          then orders_to_remove st ++ [i]
          else orders_to_remove st;
        self_trades := cap_trades max_trades_history (self_trades st ++ [trade]);
        self_next_trade_id := self_next_trade_id st + 1;
        self_current_price :=
          if price_in_loop then Order.price r else self_current_price st |} in
      let '(rest', st'', e) := loop (S i) rest st' in
      (r' :: rest', st'', e)
    end
  else
    let '(rest', st', e) := loop (S i) rest st in
    (r :: rest', st', e).
Proof.
  simpl. destruct (crosses r && (0 <? remaining_quantity st)); [|reflexivity].
  destruct (create_trade _ _ _ _) as [e|trade]; [reflexivity|].
  cbv zeta.
  destruct (Z.eqb_spec (remaining_quantity st
                        - Z.min (remaining_quantity st) (Order.quantity r)) 0)
    as [Hz|Hz]; [|reflexivity].
  rewrite match_loop_idle by (simpl; lia). reflexivity.
Qed.

(** The scan changes nothing of a resting order but its quantity. *)
Lemma match_loop_frame (book : list Order.t) :
  forall i st book' st' e,
    loop i book st = (book', st', e) ->
    Forall2 (fun r r' => r' = Order.set_quantity r (Order.quantity r')) book book'.
Proof.
  induction book as [|r rest IH]; intros i st book' st' e H.
  - simpl in H. inversion H; subst. constructor.
  - rewrite match_loop_step in H.
    assert (Hid : forall rs, Forall2 (fun r r' => r' = Order.set_quantity r (Order.quantity r')) rs rs).
    { induction rs as [|x rs IHrs]; constructor; [destruct x; reflexivity|exact IHrs]. }
    cbv zeta in H.
    destruct (crosses r && (0 <? remaining_quantity st)).
    + destruct (create_trade _ _ _ _) as [err|trade].
      * inversion H; subst. apply Hid.
      *
        destruct (loop (S i) rest _) as [[rest' st''] e'] eqn:E.
        inversion H; subst. constructor; [reflexivity|]. eapply IH; exact E.
    + destruct (loop (S i) rest st) as [[rest' st''] e'] eqn:E.
      inversion H; subst. constructor; [destruct r; reflexivity|].
      eapply IH; exact E.
Qed.

(** Every trade of the scan is built by [create_trade] from a resting
    order that crosses; [T] records what [create_trade] promises. *)
Section Trades.
Variable T : Order.t -> Trade.t -> Prop.
Hypothesis create_T :
  forall tid r q now tr, create_trade tid r q now = inr tr -> T r tr.

Lemma match_loop_trades (book : list Order.t) :
  forall i st book' st' e,
    loop i book st = (book', st', e) ->
    exists pairs : list (Order.t * Trade.t),
      new_trades st' = new_trades st ++ map snd pairs /\
      Forall (fun p => In (fst p) book /\ crosses (fst p) = true /\ T (fst p) (snd p))
             pairs /\
      self_current_price st' =
      match last_opt pairs with
      | Some p => if price_in_loop then Order.price (fst p) else self_current_price st
      | None => self_current_price st
      end.
Proof.
  induction book as [|r rest IH]; intros i st book' st' e H.
  - simpl in H. inversion H; subst. exists []. simpl.
    rewrite app_nil_r. repeat split. constructor.
  - rewrite match_loop_step in H. cbv zeta in H.
    destruct (crosses r && (0 <? remaining_quantity st)) eqn:Hc.
    + destruct (create_trade _ _ _ _) as [err|trade] eqn:Hmk.
      * inversion H; subst. exists []. simpl.
        rewrite app_nil_r. repeat split. constructor.
      *
        destruct (loop (S i) rest _) as [[rest' st''] e'] eqn:E.
        inversion H; subst. clear H.
        apply IH in E. destruct E as (pairs & Hnew & Hall & Hprice).
        simpl in Hnew, Hprice.
        exists ((r, trade) :: pairs). split; [|split].
        -- rewrite Hnew, <- app_assoc. reflexivity.
        -- constructor.
           ++ simpl. apply andb_true_iff in Hc.
              repeat split; [left; reflexivity|tauto|eapply create_T; exact Hmk].
           ++ eapply Forall_impl; [|exact Hall].
              simpl. intros p (Hin & Hcr & HT). repeat split; auto.
        -- rewrite Hprice, last_opt_cons.
           destruct (last_opt pairs) as [p|]; simpl;
             destruct price_in_loop; reflexivity.
    + destruct (loop (S i) rest st) as [[rest' st''] e'] eqn:E.
      inversion H; subst. clear H.
      apply IH in E. destruct E as (pairs & Hnew & Hall & Hprice).
      exists pairs. split; [exact Hnew|]. split; [|exact Hprice].
      eapply Forall_impl; [|exact Hall].
      simpl. intros p (Hin & Hcr & HT). repeat split; auto.
Qed.
End Trades.

(** When [create_trade] accepts every trade the scan asks for, the scan
    ends without an exception and trades [fills_of] against the book. *)
Section Total.
Variable P : Order.t -> Prop.
Variable bound : Z.
Hypothesis create_ok :
  forall tid r q now,
    P r -> 0 < q -> q <= Order.quantity r -> q <= bound ->
    exists tr, create_trade tid r q now = inr tr /\ Trade.quantity tr = q.

Lemma match_loop_total (book : list Order.t) :
  forall i st,
    Forall (fun r => P r /\ 0 < Order.quantity r) book ->
    remaining_quantity st <= bound ->
    exists st',
      loop i book st =
      (reduce_all book (fills_of crosses (remaining_quantity st) book), st', None) /\
      remaining_quantity st' =
      remaining_quantity st - Zsum (fills_of crosses (remaining_quantity st) book) /\
      orders_to_remove st' =
      orders_to_remove st
      ++ zero_idx i (reduce_all book (fills_of crosses (remaining_quantity st) book)) /\
      exists ts,
        new_trades st' = new_trades st ++ ts /\
        map Trade.quantity ts =
        filter nonzero (fills_of crosses (remaining_quantity st) book).
Proof.
  induction book as [|r rest IH]; intros i st Hbook Hrem.
  - exists st. simpl. rewrite app_nil_r. repeat split; [unfold Zsum; simpl; lia|].
    exists []. rewrite app_nil_r. split; reflexivity.
  - inversion Hbook as [|? ? [HP Hq] Hrest]; subst.
    rewrite match_loop_step. cbv zeta. simpl fills_of.
    destruct (crosses r && (0 <? remaining_quantity st)) eqn:Hc.
    + apply andb_true_iff in Hc. destruct Hc as [_ Hpos]. apply Z.ltb_lt in Hpos.
      set (q := Z.min (remaining_quantity st) (Order.quantity r)) in *.
      assert (Hq0 : 0 < q) by (unfold q; lia).
      destruct (create_ok (self_next_trade_id st) r q
                          (clock (length (new_trades st))) HP Hq0)
        as (tr & Hmk & Htq); [unfold q; lia|unfold q; lia|].
      rewrite Hmk.
      match goal with |- context [loop (S i) rest ?s] => set (st1 := s) end.
      destruct (IH (S i) st1 Hrest) as (st' & Hrun & Hrem' & Hidx & ts & Hnew & Hqs).
      { unfold st1. simpl. lia. }
      rewrite Hrun. exists st'. split; [reflexivity|].
      replace (remaining_quantity st1) with (remaining_quantity st - q) in *
        by reflexivity.
      split; [|split].
      * rewrite Hrem', Zsum_cons. lia.
      * rewrite Hidx. unfold reduce_all. simpl combine. simpl map.
        simpl zero_idx. unfold st1. simpl orders_to_remove.
        destruct (Order.quantity r - q =? 0);
          [rewrite <- app_assoc|]; reflexivity.
      * exists (tr :: ts). split.
        -- rewrite Hnew. unfold st1. simpl new_trades.
           rewrite <- app_assoc. reflexivity.
        -- simpl. unfold nonzero at 1.
           destruct (Z.eqb_spec q 0) as [Hz|_]; [lia|].
           simpl. rewrite Htq, Hqs. reflexivity.
    + destruct (IH (S i) st Hrest Hrem) as (st' & Hrun & Hrem' & Hidx & ts & Hnew & Hqs).
      rewrite Hrun. exists st'.
      assert (Hred : reduce_all (r :: rest)
                       (0 :: fills_of crosses (remaining_quantity st) rest) =
                     r :: reduce_all rest (fills_of crosses (remaining_quantity st) rest)).
      { unfold reduce_all. simpl combine. simpl map. rewrite reduce_0. reflexivity. }
      rewrite Hred.
      split; [reflexivity|]. split; [|split].
      * rewrite Hrem', Zsum_cons. lia.
      * rewrite Hidx. simpl zero_idx.
        destruct (Z.eqb_spec (Order.quantity r) 0) as [Hz|_]; [lia|].
        reflexivity.
      * exists ts. split; [exact Hnew|exact Hqs].
Qed.
End Total.
End MatchLoopFacts.

(** ** Facts on the quantities traded *)

Lemma fills_of_length (crosses : Order.t -> bool) (book : list Order.t) :
  forall rem, length (fills_of crosses rem book) = length book.
Proof.
  induction book as [|r rest IH]; intros rem; simpl; [reflexivity|].
  destruct (crosses r && (0 <? rem)); simpl; rewrite IH; reflexivity.
Qed.

Lemma fills_of_bounds (crosses : Order.t -> bool) (book : list Order.t) :
  forall rem,
    Forall (fun r => 0 < Order.quantity r) book ->
    0 <= rem ->
    Forall2 (fun r f => 0 <= f <= Order.quantity r) book (fills_of crosses rem book) /\
    Zsum (fills_of crosses rem book) <= rem.
Proof.
  induction book as [|r rest IH]; intros rem Hbook Hrem.
  - simpl. split; [constructor|unfold Zsum; simpl; lia].
  - inversion Hbook as [|? ? Hq Hrest]; subst. simpl.
    destruct (crosses r && (0 <? rem)).
    + destruct (IH (rem - Z.min rem (Order.quantity r)) Hrest) as [Hall Hsum]; [lia|].
      split; [constructor; [lia|exact Hall]|rewrite Zsum_cons; lia].
    + destruct (IH rem Hrest Hrem) as [Hall Hsum].
      split; [constructor; [lia|exact Hall]|rewrite Zsum_cons; lia].
Qed.

(** ** Facts on the order of the books *)

Lemma pop_nil {A : Type} (i : nat) : pop i (@nil A) = [].
Proof. unfold pop. rewrite firstn_nil, skipn_nil. reflexivity. Qed.

Lemma Forall_pop {A : Type} (P : A -> Prop) (l : list A) :
  forall i, Forall P l -> Forall P (pop i l).
Proof.
  induction l as [|x l IH]; intros i H.
  - rewrite pop_nil. constructor.
  - inversion H; subst. destruct i as [|i]; [assumption|].
    change (pop (S i) (x :: l)) with (x :: pop i l).
    constructor; [assumption|apply IH; assumption].
Qed.

Lemma SSorted_pop {A : Type} (R : A -> A -> Prop) (l : list A) :
  forall i, StronglySorted R l -> StronglySorted R (pop i l).
Proof.
  induction l as [|x l IH]; intros i H.
  - rewrite pop_nil. constructor.
  - apply StronglySorted_inv in H. destruct H as [Hl Hx].
    destruct i as [|i]; [assumption|].
    change (pop (S i) (x :: l)) with (x :: pop i l).
    constructor; [apply IH; assumption|apply Forall_pop; assumption].
Qed.

Lemma SSorted_pop_reversed {A : Type} (R : A -> A -> Prop) (idxs : list nat)
      (l : list A) :
  StronglySorted R l -> StronglySorted R (pop_reversed idxs l).
Proof.
  intros H. induction idxs as [|i idxs IH]; [exact H|].
  rewrite pop_reversed_cons. apply SSorted_pop. exact IH.
Qed.

Lemma frame_same_priority (book book' : list Order.t) :
  Forall2 (fun r r' => r' = Order.set_quantity r (Order.quantity r')) book book' ->
  Forall2 same_priority book book'.
Proof.
  intros H. eapply Forall2_impl; [|exact H].
  intros r r' ->. split; reflexivity.
Qed.

Lemma SSorted_filter {A : Type} (R : A -> A -> Prop) (f : A -> bool) (l : list A) :
  StronglySorted R l -> StronglySorted R (filter f l).
Proof.
  intros H. induction H as [|x l Hl IH Hx]; simpl; [constructor|].
  destruct (f x); [|exact IH].
  constructor; [exact IH|].
  apply Forall_forall. intros y Hy. apply filter_In in Hy.
  rewrite Forall_forall in Hx. apply Hx. tauto.
Qed.

Section Priority.
Variable R : Order.t -> Order.t -> Prop.
Hypothesis R_priority :
  forall a a' b b', same_priority a a' -> same_priority b b' -> R a b -> R a' b'.

Lemma Forall_same_priority (a a' : Order.t) (l l' : list Order.t) :
  same_priority a a' -> Forall2 same_priority l l' ->
  Forall (R a) l -> Forall (R a') l'.
Proof.
  intros Ha Hl. induction Hl as [|b b' l l' Hb Hl IH]; intros H; [constructor|].
  inversion H; subst. constructor; [eapply R_priority; eassumption|auto].
Qed.

Lemma SSorted_same_priority (l l' : list Order.t) :
  Forall2 same_priority l l' -> StronglySorted R l -> StronglySorted R l'.
Proof.
  intros Hl. induction Hl as [|a a' l l' Ha Hl IH]; intros H; [constructor|].
  apply StronglySorted_inv in H. destruct H as [Hs Hall].
  constructor; [auto|eapply Forall_same_priority; eassumption].
Qed.
End Priority.

Lemma buy_before_priority (a a' b b' : Order.t) :
  same_priority a a' -> same_priority b b' -> buy_before a b -> buy_before a' b'.
Proof.
  unfold same_priority, buy_before. intros [-> ->] [-> ->] H. exact H.
Qed.

Lemma sell_before_priority (a a' b b' : Order.t) :
  same_priority a a' -> same_priority b b' -> sell_before a b -> sell_before a' b'.
Proof.
  unfold same_priority, sell_before. intros [-> ->] [-> ->] H. exact H.
Qed.

Lemma Forall_insert_buy (P : Order.t -> Prop) (o : Order.t) (l : list Order.t) :
  P o -> Forall P l -> Forall P (OrderBookService._insert_buy_order o l).
Proof.
  intros Ho H. induction H as [|x l Hx Hl IH]; simpl; [repeat constructor; exact Ho|].
  destruct (Qgt_bool (Order.price o) (Order.price x)); repeat constructor; auto.
Qed.

Lemma Forall_insert_sell (P : Order.t -> Prop) (o : Order.t) (l : list Order.t) :
  P o -> Forall P l -> Forall P (OrderBookService._insert_sell_order o l).
Proof.
  intros Ho H. induction H as [|x l Hx Hl IH]; simpl; [repeat constructor; exact Ho|].
  destruct (Qlt_bool (Order.price o) (Order.price x)); repeat constructor; auto.
Qed.

(** Inserting the newest order keeps the buy book in price-time order. *)
Lemma insert_buy_sorted (o : Order.t) (l : list Order.t) :
  StronglySorted buy_before l -> arrives_last o l ->
  StronglySorted buy_before (OrderBookService._insert_buy_order o l).
Proof.
  intros Hs. induction Hs as [|x l Hl IH Hx]; intros Hlast; simpl.
  - repeat constructor.
  - inversion Hlast as [|? ? Hxo Hlast']; subst.
    destruct (Qgt_bool (Order.price o) (Order.price x)) eqn:E.
    + apply Qgt_bool_true in E.
      constructor; [constructor; assumption|].
      constructor; [left; exact E|].
      eapply Forall_impl; [|exact Hx].
      intros r [Hr|[Hr _]]; left.
      * eapply Qlt_trans; eassumption.
      * rewrite <- Hr. exact E.
    + apply Qgt_bool_false in E.
      constructor; [apply IH; exact Hlast'|].
      apply Forall_insert_buy; [|exact Hx].
      apply Qle_lteq in E. destruct E as [E|E]; [left; exact E|].
      right. split; [symmetry; exact E|exact Hxo].
Qed.

Lemma insert_sell_sorted (o : Order.t) (l : list Order.t) :
  StronglySorted sell_before l -> arrives_last o l ->
  StronglySorted sell_before (OrderBookService._insert_sell_order o l).
Proof.
  intros Hs. induction Hs as [|x l Hl IH Hx]; intros Hlast; simpl.
  - repeat constructor.
  - inversion Hlast as [|? ? Hxo Hlast']; subst.
    destruct (Qlt_bool (Order.price o) (Order.price x)) eqn:E.
    + apply Qlt_bool_true in E.
      constructor; [constructor; assumption|].
      constructor; [left; exact E|].
      eapply Forall_impl; [|exact Hx].
      intros r [Hr|[Hr _]]; left.
      * eapply Qlt_trans; eassumption.
      * rewrite <- Hr. exact E.
    + apply Qlt_bool_false in E.
      constructor; [apply IH; exact Hlast'|].
      apply Forall_insert_sell; [|exact Hx].
      apply Qle_lteq in E. destruct E as [E|E]; [left; exact E|].
      right. split; [exact E|exact Hxo].
Qed.

(** The insertion splits the book around the new order. *)
Lemma insert_buy_split (o : Order.t) (l : list Order.t) :
  exists l1 l2, l = l1 ++ l2 /\ OrderBookService._insert_buy_order o l = l1 ++ o :: l2.
Proof.
  induction l as [|x l (l1 & l2 & Hl & Hins)]; simpl.
  - exists [], []. split; reflexivity.
  - destruct (Qgt_bool (Order.price o) (Order.price x)).
    + exists [], (x :: l). split; reflexivity.
    + exists (x :: l1), l2. simpl. rewrite Hins, <- Hl. split; reflexivity.
Qed.

Lemma insert_sell_split (o : Order.t) (l : list Order.t) :
  exists l1 l2, l = l1 ++ l2 /\ OrderBookService._insert_sell_order o l = l1 ++ o :: l2.
Proof.
  induction l as [|x l (l1 & l2 & Hl & Hins)]; simpl.
  - exists [], []. split; reflexivity.
  - destruct (Qlt_bool (Order.price o) (Order.price x)).
    + exists [], (x :: l). split; reflexivity.
    + exists (x :: l1), l2. simpl. rewrite Hins, <- Hl. split; reflexivity.
Qed.

(** [self.buy_orders.append(order); self.buy_orders.sort(key=price,
    reverse=True)] on a sorted book is the insertion of
    [_insert_buy_order]. *)
Lemma stable_insert_head_buy (x : Order.t) (l : list Order.t) :
  Forall (fun r => (Order.price r <= Order.price x)%Q) l ->
  stable_insert Qgt_bool x l = x :: l.
Proof.
  intros H. destruct H as [|y l Hy Hl]; simpl; [reflexivity|].
  apply Qgt_bool_false in Hy. rewrite Hy. reflexivity.
Qed.

Lemma stable_sort_append_buy (o : Order.t) (l : list Order.t) :
  StronglySorted buy_before l ->
  stable_sort Qgt_bool (l ++ [o]) = OrderBookService._insert_buy_order o l.
Proof.
  intros Hs. induction Hs as [|x l Hl IH Hx]; [reflexivity|].
  assert (Hle : Forall (fun r => (Order.price r <= Order.price x)%Q) l).
  { eapply Forall_impl; [|exact Hx].
    intros r [Hr|[Hr _]]; [apply Qlt_le_weak; exact Hr|rewrite Hr; apply Qle_refl]. }
  change (stable_sort Qgt_bool ((x :: l) ++ [o]))
    with (stable_insert Qgt_bool x (stable_sort Qgt_bool (l ++ [o]))).
  rewrite IH. simpl.
  destruct (Qgt_bool (Order.price o) (Order.price x)) eqn:E.
  - assert (Hins : OrderBookService._insert_buy_order o l = o :: l).
    { destruct Hle as [|y l' Hy _]; simpl; [reflexivity|].
      apply Qgt_bool_true in E.
      replace (Qgt_bool (Order.price o) (Order.price y)) with true; [reflexivity|].
      symmetry. apply Qgt_bool_true. eapply Qle_lt_trans; eassumption. }
    rewrite Hins. simpl. rewrite E.
    rewrite stable_insert_head_buy by exact Hle. reflexivity.
  - apply stable_insert_head_buy. apply Forall_insert_buy; [|exact Hle].
    apply Qgt_bool_false. exact E.
Qed.

Lemma stable_insert_head_sell (x : Order.t) (l : list Order.t) :
  Forall (fun r => (Order.price x <= Order.price r)%Q) l ->
  stable_insert Qlt_bool x l = x :: l.
Proof.
  intros H. destruct H as [|y l Hy Hl]; simpl; [reflexivity|].
  apply Qlt_bool_false in Hy. rewrite Hy. reflexivity.
Qed.

Lemma stable_sort_append_sell (o : Order.t) (l : list Order.t) :
  StronglySorted sell_before l ->
  stable_sort Qlt_bool (l ++ [o]) = OrderBookService._insert_sell_order o l.
Proof.
  intros Hs. induction Hs as [|x l Hl IH Hx]; [reflexivity|].
  assert (Hle : Forall (fun r => (Order.price x <= Order.price r)%Q) l).
  { eapply Forall_impl; [|exact Hx].
    intros r [Hr|[Hr _]]; [apply Qlt_le_weak; exact Hr|rewrite Hr; apply Qle_refl]. }
  change (stable_sort Qlt_bool ((x :: l) ++ [o]))
    with (stable_insert Qlt_bool x (stable_sort Qlt_bool (l ++ [o]))).
  rewrite IH. simpl.
  destruct (Qlt_bool (Order.price o) (Order.price x)) eqn:E.
  - assert (Hins : OrderBookService._insert_sell_order o l = o :: l).
    { destruct Hle as [|y l' Hy _]; simpl; [reflexivity|].
      apply Qlt_bool_true in E.
      replace (Qlt_bool (Order.price o) (Order.price y)) with true; [reflexivity|].
      symmetry. apply Qlt_bool_true. eapply Qlt_le_trans; eassumption. }
    rewrite Hins. simpl. rewrite E.
    rewrite stable_insert_head_sell by exact Hle. reflexivity.
  - apply stable_insert_head_sell. apply Forall_insert_sell; [|exact Hle].
    apply Qlt_bool_false. exact E.
Qed.

(** ** [OrderBookService.add_order] and [OrderBook.add_order] keep the books
       in price-time order *)

Lemma service_add_order_sorted (clock : nat -> Q) (order : Order.t)
      (s : OrderBookService.t) :
  sorted_books (OrderBookService.buy_orders s) (OrderBookService.sell_orders s) ->
  arrives_last order
    (own_book order (OrderBookService.buy_orders s) (OrderBookService.sell_orders s)) ->
  sorted_books
    (OrderBookService.buy_orders (snd (OrderBookService.add_order clock order s)))
    (OrderBookService.sell_orders (snd (OrderBookService.add_order clock order s))).
Proof.
  intros [Hb Hs] Hlast.
  unfold OrderBookService.add_order, bind, own_book in *.
  destruct (Order.order_type order).
  - unfold OrderBookService._process_buy_order.
    destruct (match_loop _ _ _ _ _ _ _ _) as [[sells st] e] eqn:E.
    apply match_loop_frame, frame_same_priority in E.
    pose proof (SSorted_same_priority _ sell_before_priority _ _ E Hs) as Hs'.
    destruct e as [err|]; [split; assumption|].
    destruct (0 <? remaining_quantity st);
      destruct (last_opt (new_trades st)); simpl; split;
        try (apply insert_buy_sorted; [exact Hb|exact Hlast]);
        try (apply SSorted_pop_reversed; exact Hs'); assumption.
  - unfold OrderBookService._process_sell_order.
    destruct (match_loop _ _ _ _ _ _ _ _) as [[buys st] e] eqn:E.
    apply match_loop_frame, frame_same_priority in E.
    pose proof (SSorted_same_priority _ buy_before_priority _ _ E Hb) as Hb'.
    destruct e as [err|]; [split; assumption|].
    destruct (0 <? remaining_quantity st);
      destruct (last_opt (new_trades st)); simpl; split;
        try (apply insert_sell_sorted; [exact Hs|exact Hlast]);
        try (apply SSorted_pop_reversed; exact Hb'); assumption.
Qed.

Lemma legacy_add_order_sorted (clock : nat -> Q) (order : Order.t)
      (s : Legacy.OrderBook.t) :
  sorted_books (Legacy.OrderBook.buy_orders s) (Legacy.OrderBook.sell_orders s) ->
  arrives_last order
    (own_book order (Legacy.OrderBook.buy_orders s) (Legacy.OrderBook.sell_orders s)) ->
  sorted_books
    (Legacy.OrderBook.buy_orders (snd (Legacy.OrderBook.add_order clock order s)))
    (Legacy.OrderBook.sell_orders (snd (Legacy.OrderBook.add_order clock order s))).
Proof.
  intros [Hb Hs] Hlast.
  unfold Legacy.OrderBook.add_order, own_book in *.
  destruct (Order.order_type order).
  - destruct (match_loop _ _ _ _ _ _ _ _) as [[sells st] e] eqn:E.
    apply match_loop_frame, frame_same_priority in E.
    pose proof (SSorted_same_priority _ sell_before_priority _ _ E Hs) as Hs'.
    simpl. split; [|apply SSorted_pop_reversed; exact Hs'].
    destruct (0 <? remaining_quantity st); [|exact Hb].
    rewrite stable_sort_append_buy by exact Hb.
    apply insert_buy_sorted; [exact Hb|exact Hlast].
  - destruct (match_loop _ _ _ _ _ _ _ _) as [[buys st] e] eqn:E.
    apply match_loop_frame, frame_same_priority in E.
    pose proof (SSorted_same_priority _ buy_before_priority _ _ E Hb) as Hb'.
    simpl. split; [apply SSorted_pop_reversed; exact Hb'|].
    destruct (0 <? remaining_quantity st); [|exact Hs].
    rewrite stable_sort_append_sell by exact Hs.
    apply insert_sell_sorted; [exact Hs|exact Hlast].
Qed.

(** ** Conservation of quantity *)

Lemma create_from_orders_ok (tid : Z) (b s : Order.t) (q : Z) (now : Q) :
  Order.order_type b = BUY -> Order.order_type s = SELL ->
  (0 < Order.price s)%Q -> 0 <= Order.agent_id b -> 0 <= Order.agent_id s ->
  0 < q -> q <= Order.quantity b -> q <= Order.quantity s ->
  Trade.create_from_orders tid b s q now =
  inr (Trade.mk tid (Order.price s) q (Order.agent_id b) (Order.agent_id s) now).
Proof.
  intros Hb Hs Hp Hab Has Hq Hqb Hqs.
  unfold Trade.create_from_orders, Order.is_buy, Order.is_sell, Trade.post_init.
  rewrite Hb, Hs. simpl.
  replace (q <=? 0) with false by (symmetry; apply Z.leb_gt; lia).
  replace (q >? Z.min (Order.quantity b) (Order.quantity s)) with false
    by (symmetry; rewrite Z.gtb_ltb; apply Z.ltb_ge; lia).
  replace (Qle_bool (Order.price s) 0) with false.
  2:{ symmetry. apply Qgt_bool_true in Hp. unfold Qgt_bool in Hp.
      apply negb_true_iff in Hp. exact Hp. }
  replace (Order.agent_id b <? 0) with false by (symmetry; apply Z.ltb_ge; lia).
  replace (Order.agent_id s <? 0) with false by (symmetry; apply Z.ltb_ge; lia).
  reflexivity.
Qed.

Lemma conserves_intro (crosses : Order.t -> bool) (order : Order.t)
      (opp own own' : list Order.t) (ts : list Trade.t) :
  Forall (fun r => 0 < Order.quantity r) opp ->
  0 < Order.quantity order ->
  map Trade.quantity ts = filter nonzero (fills_of crosses (Order.quantity order) opp) ->
  (Order.quantity order - Zsum (fills_of crosses (Order.quantity order) opp) = 0 ->
   own' = own) ->
  (0 < Order.quantity order - Zsum (fills_of crosses (Order.quantity order) opp) ->
   exists l1 l2,
     own = l1 ++ l2 /\
     own' = l1 ++ Order.set_quantity order
                    (Order.quantity order
                     - Zsum (fills_of crosses (Order.quantity order) opp)) :: l2) ->
  conserves order opp own
    (filter live (reduce_all opp (fills_of crosses (Order.quantity order) opp)))
    own' ts.
Proof.
  intros Hopp Hq Hts Hzero Hpos.
  destruct (fills_of_bounds crosses opp (Order.quantity order) Hopp) as [Hb Hsum];
    [lia|].
  exists (fills_of crosses (Order.quantity order) opp),
         (Order.quantity order - Zsum (fills_of crosses (Order.quantity order) opp)).
  repeat split; try assumption.
  - apply fills_of_length.
  - lia.
  - rewrite Hts, Zsum_filter_nonzero. lia.
Qed.

Lemma service_add_order_conserves (clock : nat -> Q) (order : Order.t)
      (s : OrderBookService.t) :
  wf_books (OrderBookService.buy_orders s) (OrderBookService.sell_orders s) ->
  valid_order order ->
  exists new_trades s',
    OrderBookService.add_order clock order s = (inr new_trades, s') /\
    conserves order
      (opposing_book order (OrderBookService.buy_orders s) (OrderBookService.sell_orders s))
      (own_book order (OrderBookService.buy_orders s) (OrderBookService.sell_orders s))
      (opposing_book order (OrderBookService.buy_orders s') (OrderBookService.sell_orders s'))
      (own_book order (OrderBookService.buy_orders s') (OrderBookService.sell_orders s'))
      new_trades.
Proof.
  intros [Hbuys Hsells] (Hp & Hq & Ha).
  unfold OrderBookService.add_order, bind, opposing_book, own_book.
  destruct (Order.order_type order) eqn:Hty.
  - unfold OrderBookService._process_buy_order.
    destruct (match_loop_total (Some (OrderBookService.max_trades_history s)) false
                (fun sell_order => Qle_bool (Order.price sell_order) (Order.price order))
                (fun trade_id sell_order trade_quantity now =>
                   Trade.create_from_orders trade_id order sell_order trade_quantity now)
                clock
                (fun r => valid_order r /\ Order.order_type r = SELL)
                (Order.quantity order))
      with (book := OrderBookService.sell_orders s) (i := 0%nat)
           (st := OrderBookService.start order s)
      as (st' & Hrun & Hrem & Hidx & ts & Hnew & Hqs).
    { intros tid r q now [(Hrp & Hrq & Hra) Hrt] Hq0 Hqr Hqo.
      eexists. split; [apply create_from_orders_ok; assumption|reflexivity]. }
    { eapply Forall_impl; [|exact Hsells]. intros r [Hv Ht]. repeat split; try apply Hv; assumption. }
    { simpl. lia. }
    rewrite Hrun. simpl in Hrem, Hidx, Hnew. rewrite Hidx, Hnew.
    rewrite pop_reversed_zero_idx.
    destruct (Z.ltb_spec 0 (remaining_quantity st')) as [Hpos|Hzero];
      destruct (last_opt ts); simpl; do 2 eexists; (split; [reflexivity|]);
        simpl; apply conserves_intro; try assumption;
          try (eapply Forall_impl; [|exact Hsells]; intros r [Hv _]; apply Hv);
          try (intros Hz; rewrite <- Hrem in Hz; lia);
          try (intros _; rewrite <- Hrem; apply insert_buy_split);
          try (intros _; reflexivity).
  - unfold OrderBookService._process_sell_order.
    destruct (match_loop_total (Some (OrderBookService.max_trades_history s)) false
                (fun buy_order => Qle_bool (Order.price order) (Order.price buy_order))
                (fun trade_id buy_order trade_quantity now =>
                   Trade.create_from_orders trade_id buy_order order trade_quantity now)
                clock
                (fun r => valid_order r /\ Order.order_type r = BUY)
                (Order.quantity order))
      with (book := OrderBookService.buy_orders s) (i := 0%nat)
           (st := OrderBookService.start order s)
      as (st' & Hrun & Hrem & Hidx & ts & Hnew & Hqs).
    { intros tid r q now [(Hrp & Hrq & Hra) Hrt] Hq0 Hqr Hqo.
      eexists. split; [apply create_from_orders_ok; assumption|reflexivity]. }
    { eapply Forall_impl; [|exact Hbuys]. intros r [Hv Ht]. repeat split; try apply Hv; assumption. }
    { simpl. lia. }
    rewrite Hrun. simpl in Hrem, Hidx, Hnew. rewrite Hidx, Hnew.
    rewrite pop_reversed_zero_idx.
    destruct (Z.ltb_spec 0 (remaining_quantity st')) as [Hpos|Hzero];
      destruct (last_opt ts); simpl; do 2 eexists; (split; [reflexivity|]);
        simpl; apply conserves_intro; try assumption;
          try (eapply Forall_impl; [|exact Hbuys]; intros r [Hv _]; apply Hv);
          try (intros Hz; rewrite <- Hrem in Hz; lia);
          try (intros _; rewrite <- Hrem; apply insert_sell_split);
          try (intros _; reflexivity).
Qed.

Lemma legacy_add_order_conserves (clock : nat -> Q) (order : Order.t)
      (s : Legacy.OrderBook.t) :
  Forall (fun r => 0 < Order.quantity r)
         (opposing_book order (Legacy.OrderBook.buy_orders s)
                        (Legacy.OrderBook.sell_orders s)) ->
  sorted_books (Legacy.OrderBook.buy_orders s) (Legacy.OrderBook.sell_orders s) ->
  0 < Order.quantity order ->
  exists new_trades s',
    Legacy.OrderBook.add_order clock order s = (inr new_trades, s') /\
    conserves order
      (opposing_book order (Legacy.OrderBook.buy_orders s) (Legacy.OrderBook.sell_orders s))
      (own_book order (Legacy.OrderBook.buy_orders s) (Legacy.OrderBook.sell_orders s))
      (opposing_book order (Legacy.OrderBook.buy_orders s') (Legacy.OrderBook.sell_orders s'))
      (own_book order (Legacy.OrderBook.buy_orders s') (Legacy.OrderBook.sell_orders s'))
      new_trades.
Proof.
  intros Hopp [Hb Hs] Hq.
  unfold Legacy.OrderBook.add_order, opposing_book, own_book in *.
  destruct (Order.order_type order) eqn:Hty.
  - destruct (match_loop_total None true
                (fun sell_order => Qle_bool (Order.price sell_order) (Order.price order))
                (fun trade_id sell_order trade_quantity now =>
                   inr (Trade.mk trade_id (Order.price sell_order) trade_quantity
                                 (Order.agent_id order) (Order.agent_id sell_order) now))
                clock (fun _ => True) (Order.quantity order))
      with (book := Legacy.OrderBook.sell_orders s) (i := 0%nat)
           (st := Legacy.OrderBook.start order s)
      as (st' & Hrun & Hrem & Hidx & ts & Hnew & Hqs).
    { intros tid r q now _ _ _ _. eexists. split; reflexivity. }
    { eapply Forall_impl; [|exact Hopp]. intros r Hr. split; [exact I|exact Hr]. }
    { simpl. lia. }
    rewrite Hrun. simpl in Hrem, Hidx, Hnew. rewrite Hidx, Hnew.
    rewrite pop_reversed_zero_idx.
    do 2 eexists. split; [reflexivity|]. simpl.
    apply conserves_intro; try assumption.
    + intros Hz. rewrite <- Hrem in Hz.
      destruct (Z.ltb_spec 0 (remaining_quantity st')); [lia|reflexivity].
    + intros Hpos. rewrite <- Hrem in *.
      destruct (Z.ltb_spec 0 (remaining_quantity st')); [|lia].
      rewrite stable_sort_append_buy by exact Hb. apply insert_buy_split.
  - destruct (match_loop_total None true
                (fun buy_order => Qle_bool (Order.price order) (Order.price buy_order))
                (fun trade_id buy_order trade_quantity now =>
                   inr (Trade.mk trade_id (Order.price buy_order) trade_quantity
                                 (Order.agent_id buy_order) (Order.agent_id order) now))
                clock (fun _ => True) (Order.quantity order))
      with (book := Legacy.OrderBook.buy_orders s) (i := 0%nat)
           (st := Legacy.OrderBook.start order s)
      as (st' & Hrun & Hrem & Hidx & ts & Hnew & Hqs).
    { intros tid r q now _ _ _ _. eexists. split; reflexivity. }
    { eapply Forall_impl; [|exact Hopp]. intros r Hr. split; [exact I|exact Hr]. }
    { simpl. lia. }
    rewrite Hrun. simpl in Hrem, Hidx, Hnew. rewrite Hidx, Hnew.
    rewrite pop_reversed_zero_idx.
    do 2 eexists. split; [reflexivity|]. simpl.
    apply conserves_intro; try assumption.
    + intros Hz. rewrite <- Hrem in Hz.
      destruct (Z.ltb_spec 0 (remaining_quantity st')); [lia|reflexivity].
    + intros Hpos. rewrite <- Hrem in *.
      destruct (Z.ltb_spec 0 (remaining_quantity st')); [|lia].
      rewrite stable_sort_append_sell by exact Hs. apply insert_sell_split.
Qed.

(** ** The price of a trade and the current price *)

Lemma last_opt_In {A : Type} (l : list A) (x : A) : last_opt l = Some x -> In x l.
Proof.
  unfold last_opt. intros H. apply in_rev.
  destruct (rev l) as [|y l']; [discriminate|].
  inversion H; subst. left. reflexivity.
Qed.

(** In [order_book.py] every trade is made at the price of a resting order
    of the opposing book that the incoming order crosses. *)
Lemma legacy_trade_price_resting (clock : nat -> Q) (order : Order.t)
      (s : Legacy.OrderBook.t) (ts : list Trade.t) (s' : Legacy.OrderBook.t) :
  Legacy.OrderBook.add_order clock order s = (inr ts, s') ->
  Forall (fun tr =>
            exists r,
              In r (opposing_book order (Legacy.OrderBook.buy_orders s)
                                  (Legacy.OrderBook.sell_orders s)) /\
              Trade.price tr = Order.price r)
         ts.
Proof.
  unfold Legacy.OrderBook.add_order, opposing_book.
  destruct (Order.order_type order);
    destruct (match_loop _ _ _ _ _ _ _ _) as [[book st] e] eqn:E;
    intros H; inversion H; subst; clear H;
    eapply (match_loop_trades _ _ _ _ _ (fun r tr => Trade.price tr = Order.price r))
      in E;
    try (intros tid r q now tr Hmk; inversion Hmk; reflexivity);
    destruct E as (pairs & Hnew & Hall & _); rewrite Hnew; simpl;
    apply Forall_map; (eapply Forall_impl; [|exact Hall]);
    intros p (Hin & _ & HT); exists (fst p); split; assumption.
Qed.

(** In [order_book_service.py] every trade is made at the price of the sell
    order: the resting order when a buy order comes in, the incoming order
    when a sell order comes in. *)
Lemma create_from_orders_price (tid : Z) (b s : Order.t) (q : Z) (now : Q)
      (tr : Trade.t) :
  Trade.create_from_orders tid b s q now = inr tr ->
  Trade.price tr = Order.price s /\ Trade.buyer_id tr = Order.agent_id b /\
  Trade.seller_id tr = Order.agent_id s /\ Trade.quantity tr = q.
Proof.
  unfold Trade.create_from_orders, Trade.post_init. simpl.
  repeat match goal with
         | |- (if ?c then _ else _) = _ -> _ => destruct c; [discriminate|]
         end.
  intros H. inversion H; subst. simpl. repeat split.
Qed.

Lemma service_trade_price_sell_side (clock : nat -> Q) (order : Order.t)
      (s : OrderBookService.t) (ts : list Trade.t) (s' : OrderBookService.t) :
  OrderBookService.add_order clock order s = (inr ts, s') ->
  Forall (fun tr =>
            match Order.order_type order with
            | BUY => exists r, In r (OrderBookService.sell_orders s) /\
                               Trade.price tr = Order.price r
            | SELL => Trade.price tr = Order.price order
            end)
         ts.
Proof.
  unfold OrderBookService.add_order, bind.
  destruct (Order.order_type order).
  - unfold OrderBookService._process_buy_order.
    destruct (match_loop _ _ _ _ _ _ _ _) as [[book st] e] eqn:E.
    eapply (match_loop_trades _ _ _ _ _ (fun r tr => Trade.price tr = Order.price r))
      in E; [|intros tid r q now tr Hmk; apply create_from_orders_price in Hmk; tauto].
    destruct E as (pairs & Hnew & Hall & _). simpl in Hnew.
    destruct e as [err|]; [discriminate|].
    destruct (0 <? remaining_quantity st);
      destruct (last_opt (new_trades st)); simpl;
        intros H; inversion H; subst; rewrite Hnew;
          apply Forall_map; (eapply Forall_impl; [|exact Hall]);
            intros p (Hin & _ & HT); exists (fst p); split; assumption.
  - unfold OrderBookService._process_sell_order.
    destruct (match_loop _ _ _ _ _ _ _ _) as [[book st] e] eqn:E.
    eapply (match_loop_trades _ _ _ _ _ (fun _ tr => Trade.price tr = Order.price order))
      in E; [|intros tid r q now tr Hmk; apply create_from_orders_price in Hmk; tauto].
    destruct E as (pairs & Hnew & Hall & _). simpl in Hnew.
    destruct e as [err|]; [discriminate|].
    destruct (0 <? remaining_quantity st);
      destruct (last_opt (new_trades st)); simpl;
        intros H; inversion H; subst; rewrite Hnew;
          apply Forall_map; (eapply Forall_impl; [|exact Hall]);
            intros p (Hin & _ & HT); assumption.
Qed.

Lemma service_process_keeps_price (clock : nat -> Q) (order : Order.t)
      (s : OrderBookService.t) :
  OrderBookService.current_price
    (snd (OrderBookService._process_buy_order clock order s)) =
  OrderBookService.current_price s /\
  OrderBookService.current_price
    (snd (OrderBookService._process_sell_order clock order s)) =
  OrderBookService.current_price s.
Proof.
  unfold OrderBookService._process_buy_order, OrderBookService._process_sell_order.
  split;
    destruct (match_loop _ _ _ _ _ _ _ _) as [[book st] e];
    destruct e as [err|]; [reflexivity| |reflexivity|];
    destruct (0 <? remaining_quantity st); reflexivity.
Qed.

(** The current price after [OrderBookService.add_order]. *)
Lemma service_add_order_price (clock : nat -> Q) (order : Order.t)
      (s : OrderBookService.t) :
  OrderBookService.current_price (snd (OrderBookService.add_order clock order s)) =
  match fst (OrderBookService.add_order clock order s) with
  | inr ts =>
    match last_opt ts with
    | Some tr => Trade.price tr
    | None => OrderBookService.current_price s
    end
  | inl _ => OrderBookService.current_price s
  end.
Proof.
  destruct (service_process_keeps_price clock order s) as [Hb Hs].
  unfold OrderBookService.add_order, bind.
  destruct (Order.order_type order).
  - destruct (OrderBookService._process_buy_order clock order s) as [[err|ts] s1];
      cbn [fst snd] in *; [exact Hb|].
    destruct (last_opt ts) eqn:El; cbn [fst snd modify ret];
      rewrite ?El; [reflexivity|exact Hb].
  - destruct (OrderBookService._process_sell_order clock order s) as [[err|ts] s1];
      cbn [fst snd] in *; [exact Hs|].
    destruct (last_opt ts) eqn:El; cbn [fst snd modify ret];
      rewrite ?El; [reflexivity|exact Hs].
Qed.

(** The current price after [OrderBook.add_order]. *)
Lemma legacy_add_order_price (clock : nat -> Q) (order : Order.t)
      (s : Legacy.OrderBook.t) :
  Legacy.OrderBook.current_price (snd (Legacy.OrderBook.add_order clock order s)) =
  match fst (Legacy.OrderBook.add_order clock order s) with
  | inr ts =>
    match last_opt ts with
    | Some tr => Trade.price tr
    | None => Legacy.OrderBook.current_price s
    end
  | inl _ => Legacy.OrderBook.current_price s
  end.
Proof.
  unfold Legacy.OrderBook.add_order.
  destruct (Order.order_type order);
    destruct (match_loop _ _ _ _ _ _ _ _) as [[book st] e] eqn:E;
    eapply (match_loop_trades _ _ _ _ _ (fun r tr => Trade.price tr = Order.price r))
      in E;
    try (intros tid r q now tr Hmk; inversion Hmk; reflexivity);
    destruct E as (pairs & Hnew & Hall & Hprice); simpl in *;
    rewrite Hprice, Hnew, last_opt_map;
    destruct (last_opt pairs) as [p|] eqn:Hlast; simpl; try reflexivity;
    apply last_opt_In in Hlast;
    rewrite Forall_forall in Hall; destruct (Hall p Hlast) as (_ & _ & HT);
    symmetry; exact HT.
Qed.

(** The trades of [OrderBookService] pass the checks of
    [Trade.__post_init__], so that the current price, and with it every
    price that [update_price] is given, stays positive. *)
Lemma create_from_orders_positive (tid : Z) (b s : Order.t) (q : Z) (now : Q)
      (tr : Trade.t) :
  Trade.create_from_orders tid b s q now = inr tr ->
  (0 < Trade.price tr)%Q /\ 0 < Trade.quantity tr.
Proof.
  unfold Trade.create_from_orders, Trade.post_init. simpl.
  repeat match goal with
         | |- (if ?c then _ else _) = _ -> _ => destruct c eqn:?; [discriminate|]
         end.
  intros H. inversion H; subst. simpl. split.
  - apply Qgt_bool_true. unfold Qgt_bool.
    match goal with H : Qle_bool _ _ = false |- _ => rewrite H end. reflexivity.
  - match goal with H : (q <=? 0) = false |- _ => apply Z.leb_gt in H; exact H end.
Qed.

Lemma service_current_price_positive (clock : nat -> Q) (order : Order.t)
      (s : OrderBookService.t) :
  (0 < OrderBookService.current_price s)%Q ->
  (0 < OrderBookService.current_price
         (snd (OrderBookService.add_order clock order s)))%Q.
Proof.
  intros Hpos. rewrite service_add_order_price.
  destruct (OrderBookService.add_order clock order s) as [[err|ts] s'] eqn:Hrun;
    simpl; [exact Hpos|].
  destruct (last_opt ts) as [tr|] eqn:Hlast; [|exact Hpos].
  apply last_opt_In in Hlast. revert Hrun.
  unfold OrderBookService.add_order, bind.
  destruct (Order.order_type order);
    [unfold OrderBookService._process_buy_order
    |unfold OrderBookService._process_sell_order];
    destruct (match_loop _ _ _ _ _ _ _ _) as [[book st] e] eqn:E;
    eapply (match_loop_trades _ _ _ _ _ (fun _ t => (0 < Trade.price t)%Q)) in E;
    try (intros tid r q now t Hmk; apply create_from_orders_positive in Hmk; tauto);
    destruct E as (pairs & Hnew & Hall & _); simpl in Hnew;
    (destruct e as [err|]; [discriminate|]);
    destruct (0 <? remaining_quantity st);
    destruct (last_opt (new_trades st)); simpl;
    intros H; inversion H; subst; rewrite Hnew in Hlast;
    apply in_map_iff in Hlast; destruct Hlast as (p & <- & Hin);
    rewrite Forall_forall in Hall; apply (Hall p Hin).
Qed.

(** ** Well-formed books stay well-formed *)

Lemma reduce_all_valid (P : Order.t -> Prop) (opp : list Order.t) :
  (forall r q, P r -> P (Order.set_quantity r q)) ->
  forall fills,
    Forall (fun r => valid_order r /\ P r) opp ->
    Forall2 (fun r f => 0 <= f <= Order.quantity r) opp fills ->
    Forall (fun r => valid_order r /\ P r) (filter live (reduce_all opp fills)).
Proof.
  intros HP fills Hopp Hfills.
  induction Hfills as [|r f opp fills Hf Hrest IH]; [constructor|].
  inversion Hopp as [|? ? [(Hp & Hq & Ha) Hr] Hopp']; subst.
  unfold reduce_all. simpl. fold (reduce_all opp fills).
  unfold live at 1. simpl.
  destruct (Z.eqb_spec (Order.quantity r - f) 0) as [Hz|Hz]; simpl;
    [apply IH; assumption|].
  constructor; [|apply IH; assumption].
  split; [repeat split; simpl; try assumption; lia|apply HP; exact Hr].
Qed.

Lemma conserves_valid (P P' : Order.t -> Prop) (order : Order.t)
      (opp own opp' own' : list Order.t) (ts : list Trade.t) :
  (forall r q, P r -> P (Order.set_quantity r q)) ->
  (forall r q, P' r -> P' (Order.set_quantity r q)) ->
  conserves order opp own opp' own' ts ->
  valid_order order -> P' order ->
  Forall (fun r => valid_order r /\ P r) opp ->
  Forall (fun r => valid_order r /\ P' r) own ->
  Forall (fun r => valid_order r /\ P r) opp' /\
  Forall (fun r => valid_order r /\ P' r) own'.
Proof.
  intros HP HP' (fills & rem & _ & Hfills & _ & Hrem & _ & Hopp' & Hzero & Hpos)
         (Hp & Hq & Ha) Ho Hopp Hown.
  split.
  - rewrite Hopp'. apply reduce_all_valid; assumption.
  - destruct (Z.eq_dec rem 0) as [Hz|Hz]; [rewrite (Hzero Hz); exact Hown|].
    destruct Hpos as (l1 & l2 & Hl & ->); [lia|]. subst own.
    apply Forall_app in Hown. destruct Hown as [H1 H2].
    apply Forall_app. split; [exact H1|].
    constructor; [|exact H2].
    split; [repeat split; simpl; try assumption; lia|apply HP'; exact Ho].
Qed.

(** A valid order leaves the books of either engine well-formed; the books
    of a new engine are well-formed. *)
Lemma add_order_wf (clock : nat -> Q) (order : Order.t)
      (s : OrderBookService.t) (l : Legacy.OrderBook.t) :
  valid_order order ->
  (wf_books (OrderBookService.buy_orders s) (OrderBookService.sell_orders s) ->
   wf_books
     (OrderBookService.buy_orders (snd (OrderBookService.add_order clock order s)))
     (OrderBookService.sell_orders (snd (OrderBookService.add_order clock order s)))) /\
  (wf_books (Legacy.OrderBook.buy_orders l) (Legacy.OrderBook.sell_orders l) ->
   sorted_books (Legacy.OrderBook.buy_orders l) (Legacy.OrderBook.sell_orders l) ->
   wf_books
     (Legacy.OrderBook.buy_orders (snd (Legacy.OrderBook.add_order clock order l)))
     (Legacy.OrderBook.sell_orders (snd (Legacy.OrderBook.add_order clock order l)))).
Proof.
  intros Hv.
  assert (Hside : forall ty r q, Order.order_type r = ty ->
                                 Order.order_type (Order.set_quantity r q) = ty)
    by (intros ty r q H; exact H).
  split.
  - intros Hwf.
    destruct (service_add_order_conserves clock order s Hwf Hv) as (ts & s' & Hrun & Hc).
    rewrite Hrun. simpl. destruct Hwf as [Hb Hs].
    unfold opposing_book, own_book in Hc. unfold wf_books.
    destruct (Order.order_type order) eqn:Hty.
    + destruct (conserves_valid (fun r => Order.order_type r = SELL)
                  (fun r => Order.order_type r = BUY) _ _ _ _ _ _
                  (Hside SELL) (Hside BUY) Hc Hv Hty Hs Hb); tauto.
    + destruct (conserves_valid (fun r => Order.order_type r = BUY)
                  (fun r => Order.order_type r = SELL) _ _ _ _ _ _
                  (Hside BUY) (Hside SELL) Hc Hv Hty Hb Hs); tauto.
  - intros Hwf Hsorted.
    destruct (legacy_add_order_conserves clock order l) as (ts & l' & Hrun & Hc);
      [|exact Hsorted|apply Hv|].
    { destruct Hwf as [Hb Hs]. unfold opposing_book.
      destruct (Order.order_type order);
        (eapply Forall_impl; [|eassumption]); intros r [Hr _]; apply Hr. }
    rewrite Hrun. simpl. destruct Hwf as [Hb Hs].
    unfold opposing_book, own_book in Hc. unfold wf_books.
    destruct (Order.order_type order) eqn:Hty.
    + destruct (conserves_valid (fun r => Order.order_type r = SELL)
                  (fun r => Order.order_type r = BUY) _ _ _ _ _ _
                  (Hside SELL) (Hside BUY) Hc Hv Hty Hs Hb); tauto.
    + destruct (conserves_valid (fun r => Order.order_type r = BUY)
                  (fun r => Order.order_type r = SELL) _ _ _ _ _ _
                  (Hside BUY) (Hside SELL) Hc Hv Hty Hb Hs); tauto.
Qed.

(** ** Sequences of calls *)

(** A property of orders that does not look at the quantity and holds of
    the incoming order and of the resting orders holds of the resting
    orders after the call. *)
Lemma Forall_pop_reversed {A : Type} (P : A -> Prop) (idxs : list nat) (l : list A) :
  Forall P l -> Forall P (pop_reversed idxs l).
Proof.
  intros H. induction idxs as [|i idxs IH]; [exact H|].
  rewrite pop_reversed_cons. apply Forall_pop. exact IH.
Qed.

Lemma Forall_frame (P : Order.t -> Prop) (book book' : list Order.t) :
  (forall r q, P r -> P (Order.set_quantity r q)) ->
  Forall2 (fun r r' => r' = Order.set_quantity r (Order.quantity r')) book book' ->
  Forall P book -> Forall P book'.
Proof.
  intros HP Hf. induction Hf as [|r r' book book' Hr Hf IH]; intros H; [constructor|].
  inversion H; subst. constructor; [rewrite Hr; apply HP; assumption|auto].
Qed.

Lemma Forall_stable_sort (before : Q -> Q -> bool) (P : Order.t -> Prop)
      (l : list Order.t) :
  Forall P l -> Forall P (stable_sort before l).
Proof.
  intros H. induction H as [|x l Hx Hl IH]; [constructor|].
  simpl. induction IH as [|y l' Hy Hl' IH']; simpl; [repeat constructor; exact Hx|].
  destruct (before (Order.price y) (Order.price x)); repeat constructor; auto.
Qed.

Lemma add_order_Forall (P : Order.t -> Prop) (clock : nat -> Q) (order : Order.t)
      (s : OrderBookService.t) (l : Legacy.OrderBook.t) :
  (forall r q, P r -> P (Order.set_quantity r q)) ->
  P order ->
  (Forall P (OrderBookService.buy_orders s ++ OrderBookService.sell_orders s) ->
   Forall P (OrderBookService.buy_orders (snd (OrderBookService.add_order clock order s))
             ++ OrderBookService.sell_orders
                  (snd (OrderBookService.add_order clock order s)))) /\
  (Forall P (Legacy.OrderBook.buy_orders l ++ Legacy.OrderBook.sell_orders l) ->
   Forall P (Legacy.OrderBook.buy_orders (snd (Legacy.OrderBook.add_order clock order l))
             ++ Legacy.OrderBook.sell_orders
                  (snd (Legacy.OrderBook.add_order clock order l)))).
Proof.
  intros HP Ho. split; intros H; apply Forall_app in H; destruct H as [Hb Hs];
    apply Forall_app.
  - unfold OrderBookService.add_order, bind.
    destruct (Order.order_type order).
    + unfold OrderBookService._process_buy_order.
      destruct (match_loop _ _ _ _ _ _ _ _) as [[sells st] e] eqn:E.
      apply match_loop_frame in E.
      pose proof (Forall_frame P _ _ HP E Hs) as Hs'.
      destruct e as [err|]; [split; assumption|].
      destruct (0 <? remaining_quantity st);
        destruct (last_opt (new_trades st)); simpl; split;
          try (apply Forall_insert_buy; [apply HP; exact Ho|exact Hb]);
          try (apply Forall_pop_reversed; exact Hs'); assumption.
    + unfold OrderBookService._process_sell_order.
      destruct (match_loop _ _ _ _ _ _ _ _) as [[buys st] e] eqn:E.
      apply match_loop_frame in E.
      pose proof (Forall_frame P _ _ HP E Hb) as Hb'.
      destruct e as [err|]; [split; assumption|].
      destruct (0 <? remaining_quantity st);
        destruct (last_opt (new_trades st)); simpl; split;
          try (apply Forall_insert_sell; [apply HP; exact Ho|exact Hs]);
          try (apply Forall_pop_reversed; exact Hb'); assumption.
  - unfold Legacy.OrderBook.add_order.
    destruct (Order.order_type order);
      destruct (match_loop _ _ _ _ _ _ _ _) as [[book st] e] eqn:E;
      apply match_loop_frame in E; simpl.
    + pose proof (Forall_frame P _ _ HP E Hs) as Hs'.
      split; [|apply Forall_pop_reversed; exact Hs'].
      destruct (0 <? remaining_quantity st); [|exact Hb].
      apply Forall_stable_sort, Forall_app. split; [exact Hb|].
      repeat constructor. apply HP. exact Ho.
    + pose proof (Forall_frame P _ _ HP E Hb) as Hb'.
      split; [apply Forall_pop_reversed; exact Hb'|].
      destruct (0 <? remaining_quantity st); [|exact Hs].
      apply Forall_stable_sort, Forall_app. split; [exact Hs|].
      repeat constructor. apply HP. exact Ho.
Qed.

(** From any books in order whose orders are not younger than the orders
    to come, a sequence of orders in arrival order leaves the books in
    order. *)
Lemma runs_sorted (clock : nat -> Q) (orders : list Order.t) :
  in_arrival_order orders ->
  forall (s : OrderBookService.t) (l : Legacy.OrderBook.t),
    (sorted_books (OrderBookService.buy_orders s) (OrderBookService.sell_orders s) ->
     Forall (fun o => arrives_last o (OrderBookService.buy_orders s
                                      ++ OrderBookService.sell_orders s)) orders ->
     sorted_books (OrderBookService.buy_orders (service_run clock orders s))
                  (OrderBookService.sell_orders (service_run clock orders s))) /\
    (sorted_books (Legacy.OrderBook.buy_orders l) (Legacy.OrderBook.sell_orders l) ->
     Forall (fun o => arrives_last o (Legacy.OrderBook.buy_orders l
                                      ++ Legacy.OrderBook.sell_orders l)) orders ->
     sorted_books (Legacy.OrderBook.buy_orders (legacy_run clock orders l))
                  (Legacy.OrderBook.sell_orders (legacy_run clock orders l))).
Proof.
  intros Hord. induction Hord as [|o orders Hord IH Ho]; intros s l.
  - split; intros H _; exact H.
  - split; intros Hsorted Hlast; simpl;
      inversion Hlast as [|? ? Hfirst Hrest]; subst.
    + apply (proj1 (IH _ l)).
      * apply service_add_order_sorted; [exact Hsorted|].
        unfold arrives_last in Hfirst. apply Forall_app in Hfirst.
        unfold own_book. destruct (Order.order_type o); tauto.
      * rewrite Forall_forall in *. intros o' Hin.
        apply (proj1 (add_order_Forall
                        (fun r => (Order.timestamp r <= Order.timestamp o')%Q)
                        clock o s l (fun r q H => H) (Ho o' Hin))).
        apply Hrest. exact Hin.
    + apply (proj2 (IH s _)).
      * apply legacy_add_order_sorted; [exact Hsorted|].
        unfold arrives_last in Hfirst. apply Forall_app in Hfirst.
        unfold own_book. destruct (Order.order_type o); tauto.
      * rewrite Forall_forall in *. intros o' Hin.
        apply (proj2 (add_order_Forall
                        (fun r => (Order.timestamp r <= Order.timestamp o')%Q)
                        clock o s l (fun r q H => H) (Ho o' Hin))).
        apply Hrest. exact Hin.
Qed.

(** Closed goals on concrete books are settled by evaluation. *)
Ltac by_computation :=
  repeat first
    [ apply SSorted_nil | apply SSorted_cons | apply Forall_nil | apply Forall_cons
    | split
    | left; vm_compute; reflexivity
    | right; split; vm_compute; first [reflexivity | discriminate]
    | vm_compute; first [reflexivity | discriminate] ].

(** ** The claims on the matching engine *)

(** C1. The claim: every trade of [addOrder] is made at the price of the
    order that rested in the book, never at the price of the incoming
    order. [OrderBookService.add_order] breaks it when a sell order comes
    in: with one buy order resting at 100, a sell order at 90 is traded at
    90, the price of the incoming order, because [Trade.create_from_orders]
    always takes the price of its sell order. [OrderBook.add_order] of
    [order_book.py] trades the same two orders at 100. *)
Theorem C1_sell_order_traded_at_its_own_price :
  forall (clock : nat -> Q) (t0 t1 : Q),
    let resting := Order.mk 1 100 10 BUY 0 t0 in
    let incoming := Order.mk 2 90 10 SELL 1 t1 in
    let book := snd (OrderBookService.add_order clock resting
                       (OrderBookService.init 100 5000)) in
    let legacy_book := snd (Legacy.OrderBook.add_order clock resting
                              (Legacy.OrderBook.init 100)) in
    OrderBookService.buy_orders book = [resting] /\
    OrderBookService.sell_orders book = [] /\
    fst (OrderBookService.add_order clock incoming book) =
    inr [Trade.mk 1 (Order.price incoming) 10 0 1 (clock 0%nat)] /\
    fst (Legacy.OrderBook.add_order clock incoming legacy_book) =
    inr [Trade.mk 1 (Order.price resting) 10 0 1 (clock 0%nat)] /\
    ~ (Order.price incoming == Order.price resting)%Q.
Proof.
  intros clock t0 t1. cbv zeta.
  repeat split; try reflexivity.
  intros H. discriminate H.
Qed.

(** C4. From an empty book with initial price 100, Sell 10@99, Sell 10@101
    and Buy 15@100 give one trade of 10 at 99; 5@100 rests in the buy
    book, the sell book holds 10@101 only, the best bid is 100, the best
    ask 101 and the spread 1. Both engines, whatever the identifiers, the
    owners, the time stamps and the cap on the history of trades. *)
Theorem C4_worked_example :
  forall (clock1 clock2 clock3 : nat -> Q) (i1 i2 i3 : Z) (a1 a2 a3 : nat)
         (t1 t2 t3 : Q) (cap : Z),
    let sell99 := Order.mk i1 99 10 SELL (Z.of_nat a1) t1 in
    let sell101 := Order.mk i2 101 10 SELL (Z.of_nat a2) t2 in
    let buy100 := Order.mk i3 100 15 BUY (Z.of_nat a3) t3 in
    let s1 := snd (OrderBookService.add_order clock1 sell99
                     (OrderBookService.init 100 cap)) in
    let s2 := snd (OrderBookService.add_order clock2 sell101 s1) in
    let s3 := snd (OrderBookService.add_order clock3 buy100 s2) in
    let l1 := snd (Legacy.OrderBook.add_order clock1 sell99
                     (Legacy.OrderBook.init 100)) in
    let l2 := snd (Legacy.OrderBook.add_order clock2 sell101 l1) in
    let l3 := snd (Legacy.OrderBook.add_order clock3 buy100 l2) in
    (fst (OrderBookService.add_order clock3 buy100 s2) =
     inr [Trade.mk 1 99 10 (Z.of_nat a3) (Z.of_nat a1) (clock3 0%nat)] /\
     OrderBookService.buy_orders s3 = [Order.set_quantity buy100 5] /\
     OrderBookService.sell_orders s3 = [sell101] /\
     fst (OrderBookService.get_best_bid s3) = inr (Some 100%Q) /\
     fst (OrderBookService.get_best_ask s3) = inr (Some 101%Q) /\
     fst (OrderBookService.get_spread s3) = inr (Some 1%Q)) /\
    (fst (Legacy.OrderBook.add_order clock3 buy100 l2) =
     inr [Trade.mk 1 99 10 (Z.of_nat a3) (Z.of_nat a1) (clock3 0%nat)] /\
     Legacy.OrderBook.buy_orders l3 = [Order.set_quantity buy100 5] /\
     Legacy.OrderBook.sell_orders l3 = [sell101] /\
     fst (Legacy.OrderBook.get_best_bid l3) = inr (Some 100%Q) /\
     fst (Legacy.OrderBook.get_best_ask l3) = inr (Some 101%Q) /\
     fst (Legacy.OrderBook.get_spread l3) = inr (Some 1%Q)).
Proof.
  intros clock1 clock2 clock3 i1 i2 i3 a1 a2 a3 t1 t2 t3 cap. cbv zeta.
  destruct a1, a3; repeat split; reflexivity.
Qed.

(** C5. After a call of [add_order], of either engine, on books in
    price-time order (buy book: higher price first; sell book: lower price
    first; at equal price the earlier time stamp first) with an incoming
    order that is not older than the orders that rest, both books are in
    price-time order again. So the books of a new engine are in price-time
    order after every call of a sequence of calls whose orders come in
    with time stamps that do not decrease. The other two methods that
    change the books, [clear_old_orders] and [reset] of
    [OrderBookService], keep them in order as well. *)
Theorem C5_price_time_order_preserved :
  forall (clock : nat -> Q) (order : Order.t)
         (s : OrderBookService.t) (l : Legacy.OrderBook.t),
    sorted_books (OrderBookService.buy_orders s) (OrderBookService.sell_orders s) ->
    arrives_last order
      (own_book order (OrderBookService.buy_orders s) (OrderBookService.sell_orders s)) ->
    sorted_books (Legacy.OrderBook.buy_orders l) (Legacy.OrderBook.sell_orders l) ->
    arrives_last order
      (own_book order (Legacy.OrderBook.buy_orders l) (Legacy.OrderBook.sell_orders l)) ->
    sorted_books
      (OrderBookService.buy_orders (snd (OrderBookService.add_order clock order s)))
      (OrderBookService.sell_orders (snd (OrderBookService.add_order clock order s))) /\
    sorted_books
      (Legacy.OrderBook.buy_orders (snd (Legacy.OrderBook.add_order clock order l)))
      (Legacy.OrderBook.sell_orders (snd (Legacy.OrderBook.add_order clock order l))) /\
    (forall orders p cap,
        in_arrival_order orders ->
        sorted_books
          (OrderBookService.buy_orders
             (service_run clock orders (OrderBookService.init p cap)))
          (OrderBookService.sell_orders
             (service_run clock orders (OrderBookService.init p cap)))) /\
    (forall orders p,
        in_arrival_order orders ->
        sorted_books
          (Legacy.OrderBook.buy_orders
             (legacy_run clock orders (Legacy.OrderBook.init p)))
          (Legacy.OrderBook.sell_orders
             (legacy_run clock orders (Legacy.OrderBook.init p)))) /\
    (forall now max_age,
        sorted_books
          (OrderBookService.buy_orders
             (snd (OrderBookService.clear_old_orders now max_age s)))
          (OrderBookService.sell_orders
             (snd (OrderBookService.clear_old_orders now max_age s))) /\
        sorted_books
          (OrderBookService.buy_orders (snd (OrderBookService.reset s)))
          (OrderBookService.sell_orders (snd (OrderBookService.reset s)))).
Proof.
  intros clock order s l Hs Hso Hl Hlo.
  split; [apply service_add_order_sorted; assumption|].
  split; [apply legacy_add_order_sorted; assumption|].
  assert (Hnil : forall orders : list Order.t,
             Forall (fun o => arrives_last o ([] ++ [])) orders).
  { intros orders. apply Forall_forall. intros o _. constructor. }
  split; [|split].
  - intros orders p cap Hord.
    apply (proj1 (runs_sorted clock orders Hord (OrderBookService.init p cap)
                    (Legacy.OrderBook.init p)));
      [split; constructor|apply Hnil].
  - intros orders p Hord.
    apply (proj2 (runs_sorted clock orders Hord (OrderBookService.init p 0)
                    (Legacy.OrderBook.init p)));
      [split; constructor|apply Hnil].
  - intros now max_age. destruct Hs as [Hb Hs]. simpl.
    repeat split; try constructor; apply SSorted_filter; assumption.
Qed.

Lemma C5_witness :
  sorted_books
    (OrderBookService.buy_orders
       (snd (OrderBookService.add_order ex_clock ex_buy100 ex_service)))
    (OrderBookService.sell_orders
       (snd (OrderBookService.add_order ex_clock ex_buy100 ex_service))) /\
  sorted_books
    (Legacy.OrderBook.buy_orders
       (snd (Legacy.OrderBook.add_order ex_clock ex_buy100 ex_legacy)))
    (Legacy.OrderBook.sell_orders
       (snd (Legacy.OrderBook.add_order ex_clock ex_buy100 ex_legacy))).
Proof.
  assert (H := C5_price_time_order_preserved ex_clock ex_buy100 ex_service ex_legacy).
  split; apply H; by_computation.
Defined.

(** C9. A call of [add_order] with a valid order on a well-formed book
    (and, for [order_book.py], books in order) returns its trades without
    raising, and conserves quantity: the quantity of the incoming order is
    the sum of the quantities of the trades plus the remainder that rests
    (nothing rests when the remainder is zero); every resting order of the
    opposing book loses what was traded against it, and leaves the book
    exactly when nothing of it is left. *)
Theorem C9_quantity_conserved :
  forall (clock : nat -> Q) (order : Order.t)
         (s : OrderBookService.t) (l : Legacy.OrderBook.t),
    valid_order order ->
    wf_books (OrderBookService.buy_orders s) (OrderBookService.sell_orders s) ->
    wf_books (Legacy.OrderBook.buy_orders l) (Legacy.OrderBook.sell_orders l) ->
    sorted_books (Legacy.OrderBook.buy_orders l) (Legacy.OrderBook.sell_orders l) ->
    (exists ts s',
        OrderBookService.add_order clock order s = (inr ts, s') /\
        conserves order
          (opposing_book order (OrderBookService.buy_orders s)
                         (OrderBookService.sell_orders s))
          (own_book order (OrderBookService.buy_orders s)
                    (OrderBookService.sell_orders s))
          (opposing_book order (OrderBookService.buy_orders s')
                         (OrderBookService.sell_orders s'))
          (own_book order (OrderBookService.buy_orders s')
                    (OrderBookService.sell_orders s'))
          ts) /\
    (exists ts l',
        Legacy.OrderBook.add_order clock order l = (inr ts, l') /\
        conserves order
          (opposing_book order (Legacy.OrderBook.buy_orders l)
                         (Legacy.OrderBook.sell_orders l))
          (own_book order (Legacy.OrderBook.buy_orders l)
                    (Legacy.OrderBook.sell_orders l))
          (opposing_book order (Legacy.OrderBook.buy_orders l')
                         (Legacy.OrderBook.sell_orders l'))
          (own_book order (Legacy.OrderBook.buy_orders l')
                    (Legacy.OrderBook.sell_orders l'))
          ts).
Proof.
  intros clock order s l Hv Hs [Hlb Hls] Hsorted.
  split; [apply service_add_order_conserves; assumption|].
  apply legacy_add_order_conserves; [|assumption|apply Hv].
  unfold opposing_book.
  destruct (Order.order_type order);
    (eapply Forall_impl; [|eassumption]); intros r [Hr _]; apply Hr.
Qed.

Lemma C9_witness :
  (exists ts s',
      OrderBookService.add_order ex_clock ex_buy100 ex_service = (inr ts, s') /\
      conserves ex_buy100
        (opposing_book ex_buy100 (OrderBookService.buy_orders ex_service)
                       (OrderBookService.sell_orders ex_service))
        (own_book ex_buy100 (OrderBookService.buy_orders ex_service)
                  (OrderBookService.sell_orders ex_service))
        (opposing_book ex_buy100 (OrderBookService.buy_orders s')
                       (OrderBookService.sell_orders s'))
        (own_book ex_buy100 (OrderBookService.buy_orders s')
                  (OrderBookService.sell_orders s'))
        ts) /\
  (exists ts l',
      Legacy.OrderBook.add_order ex_clock ex_buy100 ex_legacy = (inr ts, l') /\
      conserves ex_buy100
        (opposing_book ex_buy100 (Legacy.OrderBook.buy_orders ex_legacy)
                       (Legacy.OrderBook.sell_orders ex_legacy))
        (own_book ex_buy100 (Legacy.OrderBook.buy_orders ex_legacy)
                  (Legacy.OrderBook.sell_orders ex_legacy))
        (opposing_book ex_buy100 (Legacy.OrderBook.buy_orders l')
                       (Legacy.OrderBook.sell_orders l'))
        (own_book ex_buy100 (Legacy.OrderBook.buy_orders l')
                  (Legacy.OrderBook.sell_orders l'))
        ts).
Proof.
  apply (C9_quantity_conserved ex_clock ex_buy100 ex_service ex_legacy);
    by_computation.
Defined.

(** C10. [add_order], of either engine, leaves the current price as it is
    when it returns no trade (or raises), and sets it to the price of the
    last trade it returns otherwise; [get_best_bid], [get_best_ask],
    [get_spread] and [get_order_book_data] leave the whole engine, and so
    the current price and both books, as they found it. *)
Theorem C10_current_price_and_queries :
  forall (clock : nat -> Q) (order : Order.t) (levels : Z)
         (s : OrderBookService.t) (l : Legacy.OrderBook.t),
    OrderBookService.current_price (snd (OrderBookService.add_order clock order s)) =
    match fst (OrderBookService.add_order clock order s) with
    | inr ts =>
      match last_opt ts with
      | Some tr => Trade.price tr
      | None => OrderBookService.current_price s
      end
    | inl _ => OrderBookService.current_price s
    end /\
    Legacy.OrderBook.current_price (snd (Legacy.OrderBook.add_order clock order l)) =
    match fst (Legacy.OrderBook.add_order clock order l) with
    | inr ts =>
      match last_opt ts with
      | Some tr => Trade.price tr
      | None => Legacy.OrderBook.current_price l
      end
    | inl _ => Legacy.OrderBook.current_price l
    end /\
    (snd (OrderBookService.get_best_bid s) = s /\
     snd (OrderBookService.get_best_ask s) = s /\
     snd (OrderBookService.get_spread s) = s /\
     snd (OrderBookService.get_order_book_data levels s) = s) /\
    (snd (Legacy.OrderBook.get_best_bid l) = l /\
     snd (Legacy.OrderBook.get_best_ask l) = l /\
     snd (Legacy.OrderBook.get_spread l) = l /\
     snd (Legacy.OrderBook.get_order_book_data levels l) = l).
Proof.
  intros clock order levels s l.
  split; [apply service_add_order_price|].
  split; [apply legacy_add_order_price|].
  repeat split; reflexivity.
Qed.

(** With nothing to trade, [add_order] of either engine returns no trade
    and leaves both books as they are. *)
Lemma add_order_nonpositive_quantity (clock : nat -> Q) (order : Order.t)
      (s : OrderBookService.t) (l : Legacy.OrderBook.t) :
  Order.quantity order <= 0 ->
  OrderBookService.add_order clock order s = (inr [], s) /\
  fst (Legacy.OrderBook.add_order clock order l) = inr [] /\
  Legacy.OrderBook.buy_orders (snd (Legacy.OrderBook.add_order clock order l)) =
  Legacy.OrderBook.buy_orders l /\
  Legacy.OrderBook.sell_orders (snd (Legacy.OrderBook.add_order clock order l)) =
  Legacy.OrderBook.sell_orders l.
Proof.
  intros Hq.
  unfold OrderBookService.add_order, bind, OrderBookService._process_buy_order,
    OrderBookService._process_sell_order, Legacy.OrderBook.add_order.
  destruct (Order.order_type order);
    rewrite !match_loop_idle by (simpl; lia); simpl;
    (replace (0 <? Order.quantity order) with false
      by (symmetry; apply Z.ltb_ge; lia));
    simpl; destruct s, l; repeat split.
Qed.

(** C2, the claim as stated fails: an order with price 0 and quantity 5 is
    taken by [add_order] of either engine without an exception, and rests
    in the buy book. *)
Lemma C2_counterexample :
  (Order.price ex_free_order <= 0)%Q /\
  fst (OrderBookService.add_order ex_clock ex_free_order
         (OrderBookService.init 100 5000)) = inr [] /\
  OrderBookService.buy_orders
    (snd (OrderBookService.add_order ex_clock ex_free_order
            (OrderBookService.init 100 5000))) = [ex_free_order] /\
  fst (Legacy.OrderBook.add_order ex_clock ex_free_order
         (Legacy.OrderBook.init 100)) = inr [] /\
  Legacy.OrderBook.buy_orders
    (snd (Legacy.OrderBook.add_order ex_clock ex_free_order
            (Legacy.OrderBook.init 100))) = [ex_free_order].
Proof.
  repeat split; try reflexivity. vm_compute. discriminate.
Qed.

(** C2, amended. An order with price <= 0 or quantity <= 0 is refused
    where it is built: the constructor of [models/order.py] raises
    [ValueError], and [place_order], which builds the order and hands it to
    [OrderBookService.add_order], raises with it and leaves the engine, and
    so both books, as it found them. *)
Theorem C2_invalid_order_refused_at_construction :
  forall (clock : nat -> Q) (id : Z) (price : Q) (quantity : Z)
         (order_type : OrderType) (agent_id : Z) (now : Q)
         (s : OrderBookService.t),
    (price <= 0)%Q \/ quantity <= 0 ->
    (exists msg,
        Order.new id price quantity order_type agent_id now = inl (ValueError msg)) /\
    (exists msg,
        TradingSimulator.place_order clock price quantity order_type agent_id now s =
        (inl (ValueError msg), s)).
Proof.
  intros clock id price quantity order_type agent_id now s H.
  assert (Hnew : forall i, exists msg,
               Order.new i price quantity order_type agent_id now =
               inl (ValueError msg)).
  { intros i. unfold Order.new, Order.post_init. simpl.
    destruct (Qle_bool price 0) eqn:Hp; [eexists; reflexivity|].
    destruct (Z.leb_spec quantity 0) as [Hq|Hq]; [eexists; reflexivity|].
    exfalso. destruct H as [H|H]; [|lia].
    apply Qle_bool_iff in H. congruence. }
  split; [apply Hnew|].
  unfold TradingSimulator.place_order.
  destruct (Hnew (OrderBookService.next_order_id s)) as [msg ->].
  exists msg. reflexivity.
Qed.

Lemma C2_witness :
  (exists msg, Order.new 7 (-1) 10 BUY 0 0 = inl (ValueError msg)) /\
  (exists msg,
      TradingSimulator.place_order ex_clock (-1) 10 BUY 0 0 ex_service =
      (inl (ValueError msg), ex_service)).
Proof.
  apply (C2_invalid_order_refused_at_construction ex_clock 7 (-1) 10 BUY 0 0 ex_service).
  left. vm_compute. discriminate.
Defined.

(** ** The settlement of trades in [run_cycle] *)

Lemma legacy_trade_parties (clock : nat -> Q) (order : Order.t)
      (s : Legacy.OrderBook.t) (ts : list Trade.t) (s' : Legacy.OrderBook.t) :
  Legacy.OrderBook.add_order clock order s = (inr ts, s') ->
  Forall (fun tr =>
            match Order.order_type order with
            | BUY =>
              Trade.buyer_id tr = Order.agent_id order /\
              exists r, In r (Legacy.OrderBook.sell_orders s) /\
                        Trade.seller_id tr = Order.agent_id r
            | SELL =>
              Trade.seller_id tr = Order.agent_id order /\
              exists r, In r (Legacy.OrderBook.buy_orders s) /\
                        Trade.buyer_id tr = Order.agent_id r
            end)
         ts.
Proof.
  unfold Legacy.OrderBook.add_order.
  destruct (Order.order_type order);
    destruct (match_loop _ _ _ _ _ _ _ _) as [[book st] e] eqn:E;
    intros H; inversion H; subst; clear H.
  - eapply (match_loop_trades _ _ _ _ _
              (fun r tr => Trade.buyer_id tr = Order.agent_id order /\
                           Trade.seller_id tr = Order.agent_id r)) in E;
      [|intros tid r q now tr Hmk; inversion Hmk; split; reflexivity].
    destruct E as (pairs & Hnew & Hall & _). rewrite Hnew. simpl.
    apply Forall_map. eapply Forall_impl; [|exact Hall].
    intros p (Hin & _ & Hb & Hs). split; [exact Hb|].
    exists (fst p). split; assumption.
  - eapply (match_loop_trades _ _ _ _ _
              (fun r tr => Trade.seller_id tr = Order.agent_id order /\
                           Trade.buyer_id tr = Order.agent_id r)) in E;
      [|intros tid r q now tr Hmk; inversion Hmk; split; reflexivity].
    destruct E as (pairs & Hnew & Hall & _). rewrite Hnew. simpl.
    apply Forall_map. eapply Forall_impl; [|exact Hall].
    intros p (Hin & _ & Hb & Hs). split; [exact Hb|].
    exists (fst p). split; assumption.
Qed.

Lemma settle_as_buyer (ts : list Trade.t) :
  forall a,
    Forall (fun tr => Trade.buyer_id tr = Legacy.Agent.id a) ts ->
    Legacy.Agent.id (fold_left Legacy.TradingSimulator.settle ts a) =
    Legacy.Agent.id a /\
    Legacy.Agent.position (fold_left Legacy.TradingSimulator.settle ts a) =
    Legacy.Agent.position a + Zsum (map Trade.quantity ts) /\
    (Legacy.Agent.balance (fold_left Legacy.TradingSimulator.settle ts a) ==
     Legacy.Agent.balance a - Qsum (map Trade.get_total_value ts))%Q.
Proof.
  induction ts as [|tr ts IH]; intros a H.
  - simpl. repeat split; [unfold Zsum; simpl; lia|unfold Qsum; simpl; ring].
  - inversion H as [|? ? Htr Hts]; subst. simpl fold_left.
    set (a1 := Legacy.Agent.update_after_trade (Trade.price tr)
                 (Trade.quantity tr) true a).
    assert (Hstep : Legacy.TradingSimulator.settle a tr = a1).
    { unfold Legacy.TradingSimulator.settle. rewrite Htr, Z.eqb_refl. reflexivity. }
    rewrite Hstep.
    destruct (IH a1) as (Hid & Hpos & Hbal); [exact Hts|].
    rewrite Hid, Hpos, Hbal. simpl map. rewrite Zsum_cons, Qsum_cons.
    unfold a1, Trade.get_total_value. simpl.
    repeat split; [lia|ring].
Qed.

Lemma settle_as_seller (ts : list Trade.t) :
  forall a,
    Forall (fun tr => Trade.buyer_id tr <> Legacy.Agent.id a /\
                      Trade.seller_id tr = Legacy.Agent.id a) ts ->
    Legacy.Agent.id (fold_left Legacy.TradingSimulator.settle ts a) =
    Legacy.Agent.id a /\
    Legacy.Agent.position (fold_left Legacy.TradingSimulator.settle ts a) =
    Legacy.Agent.position a - Zsum (map Trade.quantity ts) /\
    (Legacy.Agent.balance (fold_left Legacy.TradingSimulator.settle ts a) ==
     Legacy.Agent.balance a + Qsum (map Trade.get_total_value ts))%Q.
Proof.
  induction ts as [|tr ts IH]; intros a H.
  - simpl. repeat split; [unfold Zsum; simpl; lia|unfold Qsum; simpl; ring].
  - inversion H as [|? ? [Hb Hs] Hts]; subst. simpl fold_left.
    set (a1 := Legacy.Agent.update_after_trade (Trade.price tr)
                 (Trade.quantity tr) false a).
    assert (Hstep : Legacy.TradingSimulator.settle a tr = a1).
    { unfold Legacy.TradingSimulator.settle. apply Z.eqb_neq in Hb.
      rewrite Hb, Hs, Z.eqb_refl. reflexivity. }
    rewrite Hstep.
    destruct (IH a1) as (Hid & Hpos & Hbal); [exact Hts|].
    rewrite Hid, Hpos, Hbal. simpl map. rewrite Zsum_cons, Qsum_cons.
    unfold a1, Trade.get_total_value. simpl.
    repeat split; [lia|ring].
Qed.

(** An agent that places no order in the cycle is left as it is by the
    loop over the agents. *)
Lemma agents_loop_idle_agent (strategy_order : Legacy.Agent.t -> option Order.t)
      (now : Q) (clock : nat -> nat -> Q) (pending : list Legacy.Agent.t) :
  forall j ob new_trades,
    Forall2 (fun a a' => strategy_order a = None -> a' = a) pending
      (fst (fst (Legacy.TradingSimulator.agents_loop strategy_order now clock j
                   pending ob new_trades))).
Proof.
  induction pending as [|a rest IH]; intros j ob nt; simpl; [constructor|].
  destruct (Legacy.TradingSimulator.agent_turn strategy_order now clock j a ob)
    as [[a' ob'] ts] eqn:Hturn.
  specialize (IH (S j) ob' (nt ++ ts)).
  destruct (Legacy.TradingSimulator.agents_loop _ _ _ _ rest ob' _)
    as [[rest' ob''] nt'].
  simpl in *. constructor; [|exact IH].
  intros Hnone. unfold Legacy.TradingSimulator.agent_turn,
                  Legacy.Agent.generate_order in Hturn.
  rewrite Hnone in Hturn. inversion Hturn; reflexivity.
Qed.

Lemma legacy_add_order_returns (clock : nat -> Q) (order : Order.t)
      (s : Legacy.OrderBook.t) :
  exists ts s', Legacy.OrderBook.add_order clock order s = (inr ts, s').
Proof.
  unfold Legacy.OrderBook.add_order.
  destruct (Order.order_type order);
    destruct (match_loop _ _ _ _ _ _ _ _) as [[book st] e];
    do 2 eexists; reflexivity.
Qed.

(** C3, the code departs from the claim. [run_cycle] settles each trade on
    the agent whose order came in and on no other: an agent that places no
    order in a cycle is left as it is, whatever is traded against the
    orders it has resting. In a cycle where agent 0 asks 99 for 10 units
    and agent 1 then bids 100 for 10 units, one trade is made, with agent 1
    as the buyer and agent 0 as the seller; agent 1 is settled and agent
    0, whose order rested, keeps its position 0 and its cash 10000, so that
    10 units and 990 of cash are held that no one gave. *)
Theorem C3_resting_party_not_settled :
  (forall (strategy_order : Legacy.Agent.t -> option Order.t) (now : Q)
          (clock : nat -> nat -> Q) (pending : list Legacy.Agent.t) (j : nat)
          (ob : Legacy.OrderBook.t) (new_trades : list Trade.t),
      Forall2 (fun a a' => strategy_order a = None -> a' = a) pending
        (fst (fst (Legacy.TradingSimulator.agents_loop strategy_order now clock j
                     pending ob new_trades)))) /\
  snd ex_cycle = [Trade.mk 1 99 10 1 0 0] /\
  map Legacy.Agent.position (fst (fst ex_cycle)) = [0; 10] /\
  map Legacy.Agent.balance (fst (fst ex_cycle)) = [10000%Q; 9010%Q] /\
  ~ settled [ex_agent 0; ex_agent 1] (fst (fst ex_cycle)) (snd ex_cycle).
Proof.
  split.
  { intros. apply agents_loop_idle_agent. }
  repeat split; try reflexivity.
  intros H. vm_compute in H.
  inversion H as [|a a' l l' [Hpos _] _]; subst.
  discriminate Hpos.
Qed.

(** What [run_cycle] does settle: the trades that [add_order] returns for
    the order of an agent, on that agent. With a buy order its position
    grows by the quantities traded and its cash shrinks by price times
    quantity; with a sell order that meets no buy order of its own, its
    position shrinks and its cash grows by the same amounts. *)
Lemma incoming_party_settled :
  forall (strategy_order : Legacy.Agent.t -> option Order.t) (now : Q)
         (clock : nat -> nat -> Q) (j : nat) (agent : Legacy.Agent.t)
         (ob : Legacy.OrderBook.t) (order : Order.t),
    strategy_order agent = Some order ->
    let turn := Legacy.TradingSimulator.agent_turn strategy_order now clock j agent ob in
    let agent' := fst (fst turn) in
    let ts := snd turn in
    (Order.order_type order = BUY ->
     Legacy.Agent.position agent' =
     Legacy.Agent.position agent + Zsum (map Trade.quantity ts) /\
     (Legacy.Agent.balance agent' ==
      Legacy.Agent.balance agent - Qsum (map Trade.get_total_value ts))%Q) /\
    (Order.order_type order = SELL ->
     Forall (fun r => Order.agent_id r <> Legacy.Agent.id agent)
            (Legacy.OrderBook.buy_orders ob) ->
     Legacy.Agent.position agent' =
     Legacy.Agent.position agent - Zsum (map Trade.quantity ts) /\
     (Legacy.Agent.balance agent' ==
      Legacy.Agent.balance agent + Qsum (map Trade.get_total_value ts))%Q).
Proof.
  intros strategy_order now clock j agent ob order Hstrat. cbv zeta.
  unfold Legacy.TradingSimulator.agent_turn, Legacy.Agent.generate_order.
  rewrite Hstrat.
  match goal with
  | |- context [Legacy.OrderBook.add_order ?c ?o ?b] =>
    destruct (legacy_add_order_returns c o b) as (ts & ob2 & Hadd);
      rewrite Hadd; pose proof (legacy_trade_parties _ _ _ _ _ Hadd) as Hparties
  end.
  simpl in Hparties. simpl fst. simpl snd.
  split.
  - intros Hty. rewrite Hty in Hparties.
    match goal with
    | |- context [fold_left _ ts ?a1] =>
      destruct (settle_as_buyer ts a1) as (_ & Hpos & Hbal)
    end.
    { eapply Forall_impl; [|exact Hparties]. intros tr [Hb _]. exact Hb. }
    split; [exact Hpos|exact Hbal].
  - intros Hty Hown. rewrite Hty in Hparties.
    match goal with
    | |- context [fold_left _ ts ?a1] =>
      destruct (settle_as_seller ts a1) as (_ & Hpos & Hbal)
    end.
    { eapply Forall_impl; [|exact Hparties].
      intros tr (Hs & r & Hin & Hb). split; [|exact Hs].
      rewrite Hb. rewrite Forall_forall in Hown. apply Hown. exact Hin. }
    split; [exact Hpos|exact Hbal].
Qed.

(** ** The histories of the simulation *)

Lemma slice_from_last_n {A : Type} (n : nat) (l : list A) :
  (0 < n)%nat -> slice_from (- Z.of_nat n) l = last_n n l.
Proof.
  intros Hn. unfold slice_from, last_n.
  replace (- Z.of_nat n <? 0) with true by (symmetry; apply Z.ltb_lt; lia).
  f_equal. lia.
Qed.

(** With a cap of at least 2, a history that outgrows its cap is cut to its
    last [cap // 2] entries, and a history within its cap only grows by the
    new entry. *)
Lemma append_capped_trailing_half {A : Type} (cap : Z) (x : A) (h : list A) :
  2 <= cap ->
  cut_to_trailing_half cap x h (SimulationService.append_capped cap x h).
Proof.
  intros Hcap. unfold cut_to_trailing_half, SimulationService.append_capped.
  assert (Hhalf : 1 <= cap / 2) by (apply Z.div_le_lower_bound; lia).
  assert (Hle : cap / 2 <= cap) by (apply Z.div_le_upper_bound; lia).
  split; intros Hlen.
  - replace (Z.of_nat (length (h ++ [x])) >? cap) with true
      by (symmetry; rewrite Z.gtb_ltb; apply Z.ltb_lt; lia).
    assert (Heq : slice_from (- (cap / 2)) (h ++ [x]) =
                  last_n (Z.to_nat (cap / 2)) (h ++ [x])).
    { rewrite <- (Z2Nat.id (cap / 2)) at 1 by lia.
      apply slice_from_last_n. lia. }
    cbv zeta. rewrite Heq.
    split; [reflexivity|].
    unfold last_n. rewrite length_skipn. lia.
  - replace (Z.of_nat (length (h ++ [x])) >? cap) with false
      by (symmetry; rewrite Z.gtb_ltb; apply Z.ltb_ge; lia).
    reflexivity.
Qed.

(** [_update_statistics] of [simulator.py] keeps the last 1000 entries, the
    whole cap, of a history of prices that outgrows it. *)
Lemma legacy_histories_full_cap (new_trades : list Trade.t)
      (s : Legacy.TradingSimulator.t) :
  (1000 <= length (Legacy.TradingSimulator.price_history s))%nat ->
  Legacy.TradingSimulator.price_history
    (Legacy.TradingSimulator._update_statistics new_trades s) =
  last_n 1000
    (Legacy.TradingSimulator.price_history s
     ++ [Legacy.OrderBook.current_price (Legacy.TradingSimulator.order_book s)]).
Proof.
  intros Hlen. unfold Legacy.TradingSimulator._update_statistics. cbv zeta.
  match goal with
  | |- context [if ?c then _ else _] =>
    replace c with true
      by (symmetry; rewrite Z.gtb_ltb; apply Z.ltb_lt; rewrite length_app; simpl; lia)
  end.
  simpl Legacy.TradingSimulator.price_history.
  change (-1000) with (- Z.of_nat 1000). apply slice_from_last_n. lia.
Qed.

(** C6, the claim as stated fails. [_update_statistics] of [simulator.py]
    cuts a history of prices of 1001 entries to its last 1000, the whole
    cap, and not to 500. And [SimulationService] with the cap 1, which
    [SimulationConfig] accepts, cuts nothing: [keep_size] is [0], the slice
    [h[-0:]] is the whole list, and the history grows with every call. *)
Lemma C6_counterexample :
  (length (Legacy.TradingSimulator.price_history ex_simulator_full) = 1000%nat /\
   length (Legacy.TradingSimulator.price_history
             (Legacy.TradingSimulator._update_statistics [] ex_simulator_full))
   = 1000%nat) /\
  (SimulationConfig.post_init ex_config_cap1 = inr ex_config_cap1 /\
   let s0 := SimulationService.init ex_config_cap1 in
   let s1 := SimulationService.update_price 101 s0 in
   let s2 := SimulationService.update_price 102 s1 in
   SimulationService.price_history s0 = [100%Q] /\
   SimulationService.price_history s1 = [100%Q; 101%Q] /\
   SimulationService.price_history s2 = [100%Q; 101%Q; 102%Q]).
Proof.
  split; [split; vm_compute; reflexivity|repeat split].
Qed.

(** C6, amended. In [SimulationService] with a cap [max_history_size] of at
    least 2, each of the four histories (prices, volumes, trade counts,
    spreads) that an appended entry makes longer than the cap is cut to
    its last [max_history_size // 2] entries, the trailing half of the
    cap; a history within the cap only gains the entry. *)
Theorem C6_histories_cut_to_trailing_half :
  forall (s : SimulationService.t) (new_price spread : Q) (volume count : Z),
    let cap := SimulationConfig.max_history_size (SimulationService.config s) in
    2 <= cap ->
    cut_to_trailing_half cap new_price (SimulationService.price_history s)
      (SimulationService.price_history (SimulationService.update_price new_price s)) /\
    cut_to_trailing_half cap volume (SimulationService.volume_history s)
      (SimulationService.volume_history (SimulationService.update_volume volume s)) /\
    cut_to_trailing_half cap count (SimulationService.trade_count_history s)
      (SimulationService.trade_count_history
         (SimulationService.update_trade_count count s)) /\
    cut_to_trailing_half cap spread (SimulationService.spread_history s)
      (SimulationService.spread_history (SimulationService.update_spread spread s)).
Proof.
  intros s new_price spread volume count cap Hcap. unfold cap in *. simpl.
  repeat split; apply append_capped_trailing_half; assumption.
Qed.

Lemma C6_witness :
  SimulationService.price_history (SimulationService.update_price 104 ex_capped_service)
  = [103%Q; 104%Q] /\
  SimulationService.spread_history (SimulationService.update_spread 2 ex_capped_service)
  = [1%Q; 2%Q].
Proof.
  destruct (C6_histories_cut_to_trailing_half ex_capped_service 104 2 7 1)
    as ((Hprice & _) & _ & _ & (_ & Hspread)); [vm_compute; discriminate|].
  split.
  - apply Hprice. vm_compute. reflexivity.
  - apply Hspread. vm_compute. discriminate.
Defined.

(** ** The volatility *)

Lemma Forall_skipn {A : Type} (P : A -> Prop) (l : list A) :
  forall n, Forall P l -> Forall P (skipn n l).
Proof.
  induction l as [|x l IH]; intros n H; destruct n; simpl; auto.
  inversion H; subst. apply IH. assumption.
Qed.

Lemma price_changes_returns (l : list Q) :
  Forall (fun p => ~ (p == 0)%Q) l ->
  SimulationService.price_changes l = inr (returns l).
Proof.
  induction l as [|a l IH]; intros H; [reflexivity|].
  inversion H as [|? ? Ha Hl]; subst.
  destruct l as [|b l]; [reflexivity|].
  change (SimulationService.price_changes (a :: b :: l))
    with (if Qeq_bool a 0 then inl ZeroDivisionError
          else match SimulationService.price_changes (b :: l) with
               | inl e => inl e
               | inr changes => inr (((b - a) / a)%Q :: changes)
               end).
  destruct (Qeq_bool a 0) eqn:E; [apply Qeq_bool_iff in E; contradiction|].
  rewrite (IH Hl). reflexivity.
Qed.

Lemma returns_length (l : list Q) : length (returns l) = (length l - 1)%nat.
Proof.
  unfold returns. rewrite length_map, length_combine.
  destruct l; cbn [length tl]; lia.
Qed.

(** [max(lo, min(x, hi))] clamps [x] into [lo, hi]. *)
Lemma py_max_min_clamp (lo hi x : Q) :
  (lo <= hi)%Q ->
  (py_max lo (py_min x hi) == clamp lo hi x)%Q /\
  (lo <= py_max lo (py_min x hi) <= hi)%Q.
Proof.
  intros Hle. unfold py_max, py_min, clamp.
  destruct (Qlt_bool hi x) eqn:E1;
    [apply Qlt_bool_true in E1|apply Qlt_bool_false in E1].
  - destruct (Qgt_bool hi lo) eqn:E2;
      [apply Qgt_bool_true in E2|apply Qgt_bool_false in E2];
      (destruct (Qlt_bool x lo) eqn:E3;
       [apply Qlt_bool_true in E3|apply Qlt_bool_false in E3]);
      repeat split; lra.
  - destruct (Qgt_bool x lo) eqn:E2;
      [apply Qgt_bool_true in E2|apply Qgt_bool_false in E2];
      (destruct (Qlt_bool x lo) eqn:E3;
       [apply Qlt_bool_true in E3|apply Qlt_bool_false in E3]);
      repeat split; lra.
Qed.

(** C7, the claim as stated fails. For the history 100, 110,
    [_calculate_volatility] of [simulator.py] returns 0.005: the only
    return rate is 0.1, its standard deviation 0. The mean of the absolute
    returns, 0.1, times two and clamped, is 0.05. *)
Lemma C7_counterexample :
  Legacy.TradingSimulator.price_history ex_simulator_two_prices = [100%Q; 110%Q] /\
  Legacy.TradingSimulator._calculate_volatility ex_simulator_two_prices =
  inr (5 # 1000)%Q /\
  (volatility_spec false [100%Q; 110%Q] == 5 # 100)%Q /\
  ~ (5 # 1000 == volatility_spec false [100%Q; 110%Q])%Q.
Proof.
  repeat split; try reflexivity. vm_compute. discriminate.
Qed.

(** C7, amended. For a history of at least two prices, all positive,
    [SimulationService.calculate_volatility] returns, in fast mode, 0.01,
    and otherwise the mean of the absolute per-step returns over the last
    five prices (all of them when there are fewer), times two, clamped
    into [0.005, 0.05]. Floats are read as rationals. *)
Theorem C7_volatility :
  forall s : SimulationService.t,
    (2 <= length (SimulationService.price_history s))%nat ->
    Forall (fun p => (0 < p)%Q) (SimulationService.price_history s) ->
    exists v,
      SimulationService.calculate_volatility s = inr v /\
      (v == volatility_spec
              (SimulationConfig.skip_volatility_calculation (SimulationService.config s))
              (SimulationService.price_history s))%Q /\
      (SimulationConfig.skip_volatility_calculation (SimulationService.config s) = true ->
       v = (1 # 100)%Q) /\
      ((5 # 1000) <= v <= (5 # 100))%Q.
Proof.
  intros s Hlen Hpos.
  unfold SimulationService.calculate_volatility, volatility_spec.
  replace (Z.of_nat (length (SimulationService.price_history s)) <? 2) with false
    by (symmetry; apply Z.ltb_ge; lia).
  destruct (SimulationConfig.skip_volatility_calculation (SimulationService.config s)).
  - exists (1 # 100)%Q. repeat split; try reflexivity; discriminate.
  - change (-5) with (- Z.of_nat 5). rewrite slice_from_last_n by lia.
    set (recent := last_n 5 (SimulationService.price_history s)).
    assert (Hrecent : (2 <= length recent)%nat).
    { unfold recent, last_n. rewrite length_skipn. lia. }
    replace (Z.of_nat (length recent) <? 2) with false
      by (symmetry; apply Z.ltb_ge; lia).
    rewrite price_changes_returns.
    2:{ unfold recent, last_n. apply Forall_skipn.
        eapply Forall_impl; [|exact Hpos]. intros p Hp Hz. cbv beta in *. lra. }
    pose proof (returns_length recent) as Hrl.
    destruct (returns recent) as [|c changes] eqn:Hret; [simpl in Hrl; lia|].
    eexists. split; [reflexivity|].
    assert (Hmean :
              (Qsum (map Qabs (c :: changes))
               / inject_Z (Z.of_nat (length (c :: changes))) =
               mean (map Qabs (c :: changes)))%Q).
    { unfold mean. rewrite length_map. reflexivity. }
    rewrite Hmean.
    destruct (py_max_min_clamp (5 # 1000) (5 # 100)
                (mean (map Qabs (c :: changes)) * 2)%Q) as [Heq Hb];
      [discriminate|].
    split; [exact Heq|]. split; [discriminate|exact Hb].
Qed.

Lemma C7_witness :
  exists v,
    SimulationService.calculate_volatility ex_history_service = inr v /\
    (v == volatility_spec false (SimulationService.price_history ex_history_service))%Q.
Proof.
  destruct (C7_volatility ex_history_service) as (v & Hv & Heq & _).
  - simpl. lia.
  - repeat constructor.
  - exists v. split; [exact Hv|exact Heq].
Defined.

(** ** The settings *)

(** C8, the claim as stated fails: out-of-range settings are taken without
    an exception and stored after being moved to the nearest bound, by the
    simulator of [services/trading_simulator.py] and by the one of
    [simulator.py]. *)
Lemma C8_counterexample :
  (SimulationConfig.avg_spread_cycles SimulationConfig.default = 50 /\
   TradingSimulator.set_avg_spread_cycles 0 SimulationConfig.default =
   (inr tt,
    SimulationConfig.mk 100 20 10000 1000 5000 false false 100 1000 1)) /\
  (SimulationConfig.balance_increase_cycles SimulationConfig.default = 100 /\
   SimulationConfig.balance_increase_amount SimulationConfig.default = 1000%Q /\
   TradingSimulator.set_balance_increase_settings 20000 (-5) SimulationConfig.default =
   (inr tt,
    SimulationConfig.mk 100 20 10000 1000 5000 false false 10000 0 50)) /\
  (Legacy.TradingSimulator.avg_spread_cycles ex_simulator = 50 /\
   fst (Legacy.TradingSimulator.set_avg_spread_cycles 0 ex_simulator) = inr tt /\
   Legacy.TradingSimulator.avg_spread_cycles
     (snd (Legacy.TradingSimulator.set_avg_spread_cycles 0 ex_simulator)) = 1) /\
  (Legacy.TradingSimulator.balance_increase_cycles ex_simulator = 100 /\
   fst (Legacy.TradingSimulator.set_balance_increase_settings 20000 (-5) ex_simulator)
   = inr tt /\
   Legacy.TradingSimulator.balance_increase_cycles
     (snd (Legacy.TradingSimulator.set_balance_increase_settings 20000 (-5)
             ex_simulator)) = 10000 /\
   Legacy.TradingSimulator.balance_increase_amount
     (snd (Legacy.TradingSimulator.set_balance_increase_settings 20000 (-5)
             ex_simulator)) = 0%Q).
Proof. repeat split. Qed.

Lemma py_max_0 (amount : Q) :
  ((0 <= amount)%Q -> (py_max 0 amount == amount)%Q) /\
  ((amount < 0)%Q -> py_max 0 amount = 0%Q).
Proof.
  unfold py_max.
  destruct (Qgt_bool amount 0) eqn:E;
    [apply Qgt_bool_true in E|apply Qgt_bool_false in E];
    split; intros H; try reflexivity; lra.
Qed.

(** C8, amended. [set_balance_increase_settings] and
    [set_avg_spread_cycles], of either simulator, never raise; they store
    the number of cycles moved into [1, 10000], resp. [1, 1000] (a value in
    range is stored as it is, a smaller one becomes 1, a larger one the
    upper bound) and the amount, a negative amount becoming 0; each changes
    its own settings only: every other field of the configuration, resp. of
    the simulator of [simulator.py], is as it was. *)
Theorem C8_settings_clamped :
  forall (cycles : Z) (amount : Q) (c : SimulationConfig.t)
         (l : Legacy.TradingSimulator.t),
    let cb := TradingSimulator.set_balance_increase_settings cycles amount c in
    let cs := TradingSimulator.set_avg_spread_cycles cycles c in
    let lb := Legacy.TradingSimulator.set_balance_increase_settings cycles amount l in
    let ls := Legacy.TradingSimulator.set_avg_spread_cycles cycles l in
    (fst cb = inr tt /\ fst cs = inr tt /\ fst lb = inr tt /\ fst ls = inr tt) /\
    (SimulationConfig.balance_increase_cycles (snd cb) =
     Legacy.TradingSimulator.balance_increase_cycles (snd lb) /\
     1 <= SimulationConfig.balance_increase_cycles (snd cb) <= 10000 /\
     (1 <= cycles <= 10000 ->
      SimulationConfig.balance_increase_cycles (snd cb) = cycles) /\
     (cycles < 1 -> SimulationConfig.balance_increase_cycles (snd cb) = 1) /\
     (10000 < cycles -> SimulationConfig.balance_increase_cycles (snd cb) = 10000)) /\
    (SimulationConfig.balance_increase_amount (snd cb) =
     Legacy.TradingSimulator.balance_increase_amount (snd lb) /\
     ((0 <= amount)%Q ->
      (SimulationConfig.balance_increase_amount (snd cb) == amount)%Q) /\
     ((amount < 0)%Q -> SimulationConfig.balance_increase_amount (snd cb) = 0%Q)) /\
    (SimulationConfig.avg_spread_cycles (snd cs) =
     Legacy.TradingSimulator.avg_spread_cycles (snd ls) /\
     1 <= SimulationConfig.avg_spread_cycles (snd cs) <= 1000 /\
     (1 <= cycles <= 1000 -> SimulationConfig.avg_spread_cycles (snd cs) = cycles) /\
     (cycles < 1 -> SimulationConfig.avg_spread_cycles (snd cs) = 1) /\
     (1000 < cycles -> SimulationConfig.avg_spread_cycles (snd cs) = 1000)) /\
    (only_balance_increase_set c (snd cb) /\
     only_avg_spread_cycles_set c (snd cs) /\
     legacy_only_balance_increase_set l (snd lb) /\
     legacy_only_avg_spread_cycles_set l (snd ls)).
Proof.
  intros cycles amount c l. cbv zeta.
  unfold only_balance_increase_set, only_avg_spread_cycles_set,
    legacy_only_balance_increase_set, legacy_only_avg_spread_cycles_set,
    legacy_rest_kept.
  simpl.
  destruct (py_max_0 amount) as [Hpos Hneg].
  repeat split; try reflexivity; try lia; assumption.
Qed.

Lemma C8_witness :
  SimulationConfig.avg_spread_cycles
    (snd (TradingSimulator.set_avg_spread_cycles 2000 SimulationConfig.default)) = 1000 /\
  SimulationConfig.balance_increase_amount
    (snd (TradingSimulator.set_balance_increase_settings 7 (-5)
            SimulationConfig.default)) = 0%Q.
Proof.
  split.
  - destruct (C8_settings_clamped 2000 0 SimulationConfig.default ex_simulator)
      as (_ & _ & _ & (_ & _ & _ & _ & Hhigh) & _).
    apply Hhigh. lia.
  - destruct (C8_settings_clamped 7 (-5) SimulationConfig.default ex_simulator)
      as (_ & _ & (_ & _ & Hneg) & _).
    apply Hneg. reflexivity.
Defined.

(** ** What a call of [add_order] trades, exactly *)

Section MatchLoopExact.
Variable max_trades_history : option Z.
Variable price_in_loop : bool.
Variable crosses : Order.t -> bool.
Variable create_trade : Z -> Order.t -> Z -> Q -> exn + Trade.t.
Variable clock : nat -> Q.
Variable P : Order.t -> Prop.
Variable bound : Z.
Variable mk_trade : Z -> Order.t -> Z -> Q -> Trade.t.
Hypothesis create_exact :
  forall tid r q now,
    P r -> 0 < q -> q <= Order.quantity r -> q <= bound ->
    create_trade tid r q now = inr (mk_trade tid r q now).

Local Notation "'loop'" :=
  (match_loop max_trades_history price_in_loop crosses create_trade clock).

Lemma match_loop_exact (book : list Order.t) :
  forall i st,
    Forall (fun r => P r /\ 0 < Order.quantity r) book ->
    remaining_quantity st <= bound ->
    exists st',
      loop i book st =
      (reduce_all book (fills_of crosses (remaining_quantity st) book), st', None) /\
      remaining_quantity st' =
      remaining_quantity st - Zsum (fills_of crosses (remaining_quantity st) book) /\
      orders_to_remove st' =
      orders_to_remove st
      ++ zero_idx i (reduce_all book (fills_of crosses (remaining_quantity st) book)) /\
      new_trades st' =
      new_trades st
      ++ trades_of mk_trade clock crosses (self_next_trade_id st)
                   (length (new_trades st)) (remaining_quantity st) book.
Proof.
  induction book as [|r rest IH]; intros i st Hbook Hrem.
  - exists st. simpl. rewrite !app_nil_r. repeat split. unfold Zsum; simpl; lia.
  - inversion Hbook as [|? ? [HP Hq] Hrest]; subst.
    rewrite match_loop_step. cbv zeta. simpl fills_of. simpl trades_of.
    destruct (crosses r && (0 <? remaining_quantity st)) eqn:Hc.
    + apply andb_true_iff in Hc. destruct Hc as [_ Hpos]. apply Z.ltb_lt in Hpos.
      set (q := Z.min (remaining_quantity st) (Order.quantity r)) in *.
      assert (Hq0 : 0 < q) by (unfold q; lia).
      rewrite (create_exact (self_next_trade_id st) r q
                            (clock (length (new_trades st))) HP Hq0)
        by (unfold q; lia).
      match goal with |- context [loop (S i) rest ?s] => set (st1 := s) end.
      destruct (IH (S i) st1 Hrest) as (st' & Hrun & Hrem' & Hidx & Hnew).
      { unfold st1. simpl. lia. }
      rewrite Hrun. exists st'. split; [reflexivity|].
      replace (remaining_quantity st1) with (remaining_quantity st - q) in *
        by reflexivity.
      split; [|split].
      * rewrite Hrem', Zsum_cons. lia.
      * rewrite Hidx. unfold reduce_all. simpl combine. simpl map.
        simpl zero_idx. unfold st1. simpl orders_to_remove.
        destruct (Order.quantity r - q =? 0);
          [rewrite <- app_assoc|]; reflexivity.
      * rewrite Hnew. unfold st1. simpl new_trades. simpl self_next_trade_id.
        rewrite <- app_assoc, length_app. simpl length.
        replace (length (new_trades st) + 1)%nat with (S (length (new_trades st)))
          by lia.
        reflexivity.
    + destruct (IH (S i) st Hrest Hrem) as (st' & Hrun & Hrem' & Hidx & Hnew).
      rewrite Hrun. exists st'.
      assert (Hred : reduce_all (r :: rest)
                       (0 :: fills_of crosses (remaining_quantity st) rest) =
                     r :: reduce_all rest (fills_of crosses (remaining_quantity st) rest)).
      { unfold reduce_all. simpl combine. simpl map. rewrite reduce_0. reflexivity. }
      rewrite Hred.
      split; [reflexivity|]. split; [|split].
      * rewrite Hrem', Zsum_cons. lia.
      * rewrite Hidx. simpl zero_idx.
        destruct (Z.eqb_spec (Order.quantity r) 0) as [Hz|_]; [lia|].
        reflexivity.
      * exact Hnew.
Qed.
End MatchLoopExact.

Lemma service_add_order_exact (clock : nat -> Q) (order : Order.t)
      (s : OrderBookService.t) :
  wf_books (OrderBookService.buy_orders s) (OrderBookService.sell_orders s) ->
  valid_order order ->
  let opp := opposing_book order (OrderBookService.buy_orders s)
                           (OrderBookService.sell_orders s) in
  let own := own_book order (OrderBookService.buy_orders s)
                      (OrderBookService.sell_orders s) in
  let fills := fills_of (crosses_of order) (Order.quantity order) opp in
  exists s',
    OrderBookService.add_order clock order s =
    (inr (trades_of (service_trade order) clock (crosses_of order)
                    (OrderBookService.next_trade_id s) 0 (Order.quantity order) opp),
     s') /\
    opposing_book order (OrderBookService.buy_orders s') (OrderBookService.sell_orders s')
    = filter live (reduce_all opp fills) /\
    own_book order (OrderBookService.buy_orders s') (OrderBookService.sell_orders s')
    = service_rest order (Order.quantity order - Zsum fills) own.
Proof.
  intros [Hbuys Hsells] (Hp & Hq & Ha). cbv zeta.
  unfold OrderBookService.add_order, bind, opposing_book, own_book,
    crosses_of, service_trade, service_rest.
  destruct (Order.order_type order) eqn:Hty.
  - unfold OrderBookService._process_buy_order.
    destruct (match_loop_exact (Some (OrderBookService.max_trades_history s)) false
                (fun sell_order => Qle_bool (Order.price sell_order) (Order.price order))
                (fun trade_id sell_order trade_quantity now =>
                   Trade.create_from_orders trade_id order sell_order trade_quantity now)
                clock
                (fun r => valid_order r /\ Order.order_type r = SELL)
                (Order.quantity order)
                (fun trade_id resting q now =>
                   Trade.mk trade_id (Order.price resting) q
                            (Order.agent_id order) (Order.agent_id resting) now))
      with (book := OrderBookService.sell_orders s) (i := 0%nat)
           (st := OrderBookService.start order s)
      as (st' & Hrun & Hrem & Hidx & Hnew).
    { intros tid r q now [(Hrp & Hrq & Hra) Hrt] Hq0 Hqr Hqo.
      apply create_from_orders_ok; assumption. }
    { eapply Forall_impl; [|exact Hsells]. intros r [Hv Ht]. repeat split; try apply Hv; assumption. }
    { simpl. lia. }
    rewrite Hrun. simpl in Hrem, Hidx, Hnew. rewrite Hidx, Hnew.
    rewrite pop_reversed_zero_idx. rewrite <- Hrem.
    destruct (Z.ltb_spec 0 (remaining_quantity st')) as [Hpos|Hzero];
      match goal with
      | |- context [last_opt ?l] => destruct (last_opt l)
      end; simpl; eexists; repeat split; reflexivity.
  - unfold OrderBookService._process_sell_order.
    destruct (match_loop_exact (Some (OrderBookService.max_trades_history s)) false
                (fun buy_order => Qle_bool (Order.price order) (Order.price buy_order))
                (fun trade_id buy_order trade_quantity now =>
                   Trade.create_from_orders trade_id buy_order order trade_quantity now)
                clock
                (fun r => valid_order r /\ Order.order_type r = BUY)
                (Order.quantity order)
                (fun trade_id resting q now =>
                   Trade.mk trade_id (Order.price order) q
                            (Order.agent_id resting) (Order.agent_id order) now))
      with (book := OrderBookService.buy_orders s) (i := 0%nat)
           (st := OrderBookService.start order s)
      as (st' & Hrun & Hrem & Hidx & Hnew).
    { intros tid r q now [(Hrp & Hrq & Hra) Hrt] Hq0 Hqr Hqo.
      apply create_from_orders_ok; assumption. }
    { eapply Forall_impl; [|exact Hbuys]. intros r [Hv Ht]. repeat split; try apply Hv; assumption. }
    { simpl. lia. }
    rewrite Hrun. simpl in Hrem, Hidx, Hnew. rewrite Hidx, Hnew.
    rewrite pop_reversed_zero_idx. rewrite <- Hrem.
    destruct (Z.ltb_spec 0 (remaining_quantity st')) as [Hpos|Hzero];
      match goal with
      | |- context [last_opt ?l] => destruct (last_opt l)
      end; simpl; eexists; repeat split; reflexivity.
Qed.

Lemma legacy_add_order_exact (clock : nat -> Q) (order : Order.t)
      (s : Legacy.OrderBook.t) :
  Forall (fun r => 0 < Order.quantity r)
         (opposing_book order (Legacy.OrderBook.buy_orders s)
                        (Legacy.OrderBook.sell_orders s)) ->
  0 < Order.quantity order ->
  let opp := opposing_book order (Legacy.OrderBook.buy_orders s)
                           (Legacy.OrderBook.sell_orders s) in
  let own := own_book order (Legacy.OrderBook.buy_orders s)
                      (Legacy.OrderBook.sell_orders s) in
  let fills := fills_of (crosses_of order) (Order.quantity order) opp in
  exists s',
    Legacy.OrderBook.add_order clock order s =
    (inr (trades_of (legacy_trade order) clock (crosses_of order)
                    (Legacy.OrderBook.next_trade_id s) 0 (Order.quantity order) opp),
     s') /\
    opposing_book order (Legacy.OrderBook.buy_orders s') (Legacy.OrderBook.sell_orders s')
    = filter live (reduce_all opp fills) /\
    own_book order (Legacy.OrderBook.buy_orders s') (Legacy.OrderBook.sell_orders s')
    = legacy_rest order (Order.quantity order - Zsum fills) own.
Proof.
  intros Hopp Hq. cbv zeta.
  unfold Legacy.OrderBook.add_order, opposing_book, own_book,
    crosses_of, legacy_trade, legacy_rest in *.
  destruct (Order.order_type order) eqn:Hty.
  - destruct (match_loop_exact None true
                (fun sell_order => Qle_bool (Order.price sell_order) (Order.price order))
                (fun trade_id sell_order trade_quantity now =>
                   inr (Trade.mk trade_id (Order.price sell_order) trade_quantity
                                 (Order.agent_id order) (Order.agent_id sell_order) now))
                clock (fun _ => True) (Order.quantity order)
                (fun trade_id resting q now =>
                   Trade.mk trade_id (Order.price resting) q
                            (Order.agent_id order) (Order.agent_id resting) now))
      with (book := Legacy.OrderBook.sell_orders s) (i := 0%nat)
           (st := Legacy.OrderBook.start order s)
      as (st' & Hrun & Hrem & Hidx & Hnew).
    { intros tid r q now _ _ _ _. reflexivity. }
    { eapply Forall_impl; [|exact Hopp]. intros r Hr. split; [exact I|exact Hr]. }
    { simpl. lia. }
    rewrite Hrun. simpl in Hrem, Hidx, Hnew. rewrite Hidx, Hnew.
    rewrite pop_reversed_zero_idx. rewrite <- Hrem.
    eexists. repeat split; reflexivity.
  - destruct (match_loop_exact None true
                (fun buy_order => Qle_bool (Order.price order) (Order.price buy_order))
                (fun trade_id buy_order trade_quantity now =>
                   inr (Trade.mk trade_id (Order.price buy_order) trade_quantity
                                 (Order.agent_id buy_order) (Order.agent_id order) now))
                clock (fun _ => True) (Order.quantity order)
                (fun trade_id resting q now =>
                   Trade.mk trade_id (Order.price resting) q
                            (Order.agent_id resting) (Order.agent_id order) now))
      with (book := Legacy.OrderBook.buy_orders s) (i := 0%nat)
           (st := Legacy.OrderBook.start order s)
      as (st' & Hrun & Hrem & Hidx & Hnew).
    { intros tid r q now _ _ _ _. reflexivity. }
    { eapply Forall_impl; [|exact Hopp]. intros r Hr. split; [exact I|exact Hr]. }
    { simpl. lia. }
    rewrite Hrun. simpl in Hrem, Hidx, Hnew. rewrite Hidx, Hnew.
    rewrite pop_reversed_zero_idx. rewrite <- Hrem.
    eexists. repeat split; reflexivity.
Qed.

(** ** Books that are not crossed *)

Lemma crosses_of_set_quantity (order r : Order.t) (q : Z) :
  crosses_of order (Order.set_quantity r q) = crosses_of order r.
Proof. unfold crosses_of. destruct (Order.order_type order); reflexivity. Qed.

Lemma fills_of_idle (crosses : Order.t -> bool) (book : list Order.t) (rem : Z) :
  rem <= 0 -> fills_of crosses rem book = map (fun _ => 0) book.
Proof.
  intros Hrem. induction book as [|r rest IH]; [reflexivity|].
  simpl. replace (0 <? rem) with false by (symmetry; apply Z.ltb_ge; exact Hrem).
  rewrite andb_false_r, IH. reflexivity.
Qed.

Lemma fills_of_no_cross (crosses : Order.t -> bool) (book : list Order.t) (rem : Z) :
  Forall (fun r => crosses r = false) book ->
  fills_of crosses rem book = map (fun _ => 0) book.
Proof.
  intros H. induction H as [|r rest Hr Hrest IH]; [reflexivity|].
  simpl. rewrite Hr, IH. reflexivity.
Qed.

Lemma reduce_all_zero (book : list Order.t) :
  reduce_all book (map (fun _ => 0) book) = book.
Proof.
  induction book as [|r rest IH]; [reflexivity|].
  unfold reduce_all in *. simpl. rewrite reduce_0, IH. reflexivity.
Qed.

Lemma filter_live_positive (book : list Order.t) :
  Forall (fun r => 0 < Order.quantity r) book -> filter live book = book.
Proof.
  intros H. induction H as [|r rest Hr Hrest IH]; [reflexivity|].
  simpl. unfold live at 1.
  destruct (Z.eqb_spec (Order.quantity r) 0) as [Hz|_]; [lia|].
  simpl. rewrite IH. reflexivity.
Qed.

Lemma Zsum_zero {A : Type} (l : list A) : Zsum (map (fun _ => 0) l) = 0.
Proof.
  induction l as [|x l IH]; [reflexivity|]. simpl map. rewrite Zsum_cons, IH. reflexivity.
Qed.

(** The resting orders that are left are resting orders of before, with a
    quantity of their own. *)
Lemma Forall_reduce_all (P : Order.t -> Prop) (book : list Order.t) :
  (forall r q, P r -> P (Order.set_quantity r q)) ->
  forall fills,
    Forall P book -> Forall P (filter live (reduce_all book fills)).
Proof.
  intros HP fills H. revert fills.
  induction H as [|r rest Hr Hrest IH]; intros fills; [constructor|].
  destruct fills as [|f fills]; [constructor|].
  unfold reduce_all. simpl. fold (reduce_all rest fills).
  destruct (live (reduce r f)); [constructor; [apply HP; exact Hr|]|]; apply IH.
Qed.

Lemma fills_of_sum_nonneg (crosses : Order.t -> bool) (book : list Order.t) :
  forall rem,
    Forall (fun r => 0 < Order.quantity r) book -> 0 <= rem ->
    0 <= Zsum (fills_of crosses rem book).
Proof.
  induction book as [|r rest IH]; intros rem Hbook Hrem; [unfold Zsum; simpl; lia|].
  inversion Hbook as [|? ? Hq Hrest]; subst. simpl.
  destruct (crosses r && (0 <? rem)); rewrite Zsum_cons.
  - specialize (IH (rem - Z.min rem (Order.quantity r)) Hrest). lia.
  - specialize (IH rem Hrest Hrem). lia.
Qed.

(** When something of the incoming order is left after the scan, no
    resting order that it crosses is left in the opposing book. *)
Lemma fills_of_exhausts (crosses : Order.t -> bool) (book : list Order.t) :
  (forall r q, crosses (Order.set_quantity r q) = crosses r) ->
  forall rem,
    Forall (fun r => 0 < Order.quantity r) book ->
    0 <= rem ->
    0 < rem - Zsum (fills_of crosses rem book) ->
    Forall (fun r => crosses r = false)
           (filter live (reduce_all book (fills_of crosses rem book))).
Proof.
  intros Hcr. induction book as [|r rest IH]; intros rem Hbook Hrem Hleft;
    [constructor|].
  inversion Hbook as [|? ? Hq Hrest]; subst.
  simpl in *. destruct (crosses r && (0 <? rem)) eqn:Hc.
  - apply andb_true_iff in Hc. destruct Hc as [_ Hpos]. apply Z.ltb_lt in Hpos.
    rewrite Zsum_cons in Hleft.
    destruct (fills_of_bounds crosses rest (rem - Z.min rem (Order.quantity r)) Hrest)
      as [_ Hsum]; [lia|].
    pose proof (fills_of_sum_nonneg crosses rest (rem - Z.min rem (Order.quantity r))
                  Hrest ltac:(lia)) as Hnn.
    assert (Hfull : Z.min rem (Order.quantity r) = Order.quantity r) by lia.
    unfold reduce_all. simpl. fold (reduce_all rest
      (fills_of crosses (rem - Z.min rem (Order.quantity r)) rest)).
    unfold live at 1. simpl. rewrite Hfull, Z.sub_diag. simpl.
    rewrite <- Hfull at 1. apply IH; [exact Hrest|lia|lia].
  - rewrite Zsum_cons in Hleft.
    unfold reduce_all. simpl. fold (reduce_all rest (fills_of crosses rem rest)).
    rewrite reduce_0. unfold live at 1.
    destruct (Z.eqb_spec (Order.quantity r) 0) as [Hz|_]; [lia|]. simpl.
    constructor; [|apply IH; [exact Hrest|exact Hrem|lia]].
    apply andb_false_iff in Hc. destruct Hc as [Hc|Hc]; [exact Hc|].
    apply Z.ltb_ge in Hc.
    pose proof (fills_of_idle crosses rest rem Hc) as Hidle.
    rewrite Hidle, Zsum_zero in Hleft. lia.
Qed.

Lemma uncrossed_nil_l (sells : list Order.t) : uncrossed [] sells.
Proof. constructor. Qed.

Lemma service_rest_Forall (P : Order.t -> Prop) (order : Order.t) (rem : Z)
      (own : list Order.t) :
  (0 < rem -> P (Order.set_quantity order rem)) ->
  Forall P own -> Forall P (service_rest order rem own).
Proof.
  intros Ho Hown. unfold service_rest.
  destruct (Z.ltb_spec 0 rem) as [Hpos|_]; [|exact Hown].
  destruct (Order.order_type order);
    [apply Forall_insert_buy|apply Forall_insert_sell]; auto.
Qed.

Lemma legacy_rest_Forall (P : Order.t -> Prop) (order : Order.t) (rem : Z)
      (own : list Order.t) :
  (0 < rem -> P (Order.set_quantity order rem)) ->
  Forall P own -> Forall P (legacy_rest order rem own).
Proof.
  intros Ho Hown. unfold legacy_rest.
  destruct (Z.ltb_spec 0 rem) as [Hpos|_]; [|exact Hown].
  destruct (Order.order_type order);
    apply Forall_stable_sort, Forall_app; (split; [exact Hown|]);
    repeat constructor; auto.
Qed.

(** The step of the invariant, on the two books as lists. *)
Lemma uncrossed_step (order : Order.t) (buys sells buys' sells' : list Order.t)
      (rest : Order.t -> Z -> list Order.t -> list Order.t) :
  (forall (P : Order.t -> Prop) rem own,
      (0 < rem -> P (Order.set_quantity order rem)) ->
      Forall P own -> Forall P (rest order rem own)) ->
  Forall (fun r => 0 < Order.quantity r) (opposing_book order buys sells) ->
  0 < Order.quantity order ->
  uncrossed buys sells ->
  let opp := opposing_book order buys sells in
  let fills := fills_of (crosses_of order) (Order.quantity order) opp in
  opposing_book order buys' sells' = filter live (reduce_all opp fills) ->
  own_book order buys' sells' =
  rest order (Order.quantity order - Zsum fills) (own_book order buys sells) ->
  uncrossed buys' sells'.
Proof.
  intros Hrest Hopp Hq Hun. cbv zeta.
  unfold opposing_book, own_book, uncrossed in *.
  pose proof (fills_of_exhausts (crosses_of order)
                (match Order.order_type order with BUY => sells | SELL => buys end)
                (crosses_of_set_quantity order) (Order.quantity order) Hopp) as Hex.
  unfold crosses_of in *.
  destruct (Order.order_type order); intros -> ->.
  - (* the buy order comes to rest in the buy book *)
    apply Hrest.
    + intros Hpos. specialize (Hex ltac:(lia) Hpos).
      eapply Forall_impl; [|exact Hex].
      intros a Ha. simpl. apply Qgt_bool_true. unfold Qgt_bool. rewrite Ha. reflexivity.
    + eapply Forall_impl; [|exact Hun].
      intros b Hb. apply Forall_reduce_all; [intros r q H; exact H|exact Hb].
  - (* the sell order comes to rest in the sell book *)
    assert (Hold : Forall (fun b => Forall (fun a => (Order.price b < Order.price a)%Q) sells)
                     (filter live (reduce_all buys
                        (fills_of (fun resting => Qle_bool (Order.price order)
                                                           (Order.price resting))
                                  (Order.quantity order) buys)))).
    { apply Forall_reduce_all; [intros r q H; exact H|exact Hun]. }
    destruct (Z.ltb_spec 0 (Order.quantity order
                - Zsum (fills_of (fun resting => Qle_bool (Order.price order)
                                                          (Order.price resting))
                                 (Order.quantity order) buys))) as [Hpos|Hzero].
    + specialize (Hex ltac:(lia) Hpos).
      rewrite Forall_forall in *. intros b Hb.
      apply Hrest; [|apply Hold; exact Hb].
      intros _. simpl. specialize (Hex b Hb). cbv beta in Hex.
      apply Qgt_bool_true. unfold Qgt_bool. rewrite Hex. reflexivity.
    + rewrite Forall_forall in *. intros b Hb.
      apply Hrest; [intros; lia|apply Hold; exact Hb].
Qed.

Lemma wf_books_opposing (order : Order.t) (buys sells : list Order.t) :
  wf_books buys sells ->
  Forall (fun r => 0 < Order.quantity r) (opposing_book order buys sells).
Proof.
  intros [Hb Hs]. unfold opposing_book.
  destruct (Order.order_type order);
    (eapply Forall_impl; [|eassumption]); intros r [Hr _]; apply Hr.
Qed.

Lemma service_add_order_uncrossed (clock : nat -> Q) (order : Order.t)
      (s : OrderBookService.t) :
  valid_order order ->
  wf_books (OrderBookService.buy_orders s) (OrderBookService.sell_orders s) ->
  uncrossed (OrderBookService.buy_orders s) (OrderBookService.sell_orders s) ->
  uncrossed (OrderBookService.buy_orders (snd (OrderBookService.add_order clock order s)))
            (OrderBookService.sell_orders (snd (OrderBookService.add_order clock order s))).
Proof.
  intros Hv Hwf Hun.
  destruct (service_add_order_exact clock order s Hwf Hv) as (s' & Hrun & Hopp & Hown).
  rewrite Hrun. simpl.
  apply (uncrossed_step order (OrderBookService.buy_orders s)
           (OrderBookService.sell_orders s) _ _ service_rest).
  - intros P rem own. apply service_rest_Forall.
  - apply wf_books_opposing. exact Hwf.
  - apply Hv.
  - exact Hun.
  - exact Hopp.
  - exact Hown.
Qed.

Lemma legacy_add_order_uncrossed (clock : nat -> Q) (order : Order.t)
      (l : Legacy.OrderBook.t) :
  valid_order order ->
  wf_books (Legacy.OrderBook.buy_orders l) (Legacy.OrderBook.sell_orders l) ->
  uncrossed (Legacy.OrderBook.buy_orders l) (Legacy.OrderBook.sell_orders l) ->
  uncrossed (Legacy.OrderBook.buy_orders (snd (Legacy.OrderBook.add_order clock order l)))
            (Legacy.OrderBook.sell_orders (snd (Legacy.OrderBook.add_order clock order l))).
Proof.
  intros Hv Hwf Hun.
  pose proof (wf_books_opposing order _ _ Hwf) as Hopp0.
  destruct (legacy_add_order_exact clock order l Hopp0 ltac:(apply Hv))
    as (l' & Hrun & Hopp & Hown).
  rewrite Hrun. simpl.
  apply (uncrossed_step order (Legacy.OrderBook.buy_orders l)
           (Legacy.OrderBook.sell_orders l) _ _ legacy_rest).
  - intros P rem own. apply legacy_rest_Forall.
  - exact Hopp0.
  - apply Hv.
  - exact Hun.
  - exact Hopp.
  - exact Hown.
Qed.

(** [OrderBook.add_order] keeps the books well-formed, in order or not. *)
Lemma legacy_add_order_wf (clock : nat -> Q) (order : Order.t)
      (l : Legacy.OrderBook.t) :
  valid_order order ->
  wf_books (Legacy.OrderBook.buy_orders l) (Legacy.OrderBook.sell_orders l) ->
  wf_books (Legacy.OrderBook.buy_orders (snd (Legacy.OrderBook.add_order clock order l)))
           (Legacy.OrderBook.sell_orders (snd (Legacy.OrderBook.add_order clock order l))).
Proof.
  intros Hv Hwf.
  pose proof (wf_books_opposing order _ _ Hwf) as Hopp0.
  destruct (legacy_add_order_exact clock order l Hopp0 ltac:(apply Hv))
    as (l' & Hrun & Hopp & Hown).
  rewrite Hrun. simpl. clear Hrun.
  destruct (fills_of_bounds (crosses_of order)
              (opposing_book order (Legacy.OrderBook.buy_orders l)
                             (Legacy.OrderBook.sell_orders l))
              (Order.quantity order) Hopp0) as [Hb Hsum];
    [destruct Hv as (_ & Hq & _); lia|].
  destruct Hwf as [Hbuys Hsells]. destruct Hv as (Hp & Hq & Ha).
  unfold wf_books, opposing_book, own_book in *.
  destruct (Order.order_type order) eqn:Hty; rewrite Hopp, Hown; split.
  - apply legacy_rest_Forall; [|exact Hbuys].
    intros Hpos. repeat split; simpl; assumption.
  - apply reduce_all_valid; [intros r q H; exact H|exact Hsells|exact Hb].
  - apply reduce_all_valid; [intros r q H; exact H|exact Hbuys|exact Hb].
  - apply legacy_rest_Forall; [|exact Hsells].
    intros Hpos. repeat split; simpl; assumption.
Qed.

Lemma runs_uncrossed (clock : nat -> Q) (orders : list Order.t) :
  Forall valid_order orders ->
  forall (s : OrderBookService.t) (l : Legacy.OrderBook.t),
    (wf_books (OrderBookService.buy_orders s) (OrderBookService.sell_orders s) ->
     uncrossed (OrderBookService.buy_orders s) (OrderBookService.sell_orders s) ->
     uncrossed (OrderBookService.buy_orders (service_run clock orders s))
               (OrderBookService.sell_orders (service_run clock orders s))) /\
    (wf_books (Legacy.OrderBook.buy_orders l) (Legacy.OrderBook.sell_orders l) ->
     uncrossed (Legacy.OrderBook.buy_orders l) (Legacy.OrderBook.sell_orders l) ->
     uncrossed (Legacy.OrderBook.buy_orders (legacy_run clock orders l))
               (Legacy.OrderBook.sell_orders (legacy_run clock orders l))).
Proof.
  intros Hall. induction Hall as [|o orders Ho Hall IH]; intros s l.
  - split; intros _ H; exact H.
  - split; intros Hwf Hun; simpl.
    + apply (proj1 (IH _ l)).
      * apply (proj1 (add_order_wf clock o s l Ho)). exact Hwf.
      * apply service_add_order_uncrossed; assumption.
    + apply (proj2 (IH s _)).
      * apply legacy_add_order_wf; assumption.
      * apply legacy_add_order_uncrossed; assumption.
Qed.

Lemma service_spread_positive (s : OrderBookService.t) (d : Q) :
  uncrossed (OrderBookService.buy_orders s) (OrderBookService.sell_orders s) ->
  fst (OrderBookService.get_spread s) = inr (Some d) -> (0 < d)%Q.
Proof.
  unfold OrderBookService.get_spread, OrderBookService.get_best_bid,
    OrderBookService.get_best_ask, bind, gets, ret. cbn [fst snd].
  destruct (OrderBookService.buy_orders s) as [|b bs];
    destruct (OrderBookService.sell_orders s) as [|a sl]; try discriminate.
  intros Hun. inversion Hun as [|? ? Hb _]; subst. inversion Hb as [|? ? Hba _]; subst.
  destruct (truthy (Order.price b) && truthy (Order.price a)); [|discriminate].
  intros H. inversion H; subst. lra.
Qed.

Lemma legacy_spread_positive (l : Legacy.OrderBook.t) (d : Q) :
  uncrossed (Legacy.OrderBook.buy_orders l) (Legacy.OrderBook.sell_orders l) ->
  fst (Legacy.OrderBook.get_spread l) = inr (Some d) -> (0 < d)%Q.
Proof.
  unfold Legacy.OrderBook.get_spread, Legacy.OrderBook.get_best_bid,
    Legacy.OrderBook.get_best_ask, bind, gets, ret. cbn [fst snd].
  destruct (Legacy.OrderBook.buy_orders l) as [|b bs];
    destruct (Legacy.OrderBook.sell_orders l) as [|a sl]; try discriminate.
  intros Hun. inversion Hun as [|? ? Hb _]; subst. inversion Hb as [|? ? Hba _]; subst.
  destruct (truthy (Order.price b) && truthy (Order.price a)); [|discriminate].
  intros H. inversion H; subst. lra.
Qed.

(** X1. A valid order on well-formed books that are not crossed (every bid
    below every ask) leaves, in either engine, books that are not crossed;
    so do the orders of a sequence of valid orders sent to a new engine.
    The spread that [get_spread] returns after the call, when it returns
    one, is positive. *)
Theorem X1_books_never_crossed :
  forall (clock : nat -> Q) (order : Order.t)
         (s : OrderBookService.t) (l : Legacy.OrderBook.t),
    valid_order order ->
    wf_books (OrderBookService.buy_orders s) (OrderBookService.sell_orders s) ->
    uncrossed (OrderBookService.buy_orders s) (OrderBookService.sell_orders s) ->
    wf_books (Legacy.OrderBook.buy_orders l) (Legacy.OrderBook.sell_orders l) ->
    uncrossed (Legacy.OrderBook.buy_orders l) (Legacy.OrderBook.sell_orders l) ->
    let s' := snd (OrderBookService.add_order clock order s) in
    let l' := snd (Legacy.OrderBook.add_order clock order l) in
    uncrossed (OrderBookService.buy_orders s') (OrderBookService.sell_orders s') /\
    uncrossed (Legacy.OrderBook.buy_orders l') (Legacy.OrderBook.sell_orders l') /\
    (forall d, fst (OrderBookService.get_spread s') = inr (Some d) -> (0 < d)%Q) /\
    (forall d, fst (Legacy.OrderBook.get_spread l') = inr (Some d) -> (0 < d)%Q) /\
    (forall orders p cap,
        Forall valid_order orders ->
        uncrossed
          (OrderBookService.buy_orders
             (service_run clock orders (OrderBookService.init p cap)))
          (OrderBookService.sell_orders
             (service_run clock orders (OrderBookService.init p cap))) /\
        uncrossed
          (Legacy.OrderBook.buy_orders
             (legacy_run clock orders (Legacy.OrderBook.init p)))
          (Legacy.OrderBook.sell_orders
             (legacy_run clock orders (Legacy.OrderBook.init p)))).
Proof.
  intros clock order s l Hv Hwf Hun Hlwf Hlun. cbv zeta.
  pose proof (service_add_order_uncrossed clock order s Hv Hwf Hun) as Hs.
  pose proof (legacy_add_order_uncrossed clock order l Hv Hlwf Hlun) as Hl.
  split; [exact Hs|]. split; [exact Hl|]. split; [|split].
  - intros d. apply service_spread_positive. exact Hs.
  - intros d. apply legacy_spread_positive. exact Hl.
  - intros orders p cap Hall.
    split.
    + apply (proj1 (runs_uncrossed clock orders Hall (OrderBookService.init p cap)
                      (Legacy.OrderBook.init p)));
        [split; constructor|constructor].
    + apply (proj2 (runs_uncrossed clock orders Hall (OrderBookService.init p cap)
                      (Legacy.OrderBook.init p)));
        [split; constructor|constructor].
Qed.

Lemma X1_witness :
  uncrossed
    (OrderBookService.buy_orders
       (snd (OrderBookService.add_order ex_clock ex_buy100 ex_service)))
    (OrderBookService.sell_orders
       (snd (OrderBookService.add_order ex_clock ex_buy100 ex_service))) /\
  uncrossed
    (Legacy.OrderBook.buy_orders
       (snd (Legacy.OrderBook.add_order ex_clock ex_buy100 ex_legacy)))
    (Legacy.OrderBook.sell_orders
       (snd (Legacy.OrderBook.add_order ex_clock ex_buy100 ex_legacy))).
Proof.
  assert (H := X1_books_never_crossed ex_clock ex_buy100 ex_service ex_legacy).
  cbv zeta in H.
  split; apply H; repeat first [split | constructor]; vm_compute; congruence.
Defined.

(** ** The limits of the two orders of a trade *)

Lemma service_add_order_within_limits (clock : nat -> Q) (order : Order.t)
      (s : OrderBookService.t) (ts : list Trade.t) :
  fst (OrderBookService.add_order clock order s) = inr ts ->
  Forall (within_limits order
            (opposing_book order (OrderBookService.buy_orders s)
                           (OrderBookService.sell_orders s))) ts.
Proof.
  unfold OrderBookService.add_order, bind, within_limits, opposing_book.
  destruct (Order.order_type order) eqn:Hty.
  - unfold OrderBookService._process_buy_order.
    destruct (match_loop _ _ _ _ _ _ _ _) as [[book st] e] eqn:E.
    eapply (match_loop_trades _ _ _ _ _
              (fun r tr => Trade.price tr = Order.price r /\
                           Trade.buyer_id tr = Order.agent_id order /\
                           Trade.seller_id tr = Order.agent_id r))
      in E; [|intros tid r q now tr Hmk; apply create_from_orders_price in Hmk; tauto].
    destruct E as (pairs & Hnew & Hall & _). simpl in Hnew.
    destruct e as [err|]; [discriminate|].
    destruct (0 <? remaining_quantity st);
      destruct (last_opt (new_trades st)); simpl;
        intros H; inversion H; subst; rewrite Hnew;
          apply Forall_map; (eapply Forall_impl; [|exact Hall]);
            intros p (Hin & Hcr & Hpr & Hb & Hs); exists (fst p);
              (split; [exact Hin|]); rewrite Hpr;
                apply Qle_bool_iff in Hcr; repeat split; auto; apply Qle_refl.
  - unfold OrderBookService._process_sell_order.
    destruct (match_loop _ _ _ _ _ _ _ _) as [[book st] e] eqn:E.
    eapply (match_loop_trades _ _ _ _ _
              (fun r tr => Trade.price tr = Order.price order /\
                           Trade.buyer_id tr = Order.agent_id r /\
                           Trade.seller_id tr = Order.agent_id order))
      in E; [|intros tid r q now tr Hmk; apply create_from_orders_price in Hmk; tauto].
    destruct E as (pairs & Hnew & Hall & _). simpl in Hnew.
    destruct e as [err|]; [discriminate|].
    destruct (0 <? remaining_quantity st);
      destruct (last_opt (new_trades st)); simpl;
        intros H; inversion H; subst; rewrite Hnew;
          apply Forall_map; (eapply Forall_impl; [|exact Hall]);
            intros p (Hin & Hcr & Hpr & Hb & Hs); exists (fst p);
              (split; [exact Hin|]); rewrite Hpr;
                apply Qle_bool_iff in Hcr; repeat split; auto; apply Qle_refl.
Qed.

Lemma legacy_add_order_within_limits (clock : nat -> Q) (order : Order.t)
      (l : Legacy.OrderBook.t) (ts : list Trade.t) :
  fst (Legacy.OrderBook.add_order clock order l) = inr ts ->
  Forall (within_limits order
            (opposing_book order (Legacy.OrderBook.buy_orders l)
                           (Legacy.OrderBook.sell_orders l))) ts.
Proof.
  unfold Legacy.OrderBook.add_order, within_limits, opposing_book.
  destruct (Order.order_type order) eqn:Hty;
    destruct (match_loop _ _ _ _ _ _ _ _) as [[book st] e] eqn:E.
  - eapply (match_loop_trades _ _ _ _ _
              (fun r tr => Trade.price tr = Order.price r /\
                           Trade.buyer_id tr = Order.agent_id order /\
                           Trade.seller_id tr = Order.agent_id r))
      in E; [|intros tid r q now tr Hmk; inversion Hmk; repeat split].
    destruct E as (pairs & Hnew & Hall & _). simpl in Hnew. simpl.
    intros H; inversion H; subst; rewrite Hnew;
      apply Forall_map; (eapply Forall_impl; [|exact Hall]);
        intros p (Hin & Hcr & Hpr & Hb & Hs); exists (fst p);
          (split; [exact Hin|]); rewrite Hpr;
            apply Qle_bool_iff in Hcr; repeat split; auto; apply Qle_refl.
  - eapply (match_loop_trades _ _ _ _ _
              (fun r tr => Trade.price tr = Order.price r /\
                           Trade.buyer_id tr = Order.agent_id r /\
                           Trade.seller_id tr = Order.agent_id order))
      in E; [|intros tid r q now tr Hmk; inversion Hmk; repeat split].
    destruct E as (pairs & Hnew & Hall & _). simpl in Hnew. simpl.
    intros H; inversion H; subst; rewrite Hnew;
      apply Forall_map; (eapply Forall_impl; [|exact Hall]);
        intros p (Hin & Hcr & Hpr & Hb & Hs); exists (fst p);
          (split; [exact Hin|]); rewrite Hpr;
            apply Qle_bool_iff in Hcr; repeat split; auto; apply Qle_refl.
Qed.

(** X2. Every trade that [add_order] returns, in either engine, is made
    between the incoming order and a resting order of the opposing book,
    at a price within the limits of both: not above the price of the buy
    order, not below the price of the sell order. *)
Theorem X2_trades_within_limits :
  forall (clock : nat -> Q) (order : Order.t)
         (s : OrderBookService.t) (l : Legacy.OrderBook.t),
    match fst (OrderBookService.add_order clock order s) with
    | inr ts =>
      Forall (within_limits order
                (opposing_book order (OrderBookService.buy_orders s)
                               (OrderBookService.sell_orders s))) ts
    | inl _ => True
    end /\
    exists ts,
      fst (Legacy.OrderBook.add_order clock order l) = inr ts /\
      Forall (within_limits order
                (opposing_book order (Legacy.OrderBook.buy_orders l)
                               (Legacy.OrderBook.sell_orders l))) ts.
Proof.
  intros clock order s l. split.
  - destruct (fst (OrderBookService.add_order clock order s)) as [err|ts] eqn:E;
      [exact I|].
    apply (service_add_order_within_limits clock order s ts E).
  - destruct (legacy_add_order_returns clock order l) as (ts & l' & Hrun).
    exists ts. split; [rewrite Hrun; reflexivity|].
    apply (legacy_add_order_within_limits clock order l ts).
    rewrite Hrun. reflexivity.
Qed.

(** ** The history of trades and its counter *)

Section MatchLoopBookkeeping.
Variable max_trades_history : option Z.
Variable price_in_loop : bool.
Variable crosses : Order.t -> bool.
Variable create_trade : Z -> Order.t -> Z -> Q -> exn + Trade.t.
Variable clock : nat -> Q.
Hypothesis create_id :
  forall tid r q now tr, create_trade tid r q now = inr tr -> Trade.id tr = tid.

Local Notation "'loop'" :=
  (match_loop max_trades_history price_in_loop crosses create_trade clock).

(** The trades of a scan, ended by an exception or not, take the
    identifiers from the counter on, and go to the history one by one. *)
Lemma match_loop_bookkeeping (book : list Order.t) :
  forall i st book' st' e,
    loop i book st = (book', st', e) ->
    exists ts,
      new_trades st' = new_trades st ++ ts /\
      map Trade.id ts = ids_from (self_next_trade_id st) (length ts) /\
      self_next_trade_id st' = self_next_trade_id st + Z.of_nat (length ts) /\
      self_trades st' =
      fold_left (fun h t => cap_trades max_trades_history (h ++ [t])) ts
                (self_trades st).
Proof.
  induction book as [|r rest IH]; intros i st book' st' e H.
  - simpl in H. inversion H; subst. exists []. simpl.
    rewrite app_nil_r, Z.add_0_r. repeat split.
  - rewrite match_loop_step in H. cbv zeta in H.
    destruct (crosses r && (0 <? remaining_quantity st)) eqn:Hc.
    + destruct (create_trade _ _ _ _) as [err|trade] eqn:Hmk.
      * inversion H; subst. exists []. simpl.
        rewrite app_nil_r, Z.add_0_r. repeat split.
      * destruct (loop (S i) rest _) as [[rest' st''] e'] eqn:E.
        inversion H; subst. clear H.
        apply IH in E. destruct E as (ts & Hnew & Hids & Hnext & Hhist).
        simpl in Hnew, Hids, Hnext, Hhist.
        exists (trade :: ts). repeat split.
        -- rewrite Hnew, <- app_assoc. reflexivity.
        -- simpl. rewrite Hids, (create_id _ _ _ _ _ Hmk). reflexivity.
        -- rewrite Hnext. simpl length. lia.
        -- rewrite Hhist. reflexivity.
    + destruct (loop (S i) rest st) as [[rest' st''] e'] eqn:E.
      inversion H; subst. clear H.
      apply IH in E. exact E.
Qed.
End MatchLoopBookkeeping.

Lemma create_from_orders_id (tid : Z) (b s : Order.t) (q : Z) (now : Q)
      (tr : Trade.t) :
  Trade.create_from_orders tid b s q now = inr tr -> Trade.id tr = tid.
Proof.
  unfold Trade.create_from_orders, Trade.post_init. simpl.
  repeat match goal with
         | |- (if ?c then _ else _) = _ -> _ => destruct c; [discriminate|]
         end.
  intros H. inversion H; subst. reflexivity.
Qed.

(** What a call of [OrderBookService.add_order] does to the history of
    trades and to the counter, whether it returns or raises. *)
Lemma service_add_order_bookkeeping (clock : nat -> Q) (order : Order.t)
      (s : OrderBookService.t) :
  exists ts,
    match fst (OrderBookService.add_order clock order s) with
    | inr ts' => ts' = ts
    | inl _ => True
    end /\
    map Trade.id ts = ids_from (OrderBookService.next_trade_id s) (length ts) /\
    OrderBookService.next_trade_id (snd (OrderBookService.add_order clock order s)) =
    OrderBookService.next_trade_id s + Z.of_nat (length ts) /\
    OrderBookService.trades (snd (OrderBookService.add_order clock order s)) =
    fold_left (fun h t => cap_trades (Some (OrderBookService.max_trades_history s))
                                     (h ++ [t]))
              ts (OrderBookService.trades s) /\
    OrderBookService.max_trades_history (snd (OrderBookService.add_order clock order s)) =
    OrderBookService.max_trades_history s.
Proof.
  unfold OrderBookService.add_order, bind.
  destruct (Order.order_type order);
    [unfold OrderBookService._process_buy_order
    |unfold OrderBookService._process_sell_order];
    destruct (match_loop _ _ _ _ _ _ _ _) as [[book st] e] eqn:E;
    apply match_loop_bookkeeping in E;
    try (intros tid r q now tr Hmk; apply create_from_orders_id in Hmk; exact Hmk);
    destruct E as (ts & Hnew & Hids & Hnext & Hhist); simpl in *;
    exists ts;
    (destruct e as [err|];
     [|destruct (0 <? remaining_quantity st);
       destruct (last_opt (new_trades st))]);
    simpl; repeat split; auto.
Qed.

Lemma legacy_add_order_bookkeeping (clock : nat -> Q) (order : Order.t)
      (l : Legacy.OrderBook.t) :
  exists ts,
    fst (Legacy.OrderBook.add_order clock order l) = inr ts /\
    map Trade.id ts = ids_from (Legacy.OrderBook.next_trade_id l) (length ts) /\
    Legacy.OrderBook.next_trade_id (snd (Legacy.OrderBook.add_order clock order l)) =
    Legacy.OrderBook.next_trade_id l + Z.of_nat (length ts) /\
    Legacy.OrderBook.trades (snd (Legacy.OrderBook.add_order clock order l)) =
    Legacy.OrderBook.trades l ++ ts.
Proof.
  assert (Hfold : forall (ts h : list Trade.t),
             fold_left (fun h t => cap_trades None (h ++ [t])) ts h = h ++ ts).
  { induction ts as [|t ts IH]; intros h; simpl; [rewrite app_nil_r; reflexivity|].
    rewrite IH, <- app_assoc. reflexivity. }
  unfold Legacy.OrderBook.add_order.
  destruct (Order.order_type order);
    destruct (match_loop _ _ _ _ _ _ _ _) as [[book st] e] eqn:E;
    apply match_loop_bookkeeping in E;
    try (intros tid r q now tr Hmk; inversion Hmk; reflexivity);
    destruct E as (ts & Hnew & Hids & Hnext & Hhist); simpl in *;
    exists ts; rewrite Hfold in Hhist; repeat split; auto; rewrite Hnew; reflexivity.
Qed.

Lemma ids_from_bounds (k : nat) :
  forall n, Forall (fun i => n <= i < n + Z.of_nat k) (ids_from n k).
Proof.
  induction k as [|k IH]; intros n; simpl ids_from; constructor; [lia|].
  eapply Forall_impl; [|apply IH]. intros i Hi. cbv beta in *. lia.
Qed.

Lemma ids_from_sorted (k : nat) :
  forall n, StronglySorted Z.lt (ids_from n k).
Proof.
  induction k as [|k IH]; intros n; simpl ids_from; constructor; [apply IH|].
  eapply Forall_impl; [|apply ids_from_bounds]. intros i Hi. cbv beta in *. lia.
Qed.

Lemma SSorted_app {A : Type} (R : A -> A -> Prop) (l1 l2 : list A) :
  StronglySorted R l1 -> StronglySorted R l2 ->
  Forall (fun a => Forall (R a) l2) l1 ->
  StronglySorted R (l1 ++ l2).
Proof.
  intros H1 H2 H. induction H1 as [|a l1 Hl1 IH Ha]; [exact H2|].
  inversion H; subst. simpl. constructor; [apply IH; assumption|].
  apply Forall_app. split; assumption.
Qed.

Lemma SSorted_skipn {A : Type} (R : A -> A -> Prop) (l : list A) :
  forall n, StronglySorted R l -> StronglySorted R (skipn n l).
Proof.
  induction l as [|x l IH]; intros n H; destruct n; simpl; auto.
  inversion H; subst. apply IH. assumption.
Qed.

Lemma ids_ascending_app (n : Z) (h ts : list Trade.t) :
  ids_ascending n h ->
  map Trade.id ts = ids_from n (length ts) ->
  ids_ascending (n + Z.of_nat (length ts)) (h ++ ts).
Proof.
  intros [Hs Hb] Hids. unfold ids_ascending.
  pose proof (ids_from_bounds (length ts) n) as Hnew. rewrite <- Hids in Hnew.
  rewrite Forall_map in Hnew.
  split.
  - rewrite map_app. apply SSorted_app; [exact Hs|rewrite Hids; apply ids_from_sorted|].
    rewrite Forall_map. eapply Forall_impl; [|exact Hb].
    intros tr Htr. rewrite Forall_map. eapply Forall_impl; [|exact Hnew].
    intros tr' Htr'. cbv beta in *. lia.
  - apply Forall_app. split;
      [eapply Forall_impl; [|exact Hb]|eapply Forall_impl; [|exact Hnew]];
      intros tr Htr; cbv beta in *; lia.
Qed.

Lemma ids_ascending_skipn (n : Z) (h : list Trade.t) (k : nat) :
  ids_ascending n h -> ids_ascending n (skipn k h).
Proof.
  intros [Hs Hb]. split; [|apply Forall_skipn; exact Hb].
  rewrite <- skipn_map. apply SSorted_skipn. exact Hs.
Qed.

Lemma slice_from_skipn {A : Type} (i : Z) (l : list A) :
  exists k, slice_from i l = skipn k l.
Proof. unfold slice_from. destruct (i <? 0); eexists; reflexivity. Qed.

Lemma skipn_app_le {A : Type} (j : nat) (a b : list A) :
  (j <= length a)%nat -> skipn j (a ++ b) = skipn j a ++ b.
Proof.
  intros Hj. rewrite skipn_app.
  replace (j - length a)%nat with 0%nat by lia. reflexivity.
Qed.

(** A capped history is an end of the history with every trade kept. *)
Lemma fold_cap_suffix (m : Z) (ts : list Trade.t) :
  forall h, exists k,
      fold_left (fun h t => cap_trades (Some m) (h ++ [t])) ts h = skipn k (h ++ ts).
Proof.
  induction ts as [|t ts IH]; intros h.
  - exists 0%nat. simpl. rewrite app_nil_r. reflexivity.
  - cbn [fold_left].
    destruct (IH (cap_trades (Some m) (h ++ [t]))) as [k Hk]. rewrite Hk.
    replace (h ++ t :: ts) with ((h ++ [t]) ++ ts)
      by (rewrite <- app_assoc; reflexivity).
    unfold cap_trades.
    destruct (Z.of_nat (length (h ++ [t])) >? m) eqn:Hlen; [|exists k; reflexivity].
    destruct (slice_from_skipn (- m) (h ++ [t])) as [j Hj]. rewrite Hj.
    destruct (Nat.le_gt_cases j (length (h ++ [t]))) as [Hle|Hgt].
    + exists (k + j)%nat.
      rewrite <- skipn_skipn, (skipn_app_le j (h ++ [t]) ts Hle). reflexivity.
    + exists (k + length (h ++ [t]))%nat.
      rewrite <- skipn_skipn, (skipn_app_le (length (h ++ [t])) (h ++ [t]) ts) by lia.
      rewrite (skipn_all2 (h ++ [t])) by lia. rewrite skipn_all. reflexivity.
Qed.

Lemma last_n_app_last_n {A : Type} (m : nat) (a b : list A) :
  last_n m (last_n m a ++ b) = last_n m (a ++ b).
Proof.
  unfold last_n.
  destruct (Nat.le_gt_cases (length a) m) as [Hle|Hgt].
  - replace (length a - m)%nat with 0%nat by lia. reflexivity.
  - rewrite !length_app, length_skipn.
    replace (length a - (length a - m) + length b - m)%nat with (length b) by lia.
    replace (length a + length b - m)%nat with (length b + (length a - m))%nat by lia.
    rewrite <- skipn_skipn, (skipn_app_le (length a - m) a b) by lia. reflexivity.
Qed.

Lemma cap_trades_last_n (m : Z) (h : list Trade.t) :
  1 <= m -> cap_trades (Some m) h = last_n (Z.to_nat m) h.
Proof.
  intros Hm. unfold cap_trades.
  destruct (Z.of_nat (length h) >? m) eqn:Hlen.
  - rewrite <- (Z2Nat.id m) at 1 by lia. apply slice_from_last_n. lia.
  - rewrite Z.gtb_ltb in Hlen. apply Z.ltb_ge in Hlen.
    unfold last_n. replace (length h - Z.to_nat m)%nat with 0%nat by lia. reflexivity.
Qed.

(** With a cap of at least one, the capped history is the last [m] trades. *)
Lemma fold_cap_last_n (m : Z) (ts : list Trade.t) :
  1 <= m ->
  forall h,
    Z.of_nat (length h) <= m ->
    fold_left (fun h t => cap_trades (Some m) (h ++ [t])) ts h =
    last_n (Z.to_nat m) (h ++ ts).
Proof.
  intros Hm. induction ts as [|t ts IH]; intros h Hh.
  - simpl. rewrite app_nil_r. unfold last_n.
    replace (length h - Z.to_nat m)%nat with 0%nat by lia. reflexivity.
  - cbn [fold_left]. rewrite cap_trades_last_n by exact Hm.
    rewrite IH.
    + rewrite last_n_app_last_n, <- app_assoc. reflexivity.
    + unfold last_n. rewrite length_skipn. lia.
Qed.

(** X3. The trades that [add_order] returns carry the identifiers
    [next_trade_id], [next_trade_id + 1], ... and the counter moves past
    them; so a history whose identifiers go up and lie below the counter,
    as the empty history of a new engine does, still is one after the call,
    whether the call returns or raises, in either engine: no identifier
    is given twice. *)
Theorem X3_trade_ids_consecutive :
  forall (clock : nat -> Q) (order : Order.t)
         (s : OrderBookService.t) (l : Legacy.OrderBook.t),
    ids_ascending (OrderBookService.next_trade_id s) (OrderBookService.trades s) ->
    ids_ascending (Legacy.OrderBook.next_trade_id l) (Legacy.OrderBook.trades l) ->
    let s' := snd (OrderBookService.add_order clock order s) in
    let l' := snd (Legacy.OrderBook.add_order clock order l) in
    (forall ts,
        fst (OrderBookService.add_order clock order s) = inr ts ->
        map Trade.id ts = ids_from (OrderBookService.next_trade_id s) (length ts) /\
        OrderBookService.next_trade_id s' =
        OrderBookService.next_trade_id s + Z.of_nat (length ts)) /\
    ids_ascending (OrderBookService.next_trade_id s') (OrderBookService.trades s') /\
    (exists ts,
        fst (Legacy.OrderBook.add_order clock order l) = inr ts /\
        map Trade.id ts = ids_from (Legacy.OrderBook.next_trade_id l) (length ts) /\
        Legacy.OrderBook.next_trade_id l' =
        Legacy.OrderBook.next_trade_id l + Z.of_nat (length ts)) /\
    ids_ascending (Legacy.OrderBook.next_trade_id l') (Legacy.OrderBook.trades l').
Proof.
  intros clock order s l Hs Hl. cbv zeta.
  destruct (service_add_order_bookkeeping clock order s)
    as (ts & Hret & Hids & Hnext & Hhist & _).
  destruct (legacy_add_order_bookkeeping clock order l)
    as (tl & Hlret & Hlids & Hlnext & Hlhist).
  split; [|split; [|split]].
  - intros ts' Hts'. rewrite Hts' in Hret. subst ts'. split; assumption.
  - rewrite Hnext, Hhist.
    destruct (fold_cap_suffix (OrderBookService.max_trades_history s) ts
                (OrderBookService.trades s)) as [k ->].
    apply ids_ascending_skipn, ids_ascending_app; assumption.
  - exists tl. repeat split; assumption.
  - rewrite Hlnext, Hlhist. apply ids_ascending_app; assumption.
Qed.

Lemma X3_witness :
  map Trade.id
      (OrderBookService.trades
         (snd (OrderBookService.add_order ex_clock ex_buy100 ex_service))) = [1] /\
  OrderBookService.next_trade_id
    (snd (OrderBookService.add_order ex_clock ex_buy100 ex_service)) = 2 /\
  ids_ascending
    (OrderBookService.next_trade_id
       (snd (OrderBookService.add_order ex_clock ex_buy100 ex_service)))
    (OrderBookService.trades
       (snd (OrderBookService.add_order ex_clock ex_buy100 ex_service))).
Proof.
  split; [reflexivity|]. split; [reflexivity|].
  apply (X3_trade_ids_consecutive ex_clock ex_buy100 ex_service ex_legacy);
    split; constructor.
Defined.

(** X4. With a cap [max_trades_history] of at least one and a history
    within the cap, [OrderBookService.add_order] leaves a history within
    the cap, and when it returns, the history is the last
    [max_trades_history] trades of the history of before followed by the
    trades returned. [OrderBook.add_order] of [order_book.py] keeps every
    trade. *)
Theorem X4_trade_history_capped :
  forall (clock : nat -> Q) (order : Order.t)
         (s : OrderBookService.t) (l : Legacy.OrderBook.t),
    1 <= OrderBookService.max_trades_history s ->
    Z.of_nat (length (OrderBookService.trades s)) <= OrderBookService.max_trades_history s ->
    let s' := snd (OrderBookService.add_order clock order s) in
    let l' := snd (Legacy.OrderBook.add_order clock order l) in
    OrderBookService.max_trades_history s' = OrderBookService.max_trades_history s /\
    Z.of_nat (length (OrderBookService.trades s')) <= OrderBookService.max_trades_history s /\
    (forall ts,
        fst (OrderBookService.add_order clock order s) = inr ts ->
        OrderBookService.trades s' =
        last_n (Z.to_nat (OrderBookService.max_trades_history s))
               (OrderBookService.trades s ++ ts)) /\
    (exists ts,
        fst (Legacy.OrderBook.add_order clock order l) = inr ts /\
        Legacy.OrderBook.trades l' = Legacy.OrderBook.trades l ++ ts).
Proof.
  intros clock order s l Hm Hlen. cbv zeta.
  destruct (service_add_order_bookkeeping clock order s)
    as (ts & Hret & _ & _ & Hhist & Hcap).
  rewrite fold_cap_last_n in Hhist by assumption.
  split; [exact Hcap|]. split; [|split].
  - rewrite Hhist. unfold last_n. rewrite length_skipn. lia.
  - intros ts' Hts'. rewrite Hts' in Hret. subst ts'. exact Hhist.
  - destruct (legacy_add_order_bookkeeping clock order l)
      as (tl & Hlret & _ & _ & Hlhist).
    exists tl. split; assumption.
Qed.

Lemma X4_witness :
  OrderBookService.trades
    (snd (OrderBookService.add_order ex_clock ex_buy100 ex_service)) =
  last_n 5000 ([] ++ [Trade.mk 1 99 10 2 0 0]).
Proof.
  apply (X4_trade_history_capped ex_clock ex_buy100 ex_service ex_legacy);
    [vm_compute; discriminate|vm_compute; discriminate|reflexivity].
Defined.

(** ** Matching from the top of the book *)

Section TradesOf.
Variable mk_trade : Z -> Order.t -> Z -> Q -> Trade.t.
Variable clock : nat -> Q.
Variable crosses : Order.t -> bool.

Lemma trades_of_idle (book : list Order.t) (tid : Z) (k : nat) (rem : Z) :
  rem <= 0 -> trades_of mk_trade clock crosses tid k rem book = [].
Proof.
  intros Hrem. induction book as [|r rest IH]; [reflexivity|].
  simpl. replace (0 <? rem) with false by (symmetry; apply Z.ltb_ge; exact Hrem).
  rewrite andb_false_r. exact IH.
Qed.

Lemma trades_of_no_cross (book : list Order.t) (tid : Z) (k : nat) (rem : Z) :
  Forall (fun r => crosses r = false) book ->
  trades_of mk_trade clock crosses tid k rem book = [].
Proof.
  intros H. induction H as [|r rest Hr Hrest IH]; [reflexivity|].
  simpl. rewrite Hr. exact IH.
Qed.

Variable R : Order.t -> Order.t -> Prop.
Hypothesis crosses_down :
  forall a b, R a b -> crosses a = false -> crosses b = false.

Lemma trades_of_from_top (book : list Order.t) :
  StronglySorted R book ->
  Forall (fun r => 0 < Order.quantity r) book ->
  forall tid k rem,
    let ts := trades_of mk_trade clock crosses tid k rem book in
    let hit := firstn (length ts) book in
    length hit = length ts /\
    Forall (fun r => crosses r = true) hit /\
    Forall2 (fun r tr => exists tid' q now,
                 tr = mk_trade tid' r q now /\ 0 < q <= Order.quantity r)
            hit ts /\
    Forall2 (fun r tr => exists tid' now,
                 tr = mk_trade tid' r (Order.quantity r) now)
            (removelast hit) (removelast ts).
Proof.
  intros Hsorted. induction Hsorted as [|r rest Hrest IH Hr]; intros Hq tid k rem.
  - simpl. repeat split; constructor.
  - inversion Hq as [|? ? Hqr Hqrest]; subst. cbv zeta. cbn [trades_of].
    destruct (crosses r && (0 <? rem)) eqn:Hc.
    + apply andb_true_iff in Hc. destruct Hc as [Hcr Hpos]. apply Z.ltb_lt in Hpos.
      set (q := Z.min rem (Order.quantity r)).
      specialize (IH Hqrest (tid + 1) (S k) (rem - q)). cbv zeta in IH.
      set (ts' := trades_of mk_trade clock crosses (tid + 1) (S k) (rem - q) rest) in *.
      destruct IH as (Hlen & Hcross & Hall & Hfull).
      cbn [length firstn].
      split; [simpl; rewrite Hlen; reflexivity|].
      split; [constructor; assumption|].
      split.
      * constructor; [|exact Hall].
        exists tid, q, (clock k). split; [reflexivity|]. unfold q. lia.
      * destruct ts' as [|t2 ts''] eqn:Hts'.
        -- simpl. constructor.
        -- destruct (firstn (length (t2 :: ts'')) rest) as [|r2 hit''] eqn:Hhit;
             [simpl in Hlen; discriminate|].
           cbn [removelast]. constructor; [|exact Hfull].
           exists tid, (clock k). f_equal.
           assert (Hleft : 0 < rem - q).
           { destruct (Z.ltb_spec 0 (rem - q)) as [H|H]; [exact H|].
             unfold ts' in Hts'. rewrite trades_of_idle in Hts' by exact H.
             discriminate. }
           unfold q in *. lia.
    + assert (Hnil : trades_of mk_trade clock crosses tid k rem rest = []).
      { apply andb_false_iff in Hc. destruct Hc as [Hc|Hc].
        - apply trades_of_no_cross. eapply Forall_impl; [|exact Hr].
          intros b Hb. apply (crosses_down r b Hb Hc).
        - apply trades_of_idle. apply Z.ltb_ge. exact Hc. }
      rewrite Hnil. simpl. repeat split; constructor.
Qed.
End TradesOf.

Lemma crosses_of_price (order r : Order.t) :
  crosses_of order r = true <-> crosses_price order (Order.price r).
Proof.
  unfold crosses_of, crosses_price.
  destruct (Order.order_type order); apply Qle_bool_iff.
Qed.

(** Down a book in order, the resting orders only get further from the
    incoming order. *)
Lemma crosses_of_down (order : Order.t) (buys sells : list Order.t) :
  sorted_books buys sells ->
  exists R,
    StronglySorted R (opposing_book order buys sells) /\
    forall a b, R a b -> crosses_of order a = false -> crosses_of order b = false.
Proof.
  intros [Hb Hs]. unfold opposing_book, crosses_of.
  destruct (Order.order_type order).
  - exists sell_before. split; [exact Hs|].
    intros a b Hab Ha.
    destruct (Qle_bool (Order.price b) (Order.price order)) eqn:E; [|reflexivity].
    apply Qle_bool_iff in E.
    assert (Hna : ~ (Order.price a <= Order.price order)%Q)
      by (intros H; apply Qle_bool_iff in H; congruence).
    exfalso. apply Hna. destruct Hab as [H|[H _]]; lra.
  - exists buy_before. split; [exact Hb|].
    intros a b Hab Ha.
    destruct (Qle_bool (Order.price order) (Order.price b)) eqn:E; [|reflexivity].
    apply Qle_bool_iff in E.
    assert (Hna : ~ (Order.price order <= Order.price a)%Q)
      by (intros H; apply Qle_bool_iff in H; congruence).
    exfalso. apply Hna. destruct Hab as [H|[H _]]; lra.
Qed.

Lemma trades_of_matched (mk : Order.t -> Z -> Order.t -> Z -> Q -> Trade.t)
      (order : Order.t) (clock : nat -> Q) (buys sells : list Order.t)
      (tid : Z) (k : nat) (rem : Z) :
  (forall tid' r q now,
      counterparty order (mk order tid' r q now) = Order.agent_id r /\
      Trade.quantity (mk order tid' r q now) = q) ->
  sorted_books buys sells ->
  Forall (fun r => 0 < Order.quantity r) (opposing_book order buys sells) ->
  matched_from_top order (opposing_book order buys sells)
    (trades_of (mk order) clock (crosses_of order) tid k rem
               (opposing_book order buys sells)).
Proof.
  intros Hmk Hsorted Hq.
  destruct (crosses_of_down order buys sells Hsorted) as (R & HR & Hdown).
  destruct (trades_of_from_top (mk order) clock (crosses_of order) R Hdown
              (opposing_book order buys sells) HR Hq tid k rem)
    as (Hlen & Hcross & Hall & Hfull).
  unfold matched_from_top. cbv zeta.
  split; [exact Hlen|]. split; [exact Hcross|]. split.
  - eapply Forall2_impl; [|exact Hall].
    intros r tr (tid' & q & now & -> & Hb).
    destruct (Hmk tid' r q now) as [Hc Hqt]. rewrite Hc, Hqt. split; [reflexivity|lia].
  - eapply Forall2_impl; [|exact Hfull].
    intros r tr (tid' & now & ->).
    destruct (Hmk tid' r (Order.quantity r) now) as [_ Hqt]. exact Hqt.
Qed.

(** X6. A valid order on well-formed books in price-time order is matched
    from the top of the opposing book, in either engine: the trades
    returned are made against the first resting orders of the book, one
    each and in the order of the book, every one of them crossed by the
    incoming order, and every one but the last traded in full. *)
Theorem X6_matched_from_the_top_of_the_book :
  forall (clock : nat -> Q) (order : Order.t)
         (s : OrderBookService.t) (l : Legacy.OrderBook.t),
    valid_order order ->
    wf_books (OrderBookService.buy_orders s) (OrderBookService.sell_orders s) ->
    sorted_books (OrderBookService.buy_orders s) (OrderBookService.sell_orders s) ->
    wf_books (Legacy.OrderBook.buy_orders l) (Legacy.OrderBook.sell_orders l) ->
    sorted_books (Legacy.OrderBook.buy_orders l) (Legacy.OrderBook.sell_orders l) ->
    (exists ts,
        fst (OrderBookService.add_order clock order s) = inr ts /\
        matched_from_top order
          (opposing_book order (OrderBookService.buy_orders s)
                         (OrderBookService.sell_orders s)) ts) /\
    (exists ts,
        fst (Legacy.OrderBook.add_order clock order l) = inr ts /\
        matched_from_top order
          (opposing_book order (Legacy.OrderBook.buy_orders l)
                         (Legacy.OrderBook.sell_orders l)) ts).
Proof.
  intros clock order s l Hv Hwf Hsorted Hlwf Hlsorted.
  split.
  - destruct (service_add_order_exact clock order s Hwf Hv) as (s' & Hrun & _).
    eexists. split; [rewrite Hrun; reflexivity|].
    apply (trades_of_matched service_trade); [|exact Hsorted|apply wf_books_opposing; exact Hwf].
    intros tid' r q now. unfold service_trade, counterparty.
    destruct (Order.order_type order); split; reflexivity.
  - pose proof (wf_books_opposing order _ _ Hlwf) as Hopp.
    destruct (legacy_add_order_exact clock order l Hopp ltac:(apply Hv))
      as (l' & Hrun & _).
    eexists. split; [rewrite Hrun; reflexivity|].
    apply (trades_of_matched legacy_trade); [|exact Hlsorted|exact Hopp].
    intros tid' r q now. unfold legacy_trade, counterparty.
    destruct (Order.order_type order); split; reflexivity.
Qed.

Lemma X6_witness :
  (exists ts,
      fst (OrderBookService.add_order ex_clock ex_buy100 ex_service) = inr ts /\
      matched_from_top ex_buy100
        (opposing_book ex_buy100 (OrderBookService.buy_orders ex_service)
                       (OrderBookService.sell_orders ex_service)) ts) /\
  (exists ts,
      fst (Legacy.OrderBook.add_order ex_clock ex_buy100 ex_legacy) = inr ts /\
      matched_from_top ex_buy100
        (opposing_book ex_buy100 (Legacy.OrderBook.buy_orders ex_legacy)
                       (Legacy.OrderBook.sell_orders ex_legacy)) ts).
Proof.
  apply (X6_matched_from_the_top_of_the_book ex_clock ex_buy100 ex_service ex_legacy);
    by_computation.
Defined.

Lemma trades_of_head (mk_trade : Z -> Order.t -> Z -> Q -> Trade.t)
      (clock : nat -> Q) (order : Order.t) (buys sells : list Order.t)
      (tid : Z) (k : nat) :
  sorted_books buys sells ->
  0 < Order.quantity order ->
  (trades_of mk_trade clock (crosses_of order) tid k (Order.quantity order)
             (opposing_book order buys sells) <> [] <->
   match opposing_book order buys sells with
   | [] => False
   | best :: _ => crosses_price order (Order.price best)
   end) /\
  (trades_of mk_trade clock (crosses_of order) tid k (Order.quantity order)
             (opposing_book order buys sells) = [] ->
   Forall (fun r => crosses_of order r = false) (opposing_book order buys sells)).
Proof.
  intros Hsorted Hq.
  destruct (crosses_of_down order buys sells Hsorted) as (R & HR & Hdown).
  destruct (opposing_book order buys sells) as [|best rest]; [split; [tauto|constructor]|].
  cbn [trades_of].
  replace (0 <? Order.quantity order) with true by (symmetry; apply Z.ltb_lt; exact Hq).
  rewrite andb_true_r, <- crosses_of_price.
  destruct (crosses_of order best) eqn:Hc.
  - split; [split; [reflexivity|discriminate]|discriminate].
  - inversion HR as [|? ? Hrest Hbest]; subst.
    assert (Hall : Forall (fun r => crosses_of order r = false) rest).
    { eapply Forall_impl; [|exact Hbest]. intros b Hb. apply (Hdown best b Hb Hc). }
    rewrite trades_of_no_cross by exact Hall.
    split; [split; [congruence|discriminate]|].
    intros _. constructor; assumption.
Qed.

Lemma no_cross_books (order : Order.t) (opp : list Order.t) :
  Forall (fun r => 0 < Order.quantity r) opp ->
  Forall (fun r => crosses_of order r = false) opp ->
  filter live (reduce_all opp (fills_of (crosses_of order) (Order.quantity order) opp))
  = opp /\
  Order.quantity order - Zsum (fills_of (crosses_of order) (Order.quantity order) opp)
  = Order.quantity order.
Proof.
  intros Hq Hno. rewrite fills_of_no_cross by exact Hno.
  rewrite reduce_all_zero, Zsum_zero, filter_live_positive by exact Hq.
  split; [reflexivity|lia].
Qed.

Lemma best_opposing_service (order : Order.t) (s : OrderBookService.t) :
  best_opposing order (fst (OrderBookService.get_best_bid s))
                (fst (OrderBookService.get_best_ask s)) =
  match opposing_book order (OrderBookService.buy_orders s)
                      (OrderBookService.sell_orders s) with
  | [] => None
  | best :: _ => Some (Order.price best)
  end.
Proof.
  unfold best_opposing, opposing_book, OrderBookService.get_best_bid,
    OrderBookService.get_best_ask, gets. simpl.
  destruct (Order.order_type order); reflexivity.
Qed.

Lemma best_opposing_legacy (order : Order.t) (l : Legacy.OrderBook.t) :
  best_opposing order (fst (Legacy.OrderBook.get_best_bid l))
                (fst (Legacy.OrderBook.get_best_ask l)) =
  match opposing_book order (Legacy.OrderBook.buy_orders l)
                      (Legacy.OrderBook.sell_orders l) with
  | [] => None
  | best :: _ => Some (Order.price best)
  end.
Proof.
  unfold best_opposing, opposing_book, Legacy.OrderBook.get_best_bid,
    Legacy.OrderBook.get_best_ask, gets. simpl.
  destruct (Order.order_type order); reflexivity.
Qed.

Lemma set_quantity_same (o : Order.t) : Order.set_quantity o (Order.quantity o) = o.
Proof. destruct o. reflexivity. Qed.

(** X5. A valid order on well-formed books in price-time order trades,
    in either engine, exactly when it crosses the best price of the
    opposing book (the best ask for a buy order, the best bid for a sell
    order). When it does not, it comes to rest whole in its own book, and
    the opposing book, the current price, the history of trades and the
    counter of trades are left as they are. *)
Theorem X5_trades_iff_best_price_crossed :
  forall (clock : nat -> Q) (order : Order.t)
         (s : OrderBookService.t) (l : Legacy.OrderBook.t),
    valid_order order ->
    wf_books (OrderBookService.buy_orders s) (OrderBookService.sell_orders s) ->
    sorted_books (OrderBookService.buy_orders s) (OrderBookService.sell_orders s) ->
    wf_books (Legacy.OrderBook.buy_orders l) (Legacy.OrderBook.sell_orders l) ->
    sorted_books (Legacy.OrderBook.buy_orders l) (Legacy.OrderBook.sell_orders l) ->
    (exists ts s',
        OrderBookService.add_order clock order s = (inr ts, s') /\
        (ts <> [] <->
         exists p,
           best_opposing order (fst (OrderBookService.get_best_bid s))
                         (fst (OrderBookService.get_best_ask s)) = Some p /\
           crosses_price order p) /\
        (ts = [] ->
         opposing_book order (OrderBookService.buy_orders s')
                       (OrderBookService.sell_orders s') =
         opposing_book order (OrderBookService.buy_orders s)
                       (OrderBookService.sell_orders s) /\
         own_book order (OrderBookService.buy_orders s')
                  (OrderBookService.sell_orders s') =
         match Order.order_type order with
         | BUY => OrderBookService._insert_buy_order order (OrderBookService.buy_orders s)
         | SELL => OrderBookService._insert_sell_order order (OrderBookService.sell_orders s)
         end /\
         OrderBookService.current_price s' = OrderBookService.current_price s /\
         OrderBookService.trades s' = OrderBookService.trades s /\
         OrderBookService.next_trade_id s' = OrderBookService.next_trade_id s)) /\
    (exists ts l',
        Legacy.OrderBook.add_order clock order l = (inr ts, l') /\
        (ts <> [] <->
         exists p,
           best_opposing order (fst (Legacy.OrderBook.get_best_bid l))
                         (fst (Legacy.OrderBook.get_best_ask l)) = Some p /\
           crosses_price order p) /\
        (ts = [] ->
         opposing_book order (Legacy.OrderBook.buy_orders l')
                       (Legacy.OrderBook.sell_orders l') =
         opposing_book order (Legacy.OrderBook.buy_orders l)
                       (Legacy.OrderBook.sell_orders l) /\
         own_book order (Legacy.OrderBook.buy_orders l')
                  (Legacy.OrderBook.sell_orders l') =
         match Order.order_type order with
         | BUY => stable_sort Qgt_bool (Legacy.OrderBook.buy_orders l ++ [order])
         | SELL => stable_sort Qlt_bool (Legacy.OrderBook.sell_orders l ++ [order])
         end /\
         Legacy.OrderBook.current_price l' = Legacy.OrderBook.current_price l /\
         Legacy.OrderBook.trades l' = Legacy.OrderBook.trades l /\
         Legacy.OrderBook.next_trade_id l' = Legacy.OrderBook.next_trade_id l)).
Proof.
  intros clock order s l Hv Hwf Hsorted Hlwf Hlsorted.
  assert (Hq : 0 < Order.quantity order) by apply Hv.
  split.
  - destruct (service_add_order_exact clock order s Hwf Hv) as (s' & Hrun & Hopp & Hown).
    pose proof (wf_books_opposing order _ _ Hwf) as Hoq.
    destruct (trades_of_head (service_trade order) clock order _ _
                (OrderBookService.next_trade_id s) 0 Hsorted Hq) as [Hiff Hnone].
    eexists. exists s'. split; [exact Hrun|]. split.
    + rewrite Hiff, best_opposing_service.
      destruct (opposing_book order _ _) as [|best rest].
      * split; [tauto|intros (p & Hp & _); discriminate].
      * split; [intros H; eexists; split; [reflexivity|exact H]
               |intros (p & Hp & H); inversion Hp; subst; exact H].
    + intros Hnil. specialize (Hnone Hnil).
      destruct (no_cross_books order _ Hoq Hnone) as [Hsame Hrem].
      rewrite Hsame in Hopp. rewrite Hrem in Hown.
      split; [exact Hopp|]. split.
      * rewrite Hown. unfold service_rest, own_book.
        replace (0 <? Order.quantity order) with true
          by (symmetry; apply Z.ltb_lt; exact Hq).
        rewrite set_quantity_same. destruct (Order.order_type order); reflexivity.
      * pose proof (service_add_order_price clock order s) as Hprice.
        destruct (service_add_order_bookkeeping clock order s)
          as (ts & Hret & _ & Hnext & Hhist & _).
        rewrite Hrun in Hprice, Hret, Hnext, Hhist. cbn [fst snd] in *.
        rewrite Hnil in Hprice, Hret. subst ts. simpl in *.
        rewrite Z.add_0_r in Hnext. repeat split; assumption.
  - pose proof (wf_books_opposing order _ _ Hlwf) as Hoq.
    destruct (legacy_add_order_exact clock order l Hoq Hq) as (l' & Hrun & Hopp & Hown).
    destruct (trades_of_head (legacy_trade order) clock order _ _
                (Legacy.OrderBook.next_trade_id l) 0 Hlsorted Hq) as [Hiff Hnone].
    eexists. exists l'. split; [exact Hrun|]. split.
    + rewrite Hiff, best_opposing_legacy.
      destruct (opposing_book order _ _) as [|best rest].
      * split; [tauto|intros (p & Hp & _); discriminate].
      * split; [intros H; eexists; split; [reflexivity|exact H]
               |intros (p & Hp & H); inversion Hp; subst; exact H].
    + intros Hnil. specialize (Hnone Hnil).
      destruct (no_cross_books order _ Hoq Hnone) as [Hsame Hrem].
      rewrite Hsame in Hopp. rewrite Hrem in Hown.
      split; [exact Hopp|]. split.
      * rewrite Hown. unfold legacy_rest, own_book.
        replace (0 <? Order.quantity order) with true
          by (symmetry; apply Z.ltb_lt; exact Hq).
        rewrite set_quantity_same. destruct (Order.order_type order); reflexivity.
      * pose proof (legacy_add_order_price clock order l) as Hprice.
        destruct (legacy_add_order_bookkeeping clock order l)
          as (ts & Hret & _ & Hnext & Hhist).
        rewrite Hrun in Hprice, Hret, Hnext, Hhist. cbn [fst snd] in *.
        rewrite Hnil in Hprice. inversion Hret; subst ts. rewrite Hnil in *.
        simpl in *. rewrite Z.add_0_r in Hnext. rewrite app_nil_r in Hhist.
        repeat split; assumption.
Qed.

Lemma X5_witness :
  exists ts s',
    OrderBookService.add_order ex_clock ex_buy100 ex_service = (inr ts, s') /\
    (ts <> [] <->
     exists p,
       best_opposing ex_buy100 (fst (OrderBookService.get_best_bid ex_service))
                     (fst (OrderBookService.get_best_ask ex_service)) = Some p /\
       crosses_price ex_buy100 p).
Proof.
  destruct (X5_trades_iff_best_price_crossed ex_clock ex_buy100 ex_service ex_legacy)
    as [(ts & s' & Hrun & Hiff & _) _]; try by_computation.
  exists ts, s'. split; [exact Hrun|exact Hiff].
Defined.

(** ** The orders and the trades as values *)

(** X7. [Order.can_match_with] is symmetric, and between a buy order and a
    sell order it is the crossing test of the matching loop of
    [add_order]; two orders of the same side never match. *)
Theorem X7_can_match_with_is_the_crossing_test :
  forall a b : Order.t,
    Order.can_match_with a b = Order.can_match_with b a /\
    Order.can_match_with a b =
    (if OrderType_eqb (Order.order_type a) (Order.order_type b) then false
     else crosses_of a b).
Proof.
  intros a b.
  unfold Order.can_match_with, crosses_of, Order.is_buy, Order.is_sell.
  destruct (Order.order_type a), (Order.order_type b); simpl; split; reflexivity.
Qed.

(** X8. A trade between two different agents is zero-sum: the buyer gains
    the quantity and pays the value, the seller loses the quantity and
    receives the value, so that the two changes of quantity and the two
    changes of cash add up to zero; an agent that is not a party has no
    role and no change. In a trade of an agent with itself, the agent
    counts as the buyer only. *)
Theorem X8_trade_is_zero_sum :
  forall (tr : Trade.t) (other : Z),
    Trade.buyer_id tr <> Trade.seller_id tr ->
    Trade.involves_agent other tr = false ->
    let buyer := Trade.buyer_id tr in
    let seller := Trade.seller_id tr in
    (Trade.get_agent_role buyer tr = Some "buyer"%string /\
     Trade.get_agent_role seller tr = Some "seller"%string /\
     Trade.get_agent_role other tr = None) /\
    (Trade.get_agent_quantity_change buyer tr = Trade.quantity tr /\
     Trade.get_agent_quantity_change seller tr = - Trade.quantity tr /\
     Trade.get_agent_quantity_change other tr = 0) /\
    (Trade.get_agent_value_change buyer tr + Trade.get_agent_value_change seller tr == 0)%Q /\
    Trade.get_agent_value_change other tr = 0%Q /\
    (forall self_trade : Trade.t,
        Trade.buyer_id self_trade = Trade.seller_id self_trade ->
        Trade.get_agent_role (Trade.seller_id self_trade) self_trade
        = Some "buyer"%string /\
        Trade.get_agent_quantity_change (Trade.seller_id self_trade) self_trade
        = Trade.quantity self_trade /\
        Trade.get_agent_value_change (Trade.seller_id self_trade) self_trade
        = (- Trade.get_total_value self_trade)%Q).
Proof.
  intros tr other Hparties Hother. cbv zeta.
  unfold Trade.involves_agent in Hother. apply orb_false_iff in Hother.
  destruct Hother as [Hob Hos].
  unfold Trade.get_agent_role, Trade.get_agent_quantity_change,
    Trade.get_agent_value_change, Trade.get_buyer_value, Trade.get_seller_value.
  rewrite Hob, Hos, !Z.eqb_refl.
  replace (Trade.buyer_id tr =? Trade.seller_id tr) with false
    by (symmetry; apply Z.eqb_neq; exact Hparties).
  split; [repeat split|]. split; [repeat split|].
  split; [ring|]. split; [reflexivity|].
  intros self_trade Hself. rewrite Hself, Z.eqb_refl. repeat split.
Qed.

Lemma X8_witness :
  (Trade.get_agent_value_change 2 (Trade.mk 1 99 10 2 0 0)
   + Trade.get_agent_value_change 0 (Trade.mk 1 99 10 2 0 0) == 0)%Q.
Proof.
  apply (X8_trade_is_zero_sum (Trade.mk 1 99 10 2 0 0) 5);
    [vm_compute; discriminate|reflexivity].
Defined.

(** ** The statistics of the history of trades *)

Lemma py_min_of_spec (l : list Q) :
  forall x,
    Forall (fun y => (py_min_of x l <= y)%Q) (x :: l) /\ In (py_min_of x l) (x :: l).
Proof.
  unfold py_min_of.
  induction l as [|z l IH]; intros x.
  - simpl. split; [repeat constructor; apply Qle_refl|left; reflexivity].
  - cbn [fold_left]. destruct (IH (py_min x z)) as [Hall Hin].
    inversion Hall as [|? ? Hhead Htail]; subst.
    assert (Hxz : (py_min x z <= x)%Q /\ (py_min x z <= z)%Q /\
                  (py_min x z = x \/ py_min x z = z)).
    { unfold py_min. destruct (Qlt_bool z x) eqn:E;
        [apply Qlt_bool_true in E|apply Qlt_bool_false in E];
        repeat split; try lra; auto. }
    destruct Hxz as (H1 & H2 & H3).
    split.
    + constructor; [lra|]. constructor; [lra|exact Htail].
    + destruct Hin as [Hin|Hin].
      * rewrite <- Hin. destruct H3 as [->| ->]; [left|right; left]; reflexivity.
      * right. right. exact Hin.
Qed.

Lemma py_max_of_spec (l : list Q) :
  forall x,
    Forall (fun y => (y <= py_max_of x l)%Q) (x :: l) /\ In (py_max_of x l) (x :: l).
Proof.
  unfold py_max_of.
  induction l as [|z l IH]; intros x.
  - simpl. split; [repeat constructor; apply Qle_refl|left; reflexivity].
  - cbn [fold_left]. destruct (IH (py_max x z)) as [Hall Hin].
    inversion Hall as [|? ? Hhead Htail]; subst.
    assert (Hxz : (x <= py_max x z)%Q /\ (z <= py_max x z)%Q /\
                  (py_max x z = x \/ py_max x z = z)).
    { unfold py_max. destruct (Qgt_bool z x) eqn:E;
        [apply Qgt_bool_true in E|apply Qgt_bool_false in E];
        repeat split; try lra; auto. }
    destruct Hxz as (H1 & H2 & H3).
    split.
    + constructor; [lra|]. constructor; [lra|exact Htail].
    + destruct Hin as [Hin|Hin].
      * rewrite <- Hin. destruct H3 as [->| ->]; [left|right; left]; reflexivity.
      * right. right. exact Hin.
Qed.

(** X9. [get_price_statistics] of [OrderBookService], however the floats
    round. Without a trade in the history, the least, the greatest and the
    mean price are the current price and the range is 0. With trades and
    an initial price that is not 0, the least and the greatest price are
    prices of trades of the history and bound the price of every trade;
    the mean is [sum(prices) / len(prices)] and the range [max_price -
    min_price] as the machine computes them, and the keys on the change of
    the price are given. With trades and the initial price 0, the method
    raises [ZeroDivisionError]. The engine is left as it is. *)
Theorem X9_price_statistics :
  forall (FA : FloatArith) (s : OrderBookService.t),
    snd (OrderBookService.get_price_statistics s) = s /\
    (OrderBookService.trades s = [] ->
     fst (OrderBookService.get_price_statistics s) =
     inr (OrderBookService.mk_price_statistics
            (OrderBookService.current_price s) (OrderBookService.current_price s)
            (OrderBookService.current_price s) 0 None)) /\
    (OrderBookService.trades s <> [] ->
     (OrderBookService.initial_price s == 0)%Q ->
     fst (OrderBookService.get_price_statistics s) = inl ZeroDivisionError) /\
    (OrderBookService.trades s <> [] ->
     ~ (OrderBookService.initial_price s == 0)%Q ->
     let prices := map Trade.price (OrderBookService.trades s) in
     exists st,
       fst (OrderBookService.get_price_statistics s) = inr st /\
       Forall (fun tr => (OrderBookService.min_price st <= Trade.price tr
                          <= OrderBookService.max_price st)%Q)
              (OrderBookService.trades s) /\
       In (OrderBookService.min_price st) prices /\
       In (OrderBookService.max_price st) prices /\
       OrderBookService.avg_price st =
       fdiv (fsum prices) (inject_Z (Z.of_nat (length prices))) /\
       OrderBookService.price_range st =
       fsub (OrderBookService.max_price st) (OrderBookService.min_price st) /\
       OrderBookService.moves st <> None).
Proof.
  intros FA s. unfold OrderBookService.get_price_statistics.
  destruct (OrderBookService.trades s) as [|tr rest] eqn:Htrades.
  - simpl. repeat split; intros H; congruence.
  - cbn [map].
    set (p := Trade.price tr). set (ps := map Trade.price rest).
    destruct (py_min_of_spec ps p) as [Hmin Hmin_in].
    destruct (py_max_of_spec ps p) as [Hmax Hmax_in].
    unfold py_min_of, py_max_of in *.
    destruct (Qeq_bool (OrderBookService.initial_price s) 0) eqn:Hinit.
    + simpl. split; [reflexivity|]. split; [discriminate|].
      split; [reflexivity|].
      intros _ Hnz. apply Qeq_bool_iff in Hinit. contradiction.
    + cbn [fst snd]. split; [reflexivity|]. split; [discriminate|].
      split; [intros _ Hz; apply Qeq_bool_iff in Hz; congruence|].
      intros _ _. eexists. split; [reflexivity|]. cbn.
      assert (Hall : Forall (fun x => (fold_left py_min ps p <= x
                                       <= fold_left py_max ps p)%Q) (p :: ps)).
      { rewrite Forall_forall in *. intros x Hx. split; [apply Hmin|apply Hmax]; exact Hx. }
      split.
      * change (p :: ps) with (map Trade.price (tr :: rest)) in Hall.
        rewrite Forall_map in Hall. exact Hall.
      * split; [exact Hmin_in|]. split; [exact Hmax_in|].
        split; [reflexivity|]. split; [reflexivity|discriminate].
Qed.

Lemma X9_witness :
  exists st,
    fst (@OrderBookService.get_price_statistics exact_arith
           (snd (OrderBookService.add_order ex_clock ex_buy100 ex_service))) = inr st /\
    OrderBookService.min_price st = 99%Q /\ OrderBookService.max_price st = 99%Q.
Proof.
  destruct (X9_price_statistics exact_arith
              (snd (OrderBookService.add_order ex_clock ex_buy100 ex_service)))
    as (_ & _ & _ & H).
  destruct H as (st & Hst & _ & Hmin & Hmax & _);
    [vm_compute; discriminate|vm_compute; discriminate|].
  exists st. split; [exact Hst|].
  split; [destruct Hmin as [H|[]]|destruct Hmax as [H|[]]]; symmetry; exact H.
Defined.

(** ** The agents *)

(** X11. What an agent of [models/agent.py] may sell.
    [get_max_sell_quantity()] is never negative; a positive quantity can be
    sold exactly when it is at most [get_max_sell_quantity()]; the greatest
    quantity itself can be sold exactly when the position is not negative,
    an agent that is short being refused the quantity 0; and what can be
    sold can be sold short, whatever the limit [max_short >= 0]. *)
Theorem X11_trading_limits :
  forall (a : Agent.t) (quantity max_short : Z),
    0 <= Agent.get_max_sell_quantity a /\
    (0 < quantity ->
     (Agent.can_sell quantity a = true <-> quantity <= Agent.get_max_sell_quantity a)) /\
    (Agent.can_sell (Agent.get_max_sell_quantity a) a = true <-> 0 <= Agent.position a) /\
    (0 <= max_short -> Agent.can_sell quantity a = true ->
     Agent.can_short_sell quantity max_short a = true).
Proof.
  intros a quantity max_short.
  unfold Agent.get_max_sell_quantity, Agent.can_sell, Agent.can_short_sell.
  split; [lia|]. split; [|split].
  - intros Hq. rewrite Z.leb_le. lia.
  - rewrite Z.leb_le. lia.
  - intros Hm Hs. apply Z.leb_le in Hs. apply Z.leb_le. lia.
Qed.

(** [create_agents] holds agents whose counters add up, whether it
    returns or raises. *)
Lemma create_loop_counts (draw : Z -> Q * Q * Q * Q) (ids : list Z) :
  forall s,
    Forall counts_add_up (AgentService.agents s) ->
    Forall counts_add_up
      (AgentService.agents (snd (AgentService.create_loop draw ids s))).
Proof.
  induction ids as [|i ids IH]; intros s H; [exact H|].
  cbn [AgentService.create_loop].
  destruct (AgentService._create_agent draw i s) as [e|agent] eqn:Hnew; [exact H|].
  apply IH. cbn. apply Forall_app. split; [exact H|].
  constructor; [|constructor].
  unfold AgentService._create_agent in Hnew.
  destruct (draw i) as [[[r f] p] c].
  unfold Agent.new, Agent.post_init in Hnew.
  repeat match type of Hnew with
         | (if ?b then _ else _) = _ => destruct b; [discriminate|]
         end.
  inversion Hnew. reflexivity.
Qed.

(** X12. The counters of orders of every agent add up,
    [total_orders_count = buy_orders_count + sell_orders_count]:
    [create_agents] holds agents with that, whether it returns or raises,
    and [add_agent_order_statistics], [update_agent_after_trade],
    [increase_all_balances], [reset_agent_balances] and
    [reset_agent_statistics] of [AgentService] keep it. *)
Theorem X12_order_counters_add_up :
  forall (s : AgentService.t) (agent_id : Z) (order_type : OrderType)
         (price amount now : Q) (quantity : Z) (is_buyer : bool),
    Forall counts_add_up (AgentService.agents s) ->
    Forall counts_add_up
      (AgentService.agents (AgentService.add_agent_order_statistics agent_id order_type s)) /\
    Forall counts_add_up
      (AgentService.agents
         (AgentService.update_agent_after_trade agent_id price quantity is_buyer now s)) /\
    Forall counts_add_up
      (AgentService.agents (AgentService.increase_all_balances amount s)) /\
    Forall counts_add_up (AgentService.agents (AgentService.reset_agent_balances s)) /\
    Forall counts_add_up (AgentService.agents (AgentService.reset_agent_statistics s)) /\
    (forall (draw : Z -> Q * Q * Q * Q) (num_agents : Z) (s0 : AgentService.t),
        Forall counts_add_up
          (AgentService.agents (snd (AgentService.create_agents draw num_agents s0)))).
Proof.
  intros s agent_id order_type price amount now quantity is_buyer H.
  assert (Hchange : forall f,
             (forall a, counts_add_up a -> counts_add_up (f a)) ->
             Forall counts_add_up (AgentService.change_agent agent_id f
                                     (AgentService.agents s))).
  { intros f Hf. induction H as [|a l Ha Hl IH]; simpl; [constructor|].
    destruct (Agent.id a =? agent_id); constructor; auto. }
  assert (Hmap : forall f,
             (forall a, counts_add_up a -> counts_add_up (f a)) ->
             Forall counts_add_up (map f (AgentService.agents s))).
  { intros f Hf. apply Forall_map. eapply Forall_impl; [|exact H]. exact Hf. }
  unfold counts_add_up in *.
  split; [|split; [|split; [|split; [|split]]]]; simpl.
  - apply Hchange. intros a Ha. destruct order_type; simpl; lia.
  - apply Hchange. intros a Ha. simpl. exact Ha.
  - apply Hmap. intros a Ha. simpl. exact Ha.
  - apply Hmap. intros a Ha. simpl. exact Ha.
  - apply Forall_map. apply Forall_forall. intros a _. reflexivity.
  - intros draw num_agents s0.
    unfold AgentService.create_agents, bind, modify, gets.
    pose proof (create_loop_counts draw (py_range num_agents)
                  (AgentService.set_agents s0 []) (Forall_nil _)) as Hloop.
    destruct (AgentService.create_loop draw (py_range num_agents)
                (AgentService.set_agents s0 [])) as [[e|[]] s1];
      exact Hloop.
Qed.

Lemma X12_witness :
  Forall counts_add_up
    (AgentService.agents
       (AgentService.add_agent_order_statistics 0 BUY
          (AgentService.mk SimulationConfig.default
             [Agent.mk 0 10 0 0 0 0 0 0 0 0 0 0 1] 10))).
Proof.
  apply (X12_order_counters_add_up
           (AgentService.mk SimulationConfig.default
              [Agent.mk 0 10 0 0 0 0 0 0 0 0 0 0 1] 10) 0 BUY 0 0 0 0 true).
  repeat constructor.
Defined.

Lemma outside_unit_false (x : Q) : in_unit x -> Agent.outside_unit x = false.
Proof.
  intros [H0 H1]. unfold Agent.outside_unit.
  apply Qle_bool_iff in H0, H1. rewrite H0, H1. reflexivity.
Qed.

Lemma py_range_succ (n : nat) :
  py_range (Z.of_nat (S n)) = py_range (Z.of_nat n) ++ [Z.of_nat n].
Proof.
  unfold py_range. rewrite !Nat2Z.id, seq_S, map_app. reflexivity.
Qed.

Lemma create_loop_ok (draw : Z -> Q * Q * Q * Q) (ids : list Z) :
  forall s,
    (0 <= AgentService.initial_balance s)%Q ->
    Forall (fun i => let '(r, f, p, _) := draw i in
                     in_unit r /\ in_unit f /\ in_unit p) ids ->
    exists l,
      AgentService.create_loop draw ids s =
      (inr tt, AgentService.set_agents s (AgentService.agents s ++ l)) /\
      Forall2 (fun i a => fresh_agent i (AgentService.initial_balance s) a /\
                          let '(r, f, p, c) := draw i in
                          Agent.risk_tolerance a = r /\
                          Agent.trading_frequency a = f /\
                          Agent.price_sensitivity a = p /\
                          Agent.trade_cooldown a = c)
              ids l.
Proof.
  induction ids as [|i ids IH]; intros s Hb Hd.
  - exists []. simpl. rewrite app_nil_r. destruct s. split; [reflexivity|constructor].
  - inversion Hd as [|? ? Hi Hrest]; subst.
    cbn [AgentService.create_loop]. unfold AgentService._create_agent.
    destruct (draw i) as [[[r f] p] c] eqn:Hdraw. destruct Hi as (Hr & Hf & Hp).
    unfold Agent.new, Agent.post_init.
    cbn [Agent.balance Agent.risk_tolerance Agent.trading_frequency
         Agent.price_sensitivity].
    replace (Qlt_bool (AgentService.initial_balance s) 0) with false
      by (symmetry; apply Qlt_bool_false; exact Hb).
    rewrite !outside_unit_false by assumption.
    match goal with
    | |- context [AgentService.create_loop draw ids ?s1] =>
      destruct (IH s1) as (l & Hrun & Hall); [exact Hb|exact Hrest|]
    end.
    rewrite Hrun. eexists (_ :: l). split.
    + simpl. rewrite <- app_assoc. reflexivity.
    + constructor; [|exact Hall].
      rewrite Hdraw. unfold fresh_agent. simpl. repeat split.
Qed.

(** X13. With cash to start with that is not negative and draws of the
    risk tolerance, the trading frequency and the price sensitivity within
    [0, 1], [create_agents(num_agents)] raises nothing, forgets the agents
    of before and returns the agents it holds from then on: one for each
    identifier of [range(num_agents)], in that order, each with the cash
    to start with, no position, counters at zero and the parameters
    drawn for it. *)
Theorem X13_create_agents :
  forall (draw : Z -> Q * Q * Q * Q) (num_agents : Z) (s : AgentService.t),
    (0 <= AgentService.initial_balance s)%Q ->
    (forall i, 0 <= i < num_agents ->
               let '(r, f, p, _) := draw i in in_unit r /\ in_unit f /\ in_unit p) ->
    exists l,
      AgentService.create_agents draw num_agents s =
      (inr l, AgentService.set_agents s l) /\
      map Agent.id l = py_range num_agents /\
      Z.of_nat (length l) = Z.max 0 num_agents /\
      Forall2 (fun i a => fresh_agent i (AgentService.initial_balance s) a /\
                          let '(r, f, p, c) := draw i in
                          Agent.risk_tolerance a = r /\
                          Agent.trading_frequency a = f /\
                          Agent.price_sensitivity a = p /\
                          Agent.trade_cooldown a = c)
              (py_range num_agents) l.
Proof.
  intros draw num_agents s Hb Hd.
  unfold AgentService.create_agents, bind, modify, gets.
  destruct (create_loop_ok draw (py_range num_agents) (AgentService.set_agents s []))
    as (l & Hrun & Hall); [exact Hb| |].
  { unfold py_range. apply Forall_map, Forall_forall. intros k Hk.
    apply in_seq in Hk. apply Hd. lia. }
  rewrite Hrun. simpl. exists l. split; [reflexivity|].
  assert (Hids : map Agent.id l = py_range num_agents).
  { clear Hrun. induction Hall as [|i a ids l [(Hid & _) _] Hrest IH]; [reflexivity|].
    simpl. rewrite Hid, IH. reflexivity. }
  split; [exact Hids|]. split; [|exact Hall].
  rewrite <- (length_map Agent.id), Hids. unfold py_range.
  rewrite length_map, length_seq. lia.
Qed.

Lemma X13_witness :
  exists l,
    AgentService.create_agents (fun _ => (1 # 2, 3 # 10, 8 # 10, 1)%Q) 3
      (AgentService.init SimulationConfig.default) =
    (inr l, AgentService.set_agents (AgentService.init SimulationConfig.default) l) /\
    map Agent.id l = [0; 1; 2].
Proof.
  destruct (X13_create_agents (fun _ => (1 # 2, 3 # 10, 8 # 10, 1)%Q) 3
              (AgentService.init SimulationConfig.default))
    as (l & Hrun & Hids & _).
  - vm_compute. discriminate.
  - intros i _. cbv beta iota. unfold in_unit. repeat split; vm_compute; discriminate.
  - exists l. split; [exact Hrun|exact Hids].
Defined.

Section ChangeAgent.
Variable agent_id : Z.
Variable f : Agent.t -> Agent.t.
Hypothesis f_id : forall a, Agent.id (f a) = Agent.id a.

Lemma change_agent_ids (l : list Agent.t) :
  map Agent.id (AgentService.change_agent agent_id f l) = map Agent.id l.
Proof.
  induction l as [|a l IH]; [reflexivity|].
  simpl. destruct (Agent.id a =? agent_id); simpl; [rewrite f_id|rewrite IH]; reflexivity.
Qed.

Lemma find_change_other (other : Z) (l : list Agent.t) :
  other <> agent_id ->
  find (fun agent => Agent.id agent =? other) (AgentService.change_agent agent_id f l) =
  find (fun agent => Agent.id agent =? other) l.
Proof.
  intros Hother. induction l as [|a l IH]; [reflexivity|].
  simpl. destruct (Z.eqb_spec (Agent.id a) agent_id) as [Ha|Ha]; simpl.
  - rewrite f_id. destruct (Z.eqb_spec (Agent.id a) other); [lia|reflexivity].
  - rewrite IH. reflexivity.
Qed.

Lemma find_change_same (l : list Agent.t) :
  find (fun agent => Agent.id agent =? agent_id)
       (AgentService.change_agent agent_id f l) =
  option_map f (find (fun agent => Agent.id agent =? agent_id) l).
Proof.
  induction l as [|a l IH]; [reflexivity|].
  simpl. destruct (Z.eqb_spec (Agent.id a) agent_id) as [Ha|Ha]; simpl.
  - rewrite f_id. apply Z.eqb_eq in Ha. rewrite Ha. reflexivity.
  - apply Z.eqb_neq in Ha. rewrite Ha. exact IH.
Qed.

Lemma change_agent_none (l : list Agent.t) :
  find (fun agent => Agent.id agent =? agent_id) l = None ->
  AgentService.change_agent agent_id f l = l.
Proof.
  induction l as [|a l IH]; [reflexivity|].
  simpl. destruct (Agent.id a =? agent_id); [discriminate|].
  intros H. rewrite IH by exact H. reflexivity.
Qed.
End ChangeAgent.

Lemma find_agent_some (agent_id : Z) (l : list Agent.t) (agent : Agent.t) :
  find (fun agent => Agent.id agent =? agent_id) l = Some agent ->
  Agent.id agent = agent_id /\ In agent l.
Proof.
  intros H. apply find_some in H. destruct H as [Hin Hid].
  apply Z.eqb_eq in Hid. split; assumption.
Qed.

(** X14. [update_agent_after_trade] changes the agent that [get_agent]
    finds for the identifier and nothing else: with no agent of that
    identifier it changes nothing; with one, that agent is the first of
    the list with the identifier, [get_agent] finds the updated agent
    afterwards, and the agents of every other identifier are found as
    before; the identifiers, and so the number of agents, stay as they
    are. *)
Theorem X14_update_changes_the_agent_found :
  forall (agent_id : Z) (price : Q) (quantity : Z) (is_buyer : bool) (now : Q)
         (s : AgentService.t),
    let s' := AgentService.update_agent_after_trade agent_id price quantity
                is_buyer now s in
    map Agent.id (AgentService.agents s') = map Agent.id (AgentService.agents s) /\
    AgentService.get_agent_count s' = AgentService.get_agent_count s /\
    (forall other, other <> agent_id ->
                   AgentService.get_agent other s' = AgentService.get_agent other s) /\
    match AgentService.get_agent agent_id s with
    | None => s' = s
    | Some agent =>
      Agent.id agent = agent_id /\ In agent (AgentService.agents s) /\
      AgentService.get_agent agent_id s' =
      Some (Agent.update_after_trade price quantity is_buyer now agent)
    end.
Proof.
  intros agent_id price quantity is_buyer now s. cbv zeta.
  unfold AgentService.update_agent_after_trade, AgentService.get_agent,
    AgentService.get_agent_count.
  cbn [AgentService.agents AgentService.set_agents].
  set (f := Agent.update_after_trade price quantity is_buyer now).
  assert (Hid : forall a, Agent.id (f a) = Agent.id a) by reflexivity.
  split; [apply change_agent_ids; exact Hid|]. split.
  { rewrite <- (length_map Agent.id), change_agent_ids, length_map by exact Hid.
    reflexivity. }
  split; [intros other Hother; apply find_change_other; assumption|].
  rewrite find_change_same by exact Hid.
  destruct (find _ (AgentService.agents s)) as [agent|] eqn:Hfind.
  - destruct (find_agent_some _ _ _ Hfind) as [H1 H2]. repeat split; assumption.
  - rewrite change_agent_none by exact Hfind. destruct s. reflexivity.
Qed.

(** ** The statistics of the agents *)

Section SortReverseFacts.
Context {A : Type}.
Variable key : A -> Q.

Lemma insert_reverse_perm (x : A) (l : list A) :
  Permutation (x :: l) (insert_reverse key x l).
Proof.
  induction l as [|y l IH]; simpl; [reflexivity|].
  destruct (Qgt_bool (key y) (key x)); [|reflexivity].
  rewrite perm_swap. apply perm_skip. exact IH.
Qed.

Lemma sort_reverse_perm (l : list A) : Permutation l (sort_reverse key l).
Proof.
  induction l as [|x l IH]; simpl; [reflexivity|].
  rewrite <- insert_reverse_perm. apply perm_skip. exact IH.
Qed.

Lemma insert_reverse_sorted (x : A) (l : list A) :
  StronglySorted (fun a b => (key b <= key a)%Q) l ->
  StronglySorted (fun a b => (key b <= key a)%Q) (insert_reverse key x l).
Proof.
  intros H. induction H as [|y l Hl IH Hy]; simpl; [repeat constructor|].
  destruct (Qgt_bool (key y) (key x)) eqn:E.
  - apply Qgt_bool_true in E. constructor; [exact IH|].
    rewrite <- insert_reverse_perm. constructor; [lra|exact Hy].
  - apply Qgt_bool_false in E. constructor; [constructor; assumption|].
    constructor; [exact E|].
    eapply Forall_impl; [|exact Hy]. intros b Hb. cbv beta in *. lra.
Qed.

Lemma sort_reverse_sorted (l : list A) :
  StronglySorted (fun a b => (key b <= key a)%Q) (sort_reverse key l).
Proof.
  induction l as [|x l IH]; simpl; [constructor|].
  apply insert_reverse_sorted. exact IH.
Qed.

(** The sort is stable: the elements with a given key keep their order. *)
Lemma insert_reverse_stable (k : Q) (x : A) (l : list A) :
  filter (fun y => Qeq_bool (key y) k) (insert_reverse key x l) =
  filter (fun y => Qeq_bool (key y) k) (x :: l).
Proof.
  induction l as [|y l IH]; [reflexivity|].
  cbn [insert_reverse]. destruct (Qgt_bool (key y) (key x)) eqn:E; [|reflexivity].
  apply Qgt_bool_true in E.
  cbn [filter] in *. rewrite IH.
  destruct (Qeq_bool (key y) k) eqn:Ey; destruct (Qeq_bool (key x) k) eqn:Ex;
    try reflexivity.
  apply Qeq_bool_iff in Ey, Ex. lra.
Qed.

Lemma sort_reverse_stable (k : Q) (l : list A) :
  filter (fun y => Qeq_bool (key y) k) (sort_reverse key l) =
  filter (fun y => Qeq_bool (key y) k) l.
Proof.
  induction l as [|x l IH]; [reflexivity|].
  cbn [sort_reverse fold_right]. fold (sort_reverse key l).
  rewrite insert_reverse_stable. cbn [filter]. rewrite IH. reflexivity.
Qed.
End SortReverseFacts.

Lemma slice_to_firstn {A : Type} (n : Z) (l : list A) :
  0 <= n -> slice_to n l = firstn (Z.to_nat n) l.
Proof.
  intros Hn. unfold slice_to.
  replace (n <? 0) with false by (symmetry; apply Z.ltb_ge; exact Hn). reflexivity.
Qed.

(** X15. [get_agent_statistics] returns one row for each agent, the rows
    by decreasing profit and, at equal profit, in the order of the agents
    (the sort is stable); the profit of a row is the value of the
    portfolio less the cash the agents started with. [get_top_agents]
    returns the first [count] rows, and [get_worst_agents] the last
    [count] rows when [count] is positive; with [count = 0] the first
    returns nothing and the second returns every row, the slice
    [all_stats[-0:]] being the whole list. *)
Theorem X15_agent_statistics_by_profit :
  forall (current_price : Q) (count : Z) (s : AgentService.t),
    let rows := AgentService.get_agent_statistics current_price s in
    let row := AgentService.stats_of (AgentService.initial_balance s) current_price in
    Permutation (map row (AgentService.agents s)) rows /\
    StronglySorted (fun a b => (AgentService.profit b <= AgentService.profit a)%Q) rows /\
    (forall k,
        filter (fun x => Qeq_bool (AgentService.profit x) k) rows =
        filter (fun x => Qeq_bool (AgentService.profit x) k)
               (map row (AgentService.agents s))) /\
    Forall (fun x => AgentService.profit x =
                     (AgentService.portfolio_value x - AgentService.initial_balance s)%Q)
           rows /\
    (0 <= count ->
     AgentService.get_top_agents current_price count s = firstn (Z.to_nat count) rows) /\
    (0 < count ->
     AgentService.get_worst_agents current_price count s = last_n (Z.to_nat count) rows) /\
    AgentService.get_top_agents current_price 0 s = [] /\
    AgentService.get_worst_agents current_price 0 s = rows.
Proof.
  intros current_price count s. cbv zeta.
  unfold AgentService.get_top_agents, AgentService.get_worst_agents,
    AgentService.get_agent_statistics.
  split; [apply sort_reverse_perm|]. split; [apply sort_reverse_sorted|].
  split; [intros k; apply sort_reverse_stable|]. split; [|split; [|split; [|split]]].
  - eapply Permutation_Forall; [apply sort_reverse_perm|].
    apply Forall_map, Forall_forall. intros a _. reflexivity.
  - intros Hc. apply slice_to_firstn. exact Hc.
  - intros Hc. rewrite <- (Z2Nat.id count) at 1 by lia.
    apply slice_from_last_n. lia.
  - reflexivity.
  - reflexivity.
Qed.

Lemma X15_witness :
  AgentService.get_top_agents 100 1
    (AgentService.mk SimulationConfig.default
       [Agent.mk 0 10 0 0 0 0 0 0 0 0 0 0 1; Agent.mk 1 20 0 0 0 0 0 0 0 0 0 0 1] 10) =
  firstn 1
    (AgentService.get_agent_statistics 100
       (AgentService.mk SimulationConfig.default
          [Agent.mk 0 10 0 0 0 0 0 0 0 0 0 0 1; Agent.mk 1 20 0 0 0 0 0 0 0 0 0 0 1] 10)).
Proof.
  apply (X15_agent_statistics_by_profit 100 1
           (AgentService.mk SimulationConfig.default
              [Agent.mk 0 10 0 0 0 0 0 0 0 0 0 0 1; Agent.mk 1 20 0 0 0 0 0 0 0 0 0 0 1] 10)).
  lia.
Defined.

Lemma count_if_sign {A : Type} (value : A -> Q) (l : list A) :
  count_if (fun x => Qgt_bool (value x) 0) l
  + count_if (fun x => Qlt_bool (value x) 0) l
  + count_if (fun x => Qeq_bool (value x) 0) l = Z.of_nat (length l).
Proof.
  unfold count_if. induction l as [|x l IH]; [reflexivity|].
  cbn [filter length].
  destruct (Qgt_bool (value x) 0) eqn:E1;
    [apply Qgt_bool_true in E1|apply Qgt_bool_false in E1];
    (destruct (Qlt_bool (value x) 0) eqn:E2;
     [apply Qlt_bool_true in E2|apply Qlt_bool_false in E2]);
    (destruct (Qeq_bool (value x) 0) eqn:E3;
     [apply Qeq_bool_iff in E3|apply Qeq_bool_neq in E3]);
    cbn [length]; try lia; try lra.
Qed.

Lemma distribute_total (value : Agent.t -> Q) (t1 t2 : Q) (l : list Agent.t) :
  let d := AgentService.distribute value t1 t2 l in
  0 <= AgentService.low d /\ 0 <= AgentService.medium d /\ 0 <= AgentService.high d /\
  AgentService.low d + AgentService.medium d + AgentService.high d
  = Z.of_nat (length l).
Proof.
  cbv zeta. unfold AgentService.distribute.
  assert (H : forall d0,
             0 <= AgentService.low d0 -> 0 <= AgentService.medium d0 ->
             0 <= AgentService.high d0 ->
             let d := fold_left
                 (fun d agent =>
                    if Qlt_bool (value agent) t1
                    then AgentService.mk_distribution (AgentService.low d + 1)
                           (AgentService.medium d) (AgentService.high d)
                    else if Qlt_bool (value agent) t2
                    then AgentService.mk_distribution (AgentService.low d)
                           (AgentService.medium d + 1) (AgentService.high d)
                    else AgentService.mk_distribution (AgentService.low d)
                           (AgentService.medium d) (AgentService.high d + 1))
                 l d0 in
             0 <= AgentService.low d /\ 0 <= AgentService.medium d /\
             0 <= AgentService.high d /\
             AgentService.low d + AgentService.medium d + AgentService.high d
             = AgentService.low d0 + AgentService.medium d0 + AgentService.high d0
               + Z.of_nat (length l)).
  { induction l as [|a l IH]; intros d0 H1 H2 H3; cbv zeta.
    - simpl. lia.
    - cbn [fold_left length].
      destruct (Qlt_bool (value a) t1); [|destruct (Qlt_bool (value a) t2)];
        match goal with
        | |- context [fold_left _ l ?d1] => specialize (IH d1)
        end; cbv zeta in IH; simpl in IH; lia. }
  specialize (H (AgentService.mk_distribution 0 0 0)). simpl in H. lia.
Qed.

(** X16. The summaries of [AgentService] count every agent once, however
    the floats round. [get_agent_performance_summary] raises nothing; the
    agents it counts as profitable, losing and breaking even add up to
    [total_agents], the number of agents. When there are agents, the worst
    and the best profit are profits of rows of [get_agent_statistics] and
    bound the profit of every row, the average profit is [sum(profits) /
    len(agent_stats)] as the machine computes it, and the four ratios are
    given; without agents every number is zero and the ratios are left
    out. The three counts of [get_agent_risk_distribution] and of
    [get_agent_trading_frequency_distribution] add up to the number of
    agents as well. *)
Theorem X16_summaries_count_every_agent :
  forall (FA : FloatArith) (current_price : Q) (s : AgentService.t),
    (exists sm,
        AgentService.get_agent_performance_summary current_price s = inr sm /\
        AgentService.total_agents sm = AgentService.get_agent_count s /\
        0 <= AgentService.profitable_agents sm /\
        0 <= AgentService.losing_agents sm /\
        0 <= AgentService.break_even_agents sm /\
        AgentService.profitable_agents sm + AgentService.losing_agents sm
        + AgentService.break_even_agents sm = AgentService.total_agents sm /\
        (AgentService.agents s = [] ->
         sm = AgentService.mk_summary 0 0 0 0 0 0 0 0 0 0 None) /\
        (AgentService.agents s <> [] ->
         let profits :=
           map AgentService.profit (AgentService.get_agent_statistics current_price s) in
         In (AgentService.worst_profit sm) profits /\
         In (AgentService.best_profit sm) profits /\
         Forall (fun p => (AgentService.worst_profit sm <= p
                           <= AgentService.best_profit sm)%Q) profits /\
         AgentService.average_profit sm =
         fdiv (fsum profits) (inject_Z (AgentService.total_agents sm)) /\
         AgentService.ratios sm <> None)) /\
    (let d := AgentService.get_agent_risk_distribution s in
     AgentService.low d + AgentService.medium d + AgentService.high d
     = AgentService.get_agent_count s) /\
    (let d := AgentService.get_agent_trading_frequency_distribution s in
     AgentService.low d + AgentService.medium d + AgentService.high d
     = AgentService.get_agent_count s).
Proof.
  intros FA current_price s.
  split; [|split; apply distribute_total].
  unfold AgentService.get_agent_performance_summary, AgentService.get_agent_count.
  destruct (AgentService.agents s) as [|a l] eqn:Hag.
  - eexists. split; [reflexivity|]. simpl.
    repeat split; try lia; congruence.
  - cbv zeta.
    set (rows := AgentService.get_agent_statistics current_price s).
    assert (Hlen : length rows = length (a :: l)).
    { unfold rows, AgentService.get_agent_statistics.
      rewrite <- (Permutation_length (sort_reverse_perm _ _)), length_map, Hag.
      reflexivity. }
    replace (Z.of_nat (length rows) =? 0) with false
      by (symmetry; apply Z.eqb_neq; rewrite Hlen; simpl; lia).
    eexists. split; [reflexivity|].
    cbn [AgentService.total_agents AgentService.profitable_agents
         AgentService.losing_agents AgentService.break_even_agents
         AgentService.worst_profit AgentService.average_profit
         AgentService.best_profit AgentService.ratios].
    split; [rewrite Hlen; reflexivity|].
    split; [unfold count_if; lia|]. split; [unfold count_if; lia|].
    split; [unfold count_if; lia|].
    split; [apply (count_if_sign AgentService.profit)|].
    split; [discriminate|]. intros _.
    destruct rows as [|r rows'] eqn:Hrows; [simpl in Hlen; discriminate|].
    cbn [map].
    destruct (py_min_of_spec (map AgentService.profit rows') (AgentService.profit r))
      as [Hmin Hmin_in].
    destruct (py_max_of_spec (map AgentService.profit rows') (AgentService.profit r))
      as [Hmax Hmax_in].
    split; [exact Hmin_in|]. split; [exact Hmax_in|].
    split; [|split; [reflexivity|discriminate]].
    rewrite Forall_forall in *. intros x Hx. split; [apply Hmin|apply Hmax]; exact Hx.
Qed.


(** ** The cycle counter and the increase of the balances *)

Lemma update_statistics_counters (new_trades : list Trade.t)
      (obs : OrderBookService.t) (s : SimulationService.t) :
  let s' := TradingSimulator._update_simulation_statistics new_trades obs s in
  SimulationService.config s' = SimulationService.config s /\
  SimulationService.cycle s' = SimulationService.cycle s /\
  SimulationService.last_balance_increase_cycle s' =
  SimulationService.last_balance_increase_cycle s.
Proof.
  cbv zeta. unfold TradingSimulator._update_simulation_statistics.
  destruct (fst (OrderBookService.get_spread obs)) as [e|[spread|]];
    repeat split; reflexivity.
Qed.

(** X17. The balances are raised every [balance_increase_cycles] cycles,
    in both simulators. When the increase is not overdue at the head of
    a cycle, [0 <= cycle - last_balance_increase_cycle <
    balance_increase_cycles], the cycle raises the balance of every agent
    by [balance_increase_amount] exactly if it is the
    [balance_increase_cycles]-th since the last increase, and records
    itself as the cycle of the last increase then; otherwise it leaves the
    agents and the record as they are. The increase is not overdue at the
    end of the cycle either, and the count-down [next_increase] of
    [get_balance_increase_info] lies in [1, balance_increase_cycles]. *)
Theorem X17_balances_raised_every_n_cycles :
  forall (new_trades : list Trade.t) (obs : OrderBookService.t)
         (ss : SimulationService.t) (agents : AgentService.t)
         (l : Legacy.TradingSimulator.t),
    let n := SimulationConfig.balance_increase_cycles (SimulationService.config ss) in
    let amount := SimulationConfig.balance_increase_amount (SimulationService.config ss) in
    increase_pending (SimulationService.cycle ss)
                     (SimulationService.last_balance_increase_cycle ss) n ->
    increase_pending (Legacy.TradingSimulator.cycle l)
                     (Legacy.TradingSimulator.last_balance_increase_cycle l)
                     (Legacy.TradingSimulator.balance_increase_cycles l) ->
    let closed :=
      TradingSimulator.close_cycle new_trades obs
        (SimulationService.increment_cycle ss) agents in
    let ss' := fst closed in
    let agents' := snd closed in
    let l' := Legacy.TradingSimulator._check_balance_increase
                (Legacy.TradingSimulator.next_cycle l) in
    (SimulationService.cycle ss' = SimulationService.cycle ss + 1 /\
     increase_pending (SimulationService.cycle ss')
                      (SimulationService.last_balance_increase_cycle ss') n /\
     1 <= SimulationService.next_increase (SimulationService.get_balance_increase_info ss')
       <= n /\
     (SimulationService.cycle ss' - SimulationService.last_balance_increase_cycle ss = n ->
      SimulationService.last_balance_increase_cycle ss' = SimulationService.cycle ss' /\
      map Agent.balance (AgentService.agents agents') =
      map (fun a => (Agent.balance a + amount)%Q) (AgentService.agents agents) /\
      map Agent.position (AgentService.agents agents') =
      map Agent.position (AgentService.agents agents)) /\
     (SimulationService.cycle ss' - SimulationService.last_balance_increase_cycle ss < n ->
      SimulationService.last_balance_increase_cycle ss' =
      SimulationService.last_balance_increase_cycle ss /\
      agents' = agents)) /\
    (Legacy.TradingSimulator.cycle l' = Legacy.TradingSimulator.cycle l + 1 /\
     increase_pending (Legacy.TradingSimulator.cycle l')
                      (Legacy.TradingSimulator.last_balance_increase_cycle l')
                      (Legacy.TradingSimulator.balance_increase_cycles l) /\
     (Legacy.TradingSimulator.cycle l'
      - Legacy.TradingSimulator.last_balance_increase_cycle l
      = Legacy.TradingSimulator.balance_increase_cycles l ->
      Legacy.TradingSimulator.last_balance_increase_cycle l' =
      Legacy.TradingSimulator.cycle l' /\
      map Legacy.Agent.balance (Legacy.TradingSimulator.agents l') =
      map (fun a => (Legacy.Agent.balance a
                     + Legacy.TradingSimulator.balance_increase_amount l)%Q)
          (Legacy.TradingSimulator.agents l) /\
      map Legacy.Agent.position (Legacy.TradingSimulator.agents l') =
      map Legacy.Agent.position (Legacy.TradingSimulator.agents l)) /\
     (Legacy.TradingSimulator.cycle l'
      - Legacy.TradingSimulator.last_balance_increase_cycle l
      < Legacy.TradingSimulator.balance_increase_cycles l ->
      l' = Legacy.TradingSimulator.next_cycle l)).
Proof.
  intros new_trades obs ss agents l n amount Hs Hl. cbv zeta.
  unfold increase_pending in *.
  split.
  - unfold TradingSimulator.close_cycle, SimulationService.should_increase_balance.
    cbn [SimulationService.increment_cycle SimulationService.cycle
         SimulationService.last_balance_increase_cycle SimulationService.config].
    fold n.
    destruct (Z.geb_spec (SimulationService.cycle ss + 1
                          - SimulationService.last_balance_increase_cycle ss) n)
      as [Hdue|Hnot];
      cbn [fst snd];
      match goal with
      | |- context [TradingSimulator._update_simulation_statistics ?t ?o ?s1] =>
        destruct (update_statistics_counters t o s1) as (Hc & Hcy & Hla);
          cbv zeta in Hc, Hcy, Hla
      end;
      unfold SimulationService.get_balance_increase_info;
      cbn [SimulationService.next_increase];
      rewrite Hcy, Hla, Hc;
      cbn [SimulationService.mark_balance_increased SimulationService.increment_cycle
           SimulationService.cycle SimulationService.last_balance_increase_cycle
           SimulationService.config];
      fold n; repeat split; try lia.
    + unfold AgentService.increase_all_balances. simpl. rewrite map_map. reflexivity.
    + unfold AgentService.increase_all_balances. simpl. rewrite map_map. reflexivity.
  - unfold Legacy.TradingSimulator._check_balance_increase.
    cbn [Legacy.TradingSimulator.next_cycle Legacy.TradingSimulator.cycle
         Legacy.TradingSimulator.last_balance_increase_cycle
         Legacy.TradingSimulator.balance_increase_cycles
         Legacy.TradingSimulator.balance_increase_amount
         Legacy.TradingSimulator.agents].
    destruct (Z.geb_spec (Legacy.TradingSimulator.cycle l + 1
                          - Legacy.TradingSimulator.last_balance_increase_cycle l)
                         (Legacy.TradingSimulator.balance_increase_cycles l))
      as [Hdue|Hnot];
      repeat split; intros; simpl in *; try lia;
        try (rewrite map_map; reflexivity).
Qed.

Lemma X17_witness :
  let closed :=
    TradingSimulator.close_cycle [] ex_service
      (SimulationService.increment_cycle
         (SimulationService.mk SimulationConfig.default 99 false [100%Q] [0] [0] [] 0))
      (AgentService.mk SimulationConfig.default
         [Agent.mk 0 10 0 0 0 0 0 0 0 0 0 0 1] 10) in
  SimulationService.last_balance_increase_cycle (fst closed) = 100 /\
  map Agent.balance (AgentService.agents (snd closed)) = [(10 + 1000)%Q].
Proof.
  destruct (X17_balances_raised_every_n_cycles [] ex_service
              (SimulationService.mk SimulationConfig.default 99 false [100%Q] [0] [0] [] 0)
              (AgentService.mk SimulationConfig.default
                 [Agent.mk 0 10 0 0 0 0 0 0 0 0 0 0 1] 10)
              ex_simulator)
    as [(_ & _ & _ & Hdue & _) _].
  - unfold increase_pending. simpl. lia.
  - unfold increase_pending. simpl. lia.
  - cbv zeta. destruct Hdue as (Hlast & Hbal & _); [reflexivity|].
    split; [exact Hlast|exact Hbal].
Defined.

(** ** The histories of the simulators *)

Lemma last_opt_app_last {A : Type} (l : list A) (x : A) : last_opt (l ++ [x]) = Some x.
Proof. unfold last_opt. rewrite rev_app_distr. reflexivity. Qed.

Lemma slice_from_keeps_last {A : Type} (k : Z) (h : list A) (x : A) :
  0 <= k -> last_opt (slice_from (- k) (h ++ [x])) = Some x.
Proof.
  intros Hk. destruct (Z.eq_dec k 0) as [->|Hnz].
  - simpl. apply last_opt_app_last.
  - rewrite <- (Z2Nat.id k) by lia. rewrite slice_from_last_n by lia.
    unfold last_n. rewrite length_app. simpl length.
    rewrite skipn_app_le by lia. apply last_opt_app_last.
Qed.

Lemma append_capped_last {A : Type} (cap : Z) (x : A) (h : list A) :
  0 <= cap -> last_opt (SimulationService.append_capped cap x h) = Some x.
Proof.
  intros Hcap. unfold SimulationService.append_capped. cbv zeta.
  destruct (Z.of_nat (length (h ++ [x])) >? cap).
  - apply slice_from_keeps_last. apply Z.div_pos; lia.
  - apply last_opt_app_last.
Qed.

(** The length of a history after an entry depends on its length of before
    and on the cap only. *)
Lemma append_capped_length {A B : Type} (cap : Z) (x : A) (y : B)
      (h : list A) (h' : list B) :
  length h = length h' ->
  length (SimulationService.append_capped cap x h) =
  length (SimulationService.append_capped cap y h').
Proof.
  intros Hlen. unfold SimulationService.append_capped, slice_from. cbv zeta.
  rewrite !length_app, Hlen. simpl length.
  destruct (Z.of_nat (length h' + 1) >? cap); [|rewrite !length_app, Hlen; reflexivity].
  destruct (- (cap / 2) <? 0); rewrite !length_skipn, !length_app, Hlen; reflexivity.
Qed.

Lemma update_statistics_prices (new_trades : list Trade.t)
      (obs : OrderBookService.t) (s : SimulationService.t) :
  let cap := SimulationConfig.max_history_size (SimulationService.config s) in
  let s' := TradingSimulator._update_simulation_statistics new_trades obs s in
  SimulationService.price_history s' =
  SimulationService.append_capped cap (OrderBookService.current_price obs)
                                  (SimulationService.price_history s) /\
  SimulationService.volume_history s' =
  SimulationService.append_capped cap (Zsum (map Trade.quantity new_trades))
                                  (SimulationService.volume_history s) /\
  SimulationService.trade_count_history s' =
  SimulationService.append_capped cap (Z.of_nat (length new_trades))
                                  (SimulationService.trade_count_history s).
Proof.
  cbv zeta. unfold TradingSimulator._update_simulation_statistics.
  destruct (fst (OrderBookService.get_spread obs)) as [e|[spread|]];
    repeat split; reflexivity.
Qed.

(** X18. The current price of the simulation is the last price recorded.
    With a cap [max_history_size] that is not negative,
    [get_current_price()] after [update_price(p)] is [p], and after
    [_update_simulation_statistics] it is the current price of the order
    book; after [__init__] and after [reset] it is the initial price of
    the configuration. *)
Theorem X18_current_price_is_the_last_recorded :
  forall (p : Q) (new_trades : list Trade.t) (obs : OrderBookService.t)
         (s : SimulationService.t),
    0 <= SimulationConfig.max_history_size (SimulationService.config s) ->
    SimulationService.get_current_price (SimulationService.update_price p s) = p /\
    SimulationService.get_current_price
      (TradingSimulator._update_simulation_statistics new_trades obs s) =
    OrderBookService.current_price obs /\
    SimulationService.get_current_price (SimulationService.reset s) =
    SimulationConfig.initial_price (SimulationService.config s) /\
    SimulationService.get_current_price
      (SimulationService.init (SimulationService.config s)) =
    SimulationConfig.initial_price (SimulationService.config s).
Proof.
  intros p new_trades obs s Hcap.
  unfold SimulationService.get_current_price.
  split; [|split; [|split; reflexivity]].
  - cbn [SimulationService.update_price SimulationService.price_history].
    rewrite append_capped_last by exact Hcap. reflexivity.
  - destruct (update_statistics_prices new_trades obs s) as (Hp & _).
    cbv zeta in Hp. rewrite Hp, append_capped_last by exact Hcap. reflexivity.
Qed.

Lemma X18_witness :
  SimulationService.get_current_price
    (SimulationService.update_price 104 ex_capped_service) = 104%Q.
Proof.
  apply (X18_current_price_is_the_last_recorded 104 [] ex_service ex_capped_service).
  vm_compute. discriminate.
Defined.

Lemma slice_from_neg_length {A : Type} (n : nat) (l : list A) :
  (0 < n)%nat -> length (slice_from (- Z.of_nat n) l) = Nat.min n (length l).
Proof.
  intros Hn. rewrite slice_from_last_n by exact Hn.
  unfold last_n. rewrite length_skipn. lia.
Qed.

(** X19. The histories move together. In [simulator.py],
    [_update_statistics] keeps the histories of prices, volumes and trade
    counts at one length, between 1 and 1000, and the history of spreads no
    longer than them; so the three lists of [get_price_chart_data] have
    one length. In [SimulationService], [_update_simulation_statistics]
    keeps the histories of prices, volumes and trade counts at one
    length. *)
Theorem X19_histories_move_together :
  forall (new_trades : list Trade.t) (l : Legacy.TradingSimulator.t)
         (obs : OrderBookService.t) (s : SimulationService.t),
    legacy_histories_aligned l ->
    histories_aligned s ->
    let l' := Legacy.TradingSimulator._update_statistics new_trades l in
    legacy_histories_aligned l' /\
    (let chart := Legacy.TradingSimulator.get_price_chart_data l' in
     length (Legacy.TradingSimulator.volumes chart) =
     length (Legacy.TradingSimulator.prices chart) /\
     length (Legacy.TradingSimulator.cycles chart) =
     length (Legacy.TradingSimulator.prices chart)) /\
    histories_aligned (TradingSimulator._update_simulation_statistics new_trades obs s).
Proof.
  intros new_trades l obs s (Hv & Ht & Hs & Hp1 & Hp2) (Hsv & Hst). cbv zeta.
  assert (Hl : legacy_histories_aligned
                 (Legacy.TradingSimulator._update_statistics new_trades l)).
  { unfold legacy_histories_aligned, Legacy.TradingSimulator._update_statistics.
    cbv zeta.
    assert (Hsp : (length (match fst (Legacy.OrderBook.get_spread
                                        (Legacy.TradingSimulator.order_book l)) with
                           | inr (Some current_spread) =>
                             Legacy.TradingSimulator.spread_history l ++ [current_spread]
                           | _ => Legacy.TradingSimulator.spread_history l
                           end)
                   <= length (Legacy.TradingSimulator.price_history l) + 1)%nat).
    { destruct (fst (Legacy.OrderBook.get_spread _)) as [e|[sp|]];
        rewrite ?length_app; simpl; lia. }
    destruct (Z.of_nat (length (Legacy.TradingSimulator.price_history l ++ [_]))
              >? 1000) eqn:Hcut;
      cbn [Legacy.TradingSimulator.price_history Legacy.TradingSimulator.volume_history
           Legacy.TradingSimulator.trade_count_history
           Legacy.TradingSimulator.spread_history].
    - rewrite Z.gtb_ltb in Hcut. apply Z.ltb_lt in Hcut.
      change (Z.opp 1000) with (- Z.of_nat 1000).
      rewrite !slice_from_neg_length by lia.
      rewrite !length_app in *. simpl length in *. lia.
    - rewrite Z.gtb_ltb in Hcut. apply Z.ltb_ge in Hcut.
      rewrite !length_app in *. simpl length in *. lia. }
  split; [exact Hl|]. split.
  - destruct Hl as (Hv' & _). unfold Legacy.TradingSimulator.get_price_chart_data.
    cbn [Legacy.TradingSimulator.volumes Legacy.TradingSimulator.prices
         Legacy.TradingSimulator.cycles].
    split; [exact Hv'|].
    unfold py_range. rewrite length_map, length_seq, Nat2Z.id. reflexivity.
  - destruct (update_statistics_prices new_trades obs s) as (Hp & Hvol & Htc).
    cbv zeta in Hp, Hvol, Htc. unfold histories_aligned.
    rewrite Hp, Hvol, Htc.
    split; apply append_capped_length; assumption.
Qed.

Lemma X19_witness :
  legacy_histories_aligned (Legacy.TradingSimulator._update_statistics [] ex_simulator) /\
  histories_aligned
    (TradingSimulator._update_simulation_statistics [] ex_service
       (SimulationService.init SimulationConfig.default)).
Proof.
  destruct (X19_histories_move_together [] ex_simulator ex_service
              (SimulationService.init SimulationConfig.default))
    as (H1 & _ & H2).
  - unfold legacy_histories_aligned. simpl. lia.
  - unfold histories_aligned. simpl. lia.
  - split; assumption.
Defined.

(** ** The average spread and the volatility *)

Lemma recent_spreads_mean (cycles : Z) (history : list Q) :
  1 <= cycles -> history <> [] ->
  let recent := slice_from (- Z.min cycles (Z.of_nat (length history))) history in
  recent = last_n (Z.to_nat (Z.min cycles (Z.of_nat (length history)))) history /\
  Z.of_nat (length recent) = Z.min cycles (Z.of_nat (length history)) /\
  recent <> [].
Proof.
  intros Hc Hne. cbv zeta.
  assert (Hlen : (0 < length history)%nat) by (destruct history; [congruence|simpl; lia]).
  set (k := Z.min cycles (Z.of_nat (length history))).
  assert (Hk : 1 <= k <= Z.of_nat (length history)) by (unfold k; lia).
  assert (Heq : slice_from (- k) history = last_n (Z.to_nat k) history).
  { rewrite <- (Z2Nat.id k) at 1 by lia. apply slice_from_last_n. lia. }
  rewrite Heq.
  split; [reflexivity|].
  assert (Hl : Z.of_nat (length (last_n (Z.to_nat k) history)) = k).
  { unfold last_n. rewrite length_skipn. lia. }
  split; [exact Hl|].
  intros Hnil. rewrite Hnil in Hl. simpl in Hl. lia.
Qed.

Lemma Forall_last_n {A : Type} (P : A -> Prop) (n : nat) (l : list A) :
  Forall P l -> Forall P (last_n n l).
Proof. intros H. unfold last_n. apply Forall_skipn. exact H. Qed.

(** X20. [get_average_spread], of both simulators, however the floats
    round: without a spread in the history it returns [None]; with spreads
    and [avg_spread_cycles >= 1] it raises nothing and returns the mean
    [sum(recent_spreads) / len(recent_spreads)], as the machine computes
    it, of the last [min(avg_spread_cycles, len(spread_history))] spreads
    of the history, of which there is one at least. *)
Theorem X20_average_spread :
  forall (FA : FloatArith) (s : SimulationService.t) (l : Legacy.TradingSimulator.t),
    1 <= SimulationConfig.avg_spread_cycles (SimulationService.config s) ->
    1 <= Legacy.TradingSimulator.avg_spread_cycles l ->
    (SimulationService.spread_history s = [] ->
     SimulationService.get_average_spread s = inr None) /\
    (SimulationService.spread_history s <> [] ->
     let recent :=
       last_n (Z.to_nat (Z.min (SimulationConfig.avg_spread_cycles
                                  (SimulationService.config s))
                               (Z.of_nat (length (SimulationService.spread_history s)))))
              (SimulationService.spread_history s) in
     recent <> [] /\
     SimulationService.get_average_spread s =
     inr (Some (fdiv (fsum recent) (inject_Z (Z.of_nat (length recent)))))) /\
    (Legacy.TradingSimulator.spread_history l = [] ->
     Legacy.TradingSimulator.get_average_spread l = inr None) /\
    (Legacy.TradingSimulator.spread_history l <> [] ->
     let recent :=
       last_n (Z.to_nat (Z.min (Legacy.TradingSimulator.avg_spread_cycles l)
                               (Z.of_nat (length (Legacy.TradingSimulator.spread_history l)))))
              (Legacy.TradingSimulator.spread_history l) in
     recent <> [] /\
     Legacy.TradingSimulator.get_average_spread l =
     inr (Some (fdiv (fsum recent) (inject_Z (Z.of_nat (length recent)))))).
Proof.
  intros FA s l Hs Hl.
  unfold SimulationService.get_average_spread, Legacy.TradingSimulator.get_average_spread.
  cbv zeta.
  split; [intros ->; reflexivity|]. split; [|split; [intros ->; reflexivity|]].
  - intros Hne.
    destruct (recent_spreads_mean _ _ Hs Hne) as (Hrec & _ & Hnn). cbv zeta in Hrec, Hnn.
    destruct (SimulationService.spread_history s) as [|x h] eqn:Hh; [congruence|].
    rewrite Hrec in *.
    destruct (last_n _ (x :: h)) as [|y r] eqn:Hr; [congruence|].
    split; [discriminate|reflexivity].
  - intros Hne.
    destruct (recent_spreads_mean _ _ Hl Hne) as (Hrec & _ & Hnn). cbv zeta in Hrec, Hnn.
    destruct (Legacy.TradingSimulator.spread_history l) as [|x h] eqn:Hh; [congruence|].
    rewrite Hrec in *.
    destruct (last_n _ (x :: h)) as [|y r] eqn:Hr; [congruence|].
    split; [discriminate|reflexivity].
Qed.

Lemma X20_witness :
  @SimulationService.get_average_spread exact_arith ex_capped_service =
  inr (Some (1 / 1)%Q).
Proof.
  destruct (X20_average_spread exact_arith ex_capped_service ex_simulator)
    as (_ & H & _).
  - vm_compute. discriminate.
  - vm_compute. discriminate.
  - destruct H as [_ H]; [discriminate|]. exact H.
Defined.

(** Prices above zero give [calculate_volatility] of [SimulationService]
    a value within its bounds. *)
Lemma calculate_volatility_bounds (s : SimulationService.t) :
  Forall (fun p => (0 < p)%Q) (SimulationService.price_history s) ->
  exists v,
    SimulationService.calculate_volatility s = inr v /\
    ((5 # 1000) <= v <= (5 # 100))%Q.
Proof.
  intros Hpos. unfold SimulationService.calculate_volatility.
  destruct (Z.of_nat (length (SimulationService.price_history s)) <? 2);
    [exists (1 # 100)%Q; split; [reflexivity|split; discriminate]|].
  destruct (SimulationConfig.skip_volatility_calculation (SimulationService.config s));
    [exists (1 # 100)%Q; split; [reflexivity|split; discriminate]|].
  cbv zeta.
  destruct (Z.of_nat (length (slice_from (-5) (SimulationService.price_history s))) <? 2);
    [exists (1 # 100)%Q; split; [reflexivity|split; discriminate]|].
  rewrite price_changes_returns.
  2:{ change (-5) with (- Z.of_nat 5). rewrite slice_from_last_n by lia.
      apply Forall_last_n. eapply Forall_impl; [|exact Hpos].
      intros p Hp Hz. cbv beta in *. lra. }
  destruct (returns _) as [|c changes];
    [exists (1 # 100)%Q; split; [reflexivity|split; discriminate]|].
  eexists. split; [reflexivity|].
  apply py_max_min_clamp. discriminate.
Qed.

(** ** The configuration and the data of the market *)

(** X22. The setters of [services/trading_simulator.py] keep a
    configuration that [SimulationConfig.__post_init__] accepts
    acceptable, whatever they are given: [set_avg_spread_cycles],
    [set_balance_increase_settings] and [set_performance_mode] store
    values that pass its checks. *)
Theorem X22_setters_keep_the_configuration_valid :
  forall (c : SimulationConfig.t) (cycles : Z) (amount : Q) (enabled skip : bool),
    SimulationConfig.post_init c = inr c ->
    let c1 := snd (TradingSimulator.set_avg_spread_cycles cycles c) in
    let c2 := snd (TradingSimulator.set_balance_increase_settings cycles amount c) in
    let c3 := snd (TradingSimulator.set_performance_mode enabled skip c) in
    SimulationConfig.post_init c1 = inr c1 /\
    SimulationConfig.post_init c2 = inr c2 /\
    SimulationConfig.post_init c3 = inr c3.
Proof.
  intros c cycles amount enabled skip Hc. cbv zeta.
  unfold SimulationConfig.post_init in *.
  destruct (Qle_bool (SimulationConfig.initial_price c) 0) eqn:E1; [discriminate|].
  destruct (SimulationConfig.num_agents c <=? 0) eqn:E2; [discriminate|].
  destruct (Qle_bool (SimulationConfig.initial_balance c) 0) eqn:E3; [discriminate|].
  destruct (SimulationConfig.max_history_size c <=? 0) eqn:E4; [discriminate|].
  destruct (SimulationConfig.max_trades_history c <=? 0) eqn:E5; [discriminate|].
  destruct (SimulationConfig.balance_increase_cycles c <=? 0) eqn:E6; [discriminate|].
  destruct (Qlt_bool (SimulationConfig.balance_increase_amount c) 0) eqn:E7;
    [discriminate|].
  destruct (SimulationConfig.avg_spread_cycles c <=? 0) eqn:E8; [discriminate|].
  simpl. rewrite E1, E2, E3, E4, E5, E6, E7, E8.
  replace (Z.max 1 (Z.min cycles 1000) <=? 0) with false
    by (symmetry; apply Z.leb_gt; lia).
  replace (Z.max 1 (Z.min cycles 10000) <=? 0) with false
    by (symmetry; apply Z.leb_gt; lia).
  replace (Qlt_bool (py_max 0 amount) 0) with false.
  2:{ symmetry. apply Qlt_bool_false. unfold py_max.
      destruct (Qgt_bool amount 0) eqn:E; [apply Qgt_bool_true in E; lra|apply Qle_refl]. }
  repeat split.
Qed.

Lemma X22_witness :
  SimulationConfig.post_init
    (snd (TradingSimulator.set_balance_increase_settings 20000 (-5)
            SimulationConfig.default)) =
  inr (snd (TradingSimulator.set_balance_increase_settings 20000 (-5)
              SimulationConfig.default)).
Proof.
  apply (X22_setters_keep_the_configuration_valid SimulationConfig.default
           20000 (-5) true true).
  reflexivity.
Defined.

Lemma py_index_from_end {A : Type} (k : Z) (l : list A) :
  0 <= k -> k + 1 <= Z.of_nat (length l) ->
  exists x, py_index (- (k + 1)) l = Some x /\ In x l.
Proof.
  intros Hk Hlen. unfold py_index. cbv zeta.
  replace (- (k + 1) <? 0) with true by (symmetry; apply Z.ltb_lt; lia).
  replace (- (k + 1) + Z.of_nat (length l) <? 0) with false
    by (symmetry; apply Z.ltb_ge; lia).
  destruct (nth_error l (Z.to_nat (- (k + 1) + Z.of_nat (length l)))) as [x|] eqn:E.
  - exists x. split; [reflexivity|]. eapply nth_error_In. exact E.
  - apply nth_error_None in E. lia.
Qed.

(** X23. The trend of [MarketData] is one of three. When
    [get_price_change_percentage(periods)] returns a number and
    [threshold >= 0], exactly one of [is_trending_up], [is_trending_down]
    and [is_sideways] holds; when it returns [None], for want of history
    or because the price of [periods] cycles ago is 0, none of them does.
    With [periods >= 0] none of the four methods raises. *)
Theorem X23_one_trend_at_a_time :
  forall (periods : Z) (threshold : Q) (m : MarketData.t),
    (0 <= threshold)%Q ->
    match MarketData.get_price_change_percentage periods m with
    | MarketData.Returns (Some pct) =>
      exists up down sideways,
        MarketData.is_trending_up periods threshold m = MarketData.Returns up /\
        MarketData.is_trending_down periods threshold m = MarketData.Returns down /\
        MarketData.is_sideways periods threshold m = MarketData.Returns sideways /\
        (up = true <-> (threshold < pct)%Q) /\
        (down = true <-> (pct < - threshold)%Q) /\
        (sideways = true <-> (- threshold <= pct <= threshold)%Q) /\
        ((up = true /\ down = false /\ sideways = false) \/
         (up = false /\ down = true /\ sideways = false) \/
         (up = false /\ down = false /\ sideways = true))
    | MarketData.Returns None =>
      MarketData.is_trending_up periods threshold m = MarketData.Returns false /\
      MarketData.is_trending_down periods threshold m = MarketData.Returns false /\
      MarketData.is_sideways periods threshold m = MarketData.Returns false
    | MarketData.IndexError => periods < 0
    end.
Proof.
  intros periods threshold m Ht.
  unfold MarketData.is_trending_up, MarketData.is_trending_down, MarketData.is_sideways.
  destruct (MarketData.get_price_change_percentage periods m) as [|[pct|]] eqn:Hpct.
  - destruct (Z.lt_ge_cases periods 0) as [Hneg|Hpos]; [exact Hneg|exfalso].
    unfold MarketData.get_price_change_percentage, MarketData.get_price_change in Hpct.
    destruct (Z.ltb_spec (Z.of_nat (length (MarketData.price_history m))) (periods + 1))
      as [Hshort|Hlong]; [discriminate|].
    destruct (py_index_from_end periods (MarketData.price_history m) Hpos Hlong)
      as (x & Hx & _).
    rewrite Hx in Hpct. destruct (Qeq_bool x 0); discriminate.
  - do 3 eexists. split; [reflexivity|]. split; [reflexivity|]. split; [reflexivity|].
    assert (Hup : Qgt_bool pct threshold = true <-> (threshold < pct)%Q)
      by apply Qgt_bool_true.
    assert (Hdown : Qlt_bool pct (- threshold) = true <-> (pct < - threshold)%Q)
      by apply Qlt_bool_true.
    assert (Hside : Qle_bool (Qabs pct) threshold = true
                    <-> (- threshold <= pct <= threshold)%Q).
    { rewrite Qle_bool_iff. apply Qabs_Qle_condition. }
    split; [exact Hup|]. split; [exact Hdown|]. split; [exact Hside|].
    destruct (Qgt_bool pct threshold) eqn:E1;
      destruct (Qlt_bool pct (- threshold)) eqn:E2;
      destruct (Qle_bool (Qabs pct) threshold) eqn:E3;
      try (left; repeat split; reflexivity);
      try (right; left; repeat split; reflexivity);
      try (right; right; repeat split; reflexivity);
      exfalso;
      repeat match goal with
             | H : true = true <-> _ |- _ => destruct H as [H _]; specialize (H eq_refl)
             | H : false = true <-> _ |- _ =>
               let H' := fresh in
               assert (H' : ~ _) by (intros ?; apply H in H0; discriminate)
             end.
    all: try lra.
    all: try (apply Qgt_bool_false in E1; apply Qlt_bool_false in E2;
              assert (Hn : ~ (- threshold <= pct <= threshold)%Q)
                by (intros Hc; apply Hside in Hc; discriminate);
              apply Hn; split; lra).
  - repeat split.
Qed.

Lemma X23_witness :
  exists up down sideways,
    MarketData.is_trending_up 1 (1 # 100) ex_market_data = MarketData.Returns up /\
    MarketData.is_trending_down 1 (1 # 100) ex_market_data = MarketData.Returns down /\
    MarketData.is_sideways 1 (1 # 100) ex_market_data = MarketData.Returns sideways /\
    ((up = true /\ down = false /\ sideways = false) \/
     (up = false /\ down = true /\ sideways = false) \/
     (up = false /\ down = false /\ sideways = true)).
Proof.
  assert (H := X23_one_trend_at_a_time 1 (1 # 100) ex_market_data).
  change (MarketData.get_price_change_percentage 1 ex_market_data)
    with (MarketData.Returns (Some ((110 - 100) / 100 * 100)%Q)) in H.
  destruct H as (up & down & sideways & H1 & H2 & H3 & _ & _ & _ & H4);
    [vm_compute; discriminate|].
  exists up, down, sideways. repeat split; assumption.
Defined.

Lemma Forall_append_capped {A : Type} (P : A -> Prop) (cap : Z) (x : A) (h : list A) :
  P x -> Forall P h -> Forall P (SimulationService.append_capped cap x h).
Proof.
  intros Hx Hh. unfold SimulationService.append_capped. cbv zeta.
  assert (Hall : Forall P (h ++ [x])) by (apply Forall_app; split; [exact Hh|repeat constructor; exact Hx]).
  destruct (Z.of_nat (length (h ++ [x])) >? cap); [|exact Hall].
  unfold slice_from. destruct (- (cap / 2) <? 0); apply Forall_skipn; exact Hall.
Qed.

Lemma Qle_bool_false_pos (x : Q) : (0 < x)%Q -> Qle_bool x 0 = false.
Proof.
  intros H. apply Qgt_bool_true in H. unfold Qgt_bool in H.
  apply negb_true_iff in H. exact H.
Qed.

Lemma current_price_positive (s : SimulationService.t) :
  (0 < SimulationConfig.initial_price (SimulationService.config s))%Q ->
  Forall (fun p => (0 < p)%Q) (SimulationService.price_history s) ->
  (0 < SimulationService.get_current_price s)%Q.
Proof.
  intros Hinit Hall. unfold SimulationService.get_current_price.
  destruct (last_opt (SimulationService.price_history s)) as [p|] eqn:E; [|exact Hinit].
  apply last_opt_In in E. rewrite Forall_forall in Hall. apply Hall. exact E.
Qed.

(** X24. The data of the market that [run_cycle] of
    [services/trading_simulator.py] builds at its head are accepted by
    [MarketData.__post_init__], and the volatility is computed without
    [ZeroDivisionError], whenever the books are well-formed and not
    crossed and the initial price and the prices of the history are
    positive: the current price is positive, the volatility lies within
    [0.005, 0.05], and the spread, the best bid and the best ask are those
    of the order book. The prices of the history are still positive after
    [_update_simulation_statistics] when the current price of the order
    book is. *)
Theorem X24_market_data_of_a_cycle :
  forall (new_trades : list Trade.t) (obs : OrderBookService.t)
         (ss : SimulationService.t),
    wf_books (OrderBookService.buy_orders obs) (OrderBookService.sell_orders obs) ->
    uncrossed (OrderBookService.buy_orders obs) (OrderBookService.sell_orders obs) ->
    (0 < SimulationConfig.initial_price (SimulationService.config ss))%Q ->
    Forall (fun p => (0 < p)%Q) (SimulationService.price_history ss) ->
    (exists md,
        TradingSimulator.cycle_market_data obs ss = inr md /\
        MarketData.current_price md = SimulationService.get_current_price ss /\
        (0 < MarketData.current_price md)%Q /\
        ((5 # 1000) <= MarketData.volatility md <= (5 # 100))%Q /\
        fst (OrderBookService.get_spread obs) = inr (MarketData.spread md) /\
        fst (OrderBookService.get_best_bid obs) = inr (MarketData.best_bid md) /\
        fst (OrderBookService.get_best_ask obs) = inr (MarketData.best_ask md) /\
        MarketData.price_history md = SimulationService.get_price_history (Some 20) ss /\
        MarketData.volume_history md = SimulationService.get_volume_history (Some 20) ss) /\
    ((0 < OrderBookService.current_price obs)%Q ->
     Forall (fun p => (0 < p)%Q)
            (SimulationService.price_history
               (TradingSimulator._update_simulation_statistics new_trades obs ss))).
Proof.
  intros new_trades obs ss [Hb Hs] Hun Hinit Hpos.
  split.
  - unfold TradingSimulator.cycle_market_data, SimulationService.create_market_data.
    cbv zeta.
    destruct (calculate_volatility_bounds ss Hpos) as (v & Hv & Hv1 & Hv2).
    rewrite Hv.
    pose proof (current_price_positive ss Hinit Hpos) as Hcur.
    destruct (fst (OrderBookService.get_spread obs)) as [e|spread] eqn:Hspread;
      [discriminate|].
    assert (Hsp : match spread with Some x => Qlt_bool x 0 | None => false end = false).
    { destruct spread as [d|]; [|reflexivity].
      apply Qlt_bool_false. apply Qlt_le_weak.
      apply (service_spread_positive obs d Hun Hspread). }
    unfold OrderBookService.get_best_bid, OrderBookService.get_best_ask, gets.
    cbn [fst].
    assert (Hbid : match (match OrderBookService.buy_orders obs with
                          | [] => None
                          | o :: _ => Some (Order.price o)
                          end) with
                   | Some x => Qle_bool x 0
                   | None => false
                   end = false).
    { destruct Hb as [|b bs [(Hp & _) _] _]; [reflexivity|].
      apply Qle_bool_false_pos. exact Hp. }
    assert (Hask : match (match OrderBookService.sell_orders obs with
                          | [] => None
                          | o :: _ => Some (Order.price o)
                          end) with
                   | Some x => Qle_bool x 0
                   | None => false
                   end = false).
    { destruct Hs as [|a sl [(Hp & _) _] _]; [reflexivity|].
      apply Qle_bool_false_pos. exact Hp. }
    unfold MarketData.new, MarketData.post_init.
    cbn [MarketData.current_price MarketData.volatility MarketData.spread
         MarketData.best_bid MarketData.best_ask].
    rewrite (Qle_bool_false_pos _ Hcur), Hsp, Hbid, Hask.
    replace (Qlt_bool v 0) with false by (symmetry; apply Qlt_bool_false; lra).
    eexists. split; [reflexivity|]. cbn.
    repeat split; try assumption; reflexivity.
  - intros Hcp.
    destruct (update_statistics_prices new_trades obs ss) as (Hp & _).
    cbv zeta in Hp. rewrite Hp. apply Forall_append_capped; assumption.
Qed.

Lemma X24_witness :
  exists md,
    TradingSimulator.cycle_market_data ex_service
      (SimulationService.init SimulationConfig.default) = inr md /\
    ((5 # 1000) <= MarketData.volatility md <= (5 # 100))%Q.
Proof.
  destruct (X24_market_data_of_a_cycle [] ex_service
              (SimulationService.init SimulationConfig.default))
    as [(md & Hmd & _ & _ & Hv & _) _].
  - by_computation.
  - repeat constructor.
  - reflexivity.
  - repeat constructor.
  - exists md. split; assumption.
Defined.


(** ** The orders of the agents *)

Lemma order_new_inr (id : Z) (price : Q) (quantity : Z) (ty : OrderType)
      (agent_id : Z) (timestamp : Q) (o : Order.t) :
  Order.new id price quantity ty agent_id timestamp = inr o ->
  o = Order.mk id price quantity ty agent_id timestamp /\
  (0 < price)%Q /\ 0 < quantity /\ 0 <= agent_id.
Proof.
  unfold Order.new, Order.post_init. simpl.
  destruct (Qle_bool price 0) eqn:Hp; [discriminate|].
  destruct (quantity <=? 0) eqn:Hq; [discriminate|].
  destruct (agent_id <? 0) eqn:Ha; [discriminate|].
  intros H. inversion H. split; [reflexivity|].
  repeat split.
  - apply Qnot_le_lt. intros Hle. apply Qle_bool_iff in Hle. congruence.
  - apply Z.leb_gt in Hq. exact Hq.
  - apply Z.ltb_ge in Ha. exact Ha.
Qed.

(** X25. An order that [_generate_agent_order] gives bears the next
    identifier of the order book, which it consumes, the identifier of the
    agent and the time of the call, and it passes the checks of the
    constructor; a sell order offers no more than the position held, or
    than 10 units when none is held, and leaves the position at -1000 or
    above. When no order is given, or an exception raised, the order book
    is left as it was. With the sensitivity [0.0], which the constructor of
    the agent accepts, the price is [0.0] and a buy order raises
    [ZeroDivisionError]. *)
Theorem X25_generate_agent_order_outcomes :
  forall (current_time trade_draw side_draw price_draw : Q)
         (randint : Z -> Z -> Z) (agent : Agent.t) (market_data : MarketData.t)
         (s : OrderBookService.t),
    randint_in_range randint ->
    let run :=
      TradingSimulator._generate_agent_order current_time trade_draw side_draw
        price_draw randint agent market_data s in
    match fst run with
    | inr (Some order) =>
      snd run = OrderBookService.set_next_order_id s
                  (OrderBookService.next_order_id s + 1) /\
      Order.id order = OrderBookService.next_order_id s /\
      Order.agent_id order = Agent.id agent /\
      Order.timestamp order = current_time /\
      valid_order order /\
      (Order.order_type order = SELL ->
       Order.quantity order <=
       (if Agent.position agent <=? 0 then 10 else Agent.position agent) /\
       -1000 <= Agent.position agent - Order.quantity order)
    | inr None => snd run = s
    | inl e => snd run = s
    end /\
    ((Agent.price_sensitivity agent == 0)%Q ->
     Agent.should_trade current_time agent = true ->
     (trade_draw <= Agent.trading_frequency agent)%Q ->
     (side_draw < 1 # 2)%Q ->
     fst run = inl ZeroDivisionError).
Proof.
  intros current_time trade_draw side_draw price_draw randint agent market_data s
         Hrand run.
  unfold run, TradingSimulator._generate_agent_order. cbv zeta.
  set (price := (MarketData.current_price market_data
                 * (price_draw * Agent.price_sensitivity agent))%Q).
  split.
  - destruct (Agent.should_trade current_time agent); [|reflexivity].
    cbn [negb].
    destruct (Qgt_bool trade_draw (Agent.trading_frequency agent)); [reflexivity|].
    destruct (Qlt_bool side_draw (1 # 2)).
    + destruct (Qeq_bool price 0); [reflexivity|].
      destruct (_ <=? 0); [reflexivity|].
      destruct (Agent.can_buy price _ agent); [|reflexivity].
      cbn [negb].
      match goal with
      | |- context [Order.new ?a ?b ?c ?d ?e ?f] =>
        destruct (Order.new a b c d e f) as [e0|order] eqn:Hnew; [reflexivity|]
      end.
      apply order_new_inr in Hnew. destruct Hnew as (-> & Hp & Hq & Ha).
      cbn. repeat split; try assumption; discriminate.
    + set (mq := if Agent.position agent <=? 0 then 10 else Agent.position agent).
      destruct (Z.leb_spec mq 0) as [Hmq|Hmq]; [reflexivity|].
      destruct (Hrand 1 (Z.max 1 mq)) as [Hq1 Hq2]; [lia|].
      set (q := randint 1 (Z.max 1 mq)) in *.
      destruct (Agent.can_short_sell q 1000 agent) eqn:Hsell; [|reflexivity].
      cbn [negb].
      destruct (Order.new (OrderBookService.next_order_id s) price q SELL
                          (Agent.id agent) current_time) as [e|order] eqn:Hnew;
        [reflexivity|].
      apply order_new_inr in Hnew. destruct Hnew as (-> & Hp & Hq & Ha).
      cbn. repeat split; try assumption.
      * fold mq. lia.
      * unfold Agent.can_short_sell in Hsell. apply Z.leb_le in Hsell. lia.
  - intros Hps Hst Htd Hsd. rewrite Hst. cbn [negb].
    replace (Qgt_bool trade_draw (Agent.trading_frequency agent)) with false.
    2:{ symmetry. unfold Qgt_bool. apply negb_false_iff. apply Qle_bool_iff. exact Htd. }
    replace (Qlt_bool side_draw (1 # 2)) with true
      by (symmetry; apply Qlt_bool_true; exact Hsd).
    replace (Qeq_bool price 0) with true; [reflexivity|].
    symmetry. apply Qeq_bool_iff. unfold price. rewrite Hps. ring.
Qed.

Lemma X25_witness :
  randint_in_range (fun a b => b) /\
  exists order,
    fst (TradingSimulator._generate_agent_order 10 (1 # 10) (3 # 4) 1 (fun a b => b)
           ex_trader ex_market_data ex_service) = inr (Some order) /\
    Order.quantity order <= 10.
Proof.
  assert (Hrand : randint_in_range (fun a b => b)) by (intros a b Hab; lia).
  split; [exact Hrand|].
  pose proof (X25_generate_agent_order_outcomes 10 (1 # 10) (3 # 4) 1
                (fun a b => b) ex_trader ex_market_data ex_service Hrand) as [H _].
  cbv zeta in H.
  destruct (fst (TradingSimulator._generate_agent_order 10 (1 # 10) (3 # 4) 1
                   (fun a b => b) ex_trader ex_market_data ex_service))
    as [e|[order|]] eqn:Hrun; try (vm_compute in Hrun; discriminate).
  exists order. split; [reflexivity|].
  destruct H as (_ & _ & _ & _ & _ & Hsell).
  apply Hsell.
  vm_compute in Hrun. inversion Hrun. reflexivity.
Defined.

(** ** The identifiers of the orders *)

Lemma service_add_order_next_order_id (clock : nat -> Q) (order : Order.t)
      (s : OrderBookService.t) :
  OrderBookService.next_order_id (snd (OrderBookService.add_order clock order s)) =
  OrderBookService.next_order_id s.
Proof.
  unfold OrderBookService.add_order, bind, modify, ret,
    OrderBookService._process_buy_order, OrderBookService._process_sell_order.
  destruct (Order.order_type order);
    match goal with
    | |- context [match_loop ?a ?b ?c ?d ?e ?f ?g ?h] =>
      destruct (match_loop a b c d e f g h) as [[book st] [err|]]
    end; cbn;
    try reflexivity;
    destruct (0 <? remaining_quantity st); cbn;
    destruct (last_opt (new_trades st)); reflexivity.
Qed.

Lemma ids_reduce_all_incl (opp : list Order.t) :
  forall (fills : list Z) (x : Z),
    In x (map Order.id (filter live (reduce_all opp fills))) ->
    In x (map Order.id opp).
Proof.
  induction opp as [|r opp IH]; intros fills x H.
  - destruct fills; exact H.
  - destruct fills as [|f fills]; [destruct H|].
    change (reduce_all (r :: opp) (f :: fills))
      with (reduce r f :: reduce_all opp fills) in H.
    cbn [filter] in H.
    destruct (live (reduce r f)).
    + cbn [map] in H. destruct H as [H|H]; [left; exact H|right; apply (IH fills); exact H].
    + right. apply (IH fills). exact H.
Qed.

Lemma ids_reduce_all_nodup (opp : list Order.t) :
  forall fills : list Z,
    NoDup (map Order.id opp) ->
    NoDup (map Order.id (filter live (reduce_all opp fills))).
Proof.
  induction opp as [|r opp IH]; intros fills H.
  - destruct fills; constructor.
  - destruct fills as [|f fills]; [constructor|].
    change (reduce_all (r :: opp) (f :: fills))
      with (reduce r f :: reduce_all opp fills).
    cbn [filter].
    inversion H as [|x l Hnin Hnd]; subst.
    destruct (live (reduce r f)).
    + cbn [map]. constructor; [|apply IH; exact Hnd].
      intros Hin. apply Hnin. apply (ids_reduce_all_incl opp fills). exact Hin.
    + apply IH. exact Hnd.
Qed.

Lemma ids_reduce_all_below (opp : list Order.t) (n : Z) :
  forall fills : list Z,
    Forall (fun o => Order.id o < n) opp ->
    Forall (fun o => Order.id o < n) (filter live (reduce_all opp fills)).
Proof.
  intros fills H. apply Forall_forall. intros o Ho.
  assert (Hin : In (Order.id o) (map Order.id opp)).
  { apply (ids_reduce_all_incl opp fills). apply in_map. exact Ho. }
  apply in_map_iff in Hin. destruct Hin as (o' & Hid & Ho').
  rewrite Forall_forall in H. rewrite <- Hid. apply H. exact Ho'.
Qed.

(** A call of [add_order] with an order that bears the identifier [next]
    keeps the identifiers distinct, and below [next + 1]. *)
Lemma conserves_fresh (order : Order.t) (opp own opp' own' : list Order.t)
      (ts : list Trade.t) (next : Z) :
  conserves order opp own opp' own' ts ->
  Order.id order = next ->
  NoDup (map Order.id (own ++ opp)) ->
  Forall (fun o => Order.id o < next) (own ++ opp) ->
  NoDup (map Order.id (own' ++ opp')) /\
  Forall (fun o => Order.id o < next + 1) (own' ++ opp').
Proof.
  intros (fills & rem & _ & _ & _ & Hrem & _ & Hopp & Hzero & Hpos) Hid Hnd Hlt.
  assert (Hlt1 : Forall (fun o => Order.id o < next + 1) (own ++ opp)).
  { eapply Forall_impl; [|exact Hlt]. simpl. intros; lia. }
  apply Forall_app in Hlt. destruct Hlt as [Hlt_own Hlt_opp].
  apply Forall_app in Hlt1. destruct Hlt1 as [Hlt1_own Hlt1_opp].
  rewrite map_app in Hnd.
  assert (Hnd_opp' : NoDup (map Order.id opp'))
    by (subst opp'; apply ids_reduce_all_nodup; eapply NoDup_app_remove_l; exact Hnd).
  assert (Hlt_opp' : Forall (fun o => Order.id o < next) opp')
    by (subst opp'; apply ids_reduce_all_below; exact Hlt_opp).
  assert (Hincl : forall x, In x (map Order.id opp') -> In x (map Order.id opp))
    by (subst opp'; apply ids_reduce_all_incl).
  assert (Hsep : forall x, In x (map Order.id own) -> ~ In x (map Order.id opp)).
  { clear - Hnd. induction (map Order.id own) as [|y l IH]; intros x Hx; [destruct Hx|].
    simpl in Hnd. inversion Hnd as [|? ? Hnin Hnd']; subst.
    destruct Hx as [->|Hx].
    - intros Hin. apply Hnin. apply in_or_app. right. exact Hin.
    - apply IH; assumption. }
  assert (Hnd_own : NoDup (map Order.id own)) by (eapply NoDup_app_remove_r; exact Hnd).
  destruct (Z.eq_dec rem 0) as [H0|H0].
  - rewrite (Hzero H0). split.
    + rewrite map_app. apply NoDup_app; [exact Hnd_own|exact Hnd_opp'|].
      intros x Hx Hx'. apply (Hsep x Hx). apply Hincl. exact Hx'.
    + apply Forall_app. split; [exact Hlt1_own|].
      eapply Forall_impl; [|exact Hlt_opp']. simpl. intros; lia.
  - destruct Hpos as (l1 & l2 & Hown & ->); [lia|]. subst own.
    split.
    + rewrite map_app. apply NoDup_app; [| exact Hnd_opp' |].
      * rewrite map_app. cbn [map]. 
        apply (Permutation_NoDup (l := Order.id order :: map Order.id (l1 ++ l2))).
        { rewrite map_app. apply Permutation_middle. }
        constructor; [|exact Hnd_own].
        intros Hin. apply in_map_iff in Hin. destruct Hin as (o & Ho & Hin).
        rewrite Forall_forall in Hlt_own. specialize (Hlt_own o Hin). lia.
      * intros x Hx Hx'.
        rewrite map_app in Hx. cbn [map] in Hx.
        apply in_app_or in Hx. 
        assert (Hcase : x = Order.id order \/ In x (map Order.id (l1 ++ l2))).
        { rewrite map_app. destruct Hx as [Hx|[Hx|Hx]].
          - right. apply in_or_app. left. exact Hx.
          - left. symmetry. exact Hx.
          - right. apply in_or_app. right. exact Hx. }
        destruct Hcase as [->|Hx0].
        -- apply in_map_iff in Hx'. destruct Hx' as (o & Ho & Hin).
           rewrite Forall_forall in Hlt_opp'. specialize (Hlt_opp' o Hin). lia.
        -- apply (Hsep x Hx0). apply Hincl. exact Hx'.
    + apply Forall_app in Hlt1_own. destruct Hlt1_own as [H1 H2].
      apply Forall_app. split.
      * apply Forall_app. split; [exact H1|].
        constructor; [cbn; lia|exact H2].
      * eapply Forall_impl; [|exact Hlt_opp']. simpl. intros; lia.
Qed.

Lemma fresh_ids_swap (next : Z) (l1 l2 : list Order.t) :
  NoDup (map Order.id (l1 ++ l2)) /\ Forall (fun o => Order.id o < next) (l1 ++ l2) ->
  NoDup (map Order.id (l2 ++ l1)) /\ Forall (fun o => Order.id o < next) (l2 ++ l1).
Proof.
  intros [Hnd Hlt]. split.
  - eapply Permutation_NoDup; [|exact Hnd].
    apply Permutation_map. apply Permutation_app_comm.
  - eapply Permutation_Forall; [|exact Hlt]. apply Permutation_app_comm.
Qed.

Lemma service_add_order_fresh (clock : nat -> Q) (order : Order.t)
      (s : OrderBookService.t) :
  wf_books (OrderBookService.buy_orders s) (OrderBookService.sell_orders s) ->
  valid_order order ->
  fresh_ids (Order.id order)
            (OrderBookService.buy_orders s) (OrderBookService.sell_orders s) ->
  fresh_ids (Order.id order + 1)
    (OrderBookService.buy_orders (snd (OrderBookService.add_order clock order s)))
    (OrderBookService.sell_orders (snd (OrderBookService.add_order clock order s))).
Proof.
  intros Hwf Hv Hfresh.
  destruct (service_add_order_conserves clock order s Hwf Hv) as (ts & s' & Hrun & Hc).
  rewrite Hrun. cbn [snd]. unfold fresh_ids in *.
  unfold opposing_book, own_book in Hc.
  destruct (Order.order_type order).
  - destruct Hfresh as [Hnd Hlt].
    apply (conserves_fresh _ _ _ _ _ _ _ Hc eq_refl Hnd Hlt).
  - apply fresh_ids_swap.
    apply fresh_ids_swap in Hfresh. destruct Hfresh as [Hnd Hlt].
    apply (conserves_fresh _ _ _ _ _ _ _ Hc eq_refl Hnd Hlt).
Qed.

(** What [_generate_agent_order] gives, whatever is drawn. *)
Lemma generate_agent_order_outcome
      (current_time trade_draw side_draw price_draw : Q) (randint : Z -> Z -> Z)
      (agent : Agent.t) (market_data : MarketData.t) (s : OrderBookService.t) :
  let run :=
    TradingSimulator._generate_agent_order current_time trade_draw side_draw
      price_draw randint agent market_data s in
  match fst run with
  | inr (Some order) =>
    snd run = OrderBookService.set_next_order_id s
                (OrderBookService.next_order_id s + 1) /\
    Order.id order = OrderBookService.next_order_id s /\
    valid_order order
  | _ => snd run = s
  end.
Proof.
  cbv zeta. unfold TradingSimulator._generate_agent_order. cbv zeta.
  destruct (Agent.should_trade current_time agent); [|reflexivity].
  cbn [negb].
  destruct (Qgt_bool trade_draw (Agent.trading_frequency agent)); [reflexivity|].
  destruct (Qlt_bool side_draw (1 # 2)).
  - destruct (Qeq_bool _ 0); [reflexivity|].
    destruct (_ <=? 0); [reflexivity|].
    destruct (Agent.can_buy _ _ agent); [|reflexivity].
    cbn [negb].
    match goal with
    | |- context [Order.new ?a ?b ?c ?d ?e ?f] =>
      destruct (Order.new a b c d e f) as [e0|order] eqn:Hnew; [reflexivity|]
    end.
    apply order_new_inr in Hnew. destruct Hnew as (-> & Hp & Hq & Ha).
    cbn. repeat split; assumption.
  - destruct (_ <=? 0); [reflexivity|].
    destruct (Agent.can_short_sell _ 1000 agent); [|reflexivity].
    cbn [negb].
    match goal with
    | |- context [Order.new ?a ?b ?c ?d ?e ?f] =>
      destruct (Order.new a b c d e f) as [e0|order] eqn:Hnew; [reflexivity|]
    end.
    apply order_new_inr in Hnew. destruct Hnew as (-> & Hp & Hq & Ha).
    cbn. repeat split; assumption.
Qed.

(** X26. Through the turn of an agent in [run_cycle] of
    [services/trading_simulator.py], the order that
    [_generate_agent_order] builds and [add_order] takes in, the orders
    that rest keep pairwise distinct identifiers, all below the counter
    [next_order_id], which never decreases, and the books stay
    well-formed, whatever is drawn and whether the turn raises or not; it
    is so for the books of a new order book. *)
Theorem X26_order_ids_stay_distinct :
  forall (current_time trade_draw side_draw price_draw : Q)
         (randint : Z -> Z -> Z) (clock : nat -> Q)
         (agent : Agent.t) (market_data : MarketData.t)
         (initial_price : Q) (max_trades_history : Z),
    (let s0 := OrderBookService.init initial_price max_trades_history in
     wf_books (OrderBookService.buy_orders s0) (OrderBookService.sell_orders s0) /\
     fresh_ids (OrderBookService.next_order_id s0)
               (OrderBookService.buy_orders s0) (OrderBookService.sell_orders s0)) /\
    (forall s : OrderBookService.t,
        wf_books (OrderBookService.buy_orders s) (OrderBookService.sell_orders s) ->
        fresh_ids (OrderBookService.next_order_id s)
                  (OrderBookService.buy_orders s) (OrderBookService.sell_orders s) ->
        let s' :=
          snd (TradingSimulator.agent_order current_time trade_draw side_draw
                 price_draw randint clock agent market_data s) in
        wf_books (OrderBookService.buy_orders s') (OrderBookService.sell_orders s') /\
        fresh_ids (OrderBookService.next_order_id s')
                  (OrderBookService.buy_orders s') (OrderBookService.sell_orders s') /\
        OrderBookService.next_order_id s <= OrderBookService.next_order_id s').
Proof.
  intros current_time trade_draw side_draw price_draw randint clock agent
         market_data initial_price max_trades_history.
  split.
  - cbv zeta. cbn. repeat split; constructor.
  - intros s Hwf Hfresh. cbv zeta.
    unfold TradingSimulator.agent_order.
    pose proof (generate_agent_order_outcome current_time trade_draw side_draw
                  price_draw randint agent market_data s) as Hout.
    cbv zeta in Hout.
    destruct (TradingSimulator._generate_agent_order current_time trade_draw
                side_draw price_draw randint agent market_data s)
      as [[e|[order|]] s1]; cbn [fst snd] in Hout |- *.
    + subst s1. repeat split; try apply Hwf; try apply Hfresh. lia.
    + destruct Hout as (-> & Hid & Hv).
      set (s1 := OrderBookService.set_next_order_id s
                   (OrderBookService.next_order_id s + 1)).
      assert (Hwf1 : wf_books (OrderBookService.buy_orders s1)
                              (OrderBookService.sell_orders s1)) by exact Hwf.
      assert (Hfresh1 : fresh_ids (Order.id order) (OrderBookService.buy_orders s1)
                                  (OrderBookService.sell_orders s1))
        by (rewrite Hid; exact Hfresh).
      split; [apply (add_order_wf clock order s1 (Legacy.OrderBook.init 0) Hv); exact Hwf1|].
      rewrite service_add_order_next_order_id.
      split.
      * pose proof (service_add_order_fresh clock order s1 Hwf1 Hv Hfresh1) as H.
        rewrite Hid in H. exact H.
      * cbn. lia.
    + subst s1. repeat split; try apply Hwf; try apply Hfresh. lia.
Qed.

Lemma X26_witness :
  let s' :=
    snd (TradingSimulator.agent_order 10 (1 # 10) (1 # 4) 1 (fun a b => b) ex_clock
           ex_trader ex_market_data
           (OrderBookService.set_next_order_id ex_service 3)) in
  fresh_ids (OrderBookService.next_order_id s')
            (OrderBookService.buy_orders s') (OrderBookService.sell_orders s').
Proof.
  cbv zeta.
  destruct (X26_order_ids_stay_distinct 10 (1 # 10) (1 # 4) 1 (fun a b => b)
              ex_clock ex_trader ex_market_data 100 5000) as [_ Hstep].
  apply (Hstep (OrderBookService.set_next_order_id ex_service 3)).
  - by_computation.
  - split.
    + vm_compute. repeat constructor; simpl; intuition discriminate.
    + vm_compute. repeat constructor.
Defined.

(** ** Orders that expire *)

Lemma Forall_filter_sub {A : Type} (P : A -> Prop) (p : A -> bool) (l : list A) :
  Forall P l -> Forall P (filter p l).
Proof.
  intros H. apply Forall_forall. intros x Hx. apply filter_In in Hx.
  rewrite Forall_forall in H. apply H. apply Hx.
Qed.

Lemma StronglySorted_filter {A : Type} (R : A -> A -> Prop) (p : A -> bool)
      (l : list A) :
  StronglySorted R l -> StronglySorted R (filter p l).
Proof.
  induction 1 as [|a l Hs IH Hall]; [constructor|].
  cbn [filter]. destruct (p a); [|exact IH].
  constructor; [exact IH|]. apply Forall_filter_sub. exact Hall.
Qed.

(** Dropping orders from a book keeps the identifiers distinct. *)
Lemma ids_filter_nodup (keep : Order.t -> bool) (book : list Order.t) :
  NoDup (map Order.id book) -> NoDup (map Order.id (filter keep book)).
Proof.
  induction book as [|o book IH]; intros Hnd; [constructor|].
  cbn [map] in Hnd. apply NoDup_cons_iff in Hnd. destruct Hnd as [Hnin Hnd].
  cbn [filter]. destruct (keep o); [|apply IH; exact Hnd].
  cbn [map]. apply NoDup_cons; [|apply IH; exact Hnd].
  intros Hin. apply Hnin. apply in_map_iff in Hin.
  destruct Hin as (o' & Hid & Hin). apply filter_In in Hin.
  rewrite <- Hid. apply in_map. apply Hin.
Qed.

(** X27. [clear_old_orders] keeps, in each book, the orders that rested
    for less than [max_age_seconds] and no other; the books stay
    well-formed, in price-time priority and not crossed, the identifiers
    of the orders distinct and below the counter; the history of trades,
    the prices and the counters are left as they were. *)
Theorem X27_clear_old_orders :
  forall (current_time max_age_seconds : Q) (s : OrderBookService.t),
    let s' := snd (OrderBookService.clear_old_orders current_time max_age_seconds s) in
    fst (OrderBookService.clear_old_orders current_time max_age_seconds s) = inr tt /\
    (forall o, In o (OrderBookService.buy_orders s') <->
               In o (OrderBookService.buy_orders s) /\
               younger_than current_time max_age_seconds o) /\
    (forall o, In o (OrderBookService.sell_orders s') <->
               In o (OrderBookService.sell_orders s) /\
               younger_than current_time max_age_seconds o) /\
    (wf_books (OrderBookService.buy_orders s) (OrderBookService.sell_orders s) ->
     wf_books (OrderBookService.buy_orders s') (OrderBookService.sell_orders s')) /\
    (sorted_books (OrderBookService.buy_orders s) (OrderBookService.sell_orders s) ->
     sorted_books (OrderBookService.buy_orders s') (OrderBookService.sell_orders s')) /\
    (uncrossed (OrderBookService.buy_orders s) (OrderBookService.sell_orders s) ->
     uncrossed (OrderBookService.buy_orders s') (OrderBookService.sell_orders s')) /\
    (fresh_ids (OrderBookService.next_order_id s)
               (OrderBookService.buy_orders s) (OrderBookService.sell_orders s) ->
     fresh_ids (OrderBookService.next_order_id s')
               (OrderBookService.buy_orders s') (OrderBookService.sell_orders s')) /\
    OrderBookService.trades s' = OrderBookService.trades s /\
    OrderBookService.current_price s' = OrderBookService.current_price s /\
    OrderBookService.initial_price s' = OrderBookService.initial_price s /\
    OrderBookService.next_order_id s' = OrderBookService.next_order_id s /\
    OrderBookService.next_trade_id s' = OrderBookService.next_trade_id s.
Proof.
  intros current_time max_age_seconds s. cbv zeta.
  unfold OrderBookService.clear_old_orders, modify. cbn [fst snd].
  set (young := fun order : Order.t =>
                  Qlt_bool (current_time - Order.timestamp order) max_age_seconds).
  assert (Hyoung : forall o, young o = true <->
                             younger_than current_time max_age_seconds o).
  { intros o. unfold young, younger_than. split.
    - intros H. destruct (Qlt_le_dec (current_time - Order.timestamp o) max_age_seconds)
        as [Hlt|Hle]; [exact Hlt|].
      rewrite (proj2 (Qlt_bool_false _ _) Hle) in H. discriminate.
    - apply Qlt_bool_true. }
  cbn [OrderBookService.set_sell_orders OrderBookService.set_buy_orders
       OrderBookService.buy_orders OrderBookService.sell_orders
       OrderBookService.trades OrderBookService.current_price
       OrderBookService.initial_price OrderBookService.next_order_id
       OrderBookService.next_trade_id].
  split; [reflexivity|].
  split; [intros o; rewrite filter_In, Hyoung; reflexivity|].
  split; [intros o; rewrite filter_In, Hyoung; reflexivity|].
  split.
  { intros [Hb Hs]. split; apply Forall_filter_sub; assumption. }
  split.
  { intros [Hb Hs]. split; apply StronglySorted_filter; assumption. }
  split.
  { unfold uncrossed. intros H. apply Forall_filter_sub.
    eapply Forall_impl; [|exact H]. intros b Hb. apply Forall_filter_sub. exact Hb. }
  split.
  { unfold fresh_ids. intros [Hnd Hlt].
    assert (Heq : filter young (OrderBookService.buy_orders s)
                  ++ filter young (OrderBookService.sell_orders s)
                  = filter young (OrderBookService.buy_orders s
                                  ++ OrderBookService.sell_orders s))
      by (symmetry; apply filter_app).
    rewrite Heq. split; [apply ids_filter_nodup; exact Hnd|].
    apply Forall_filter_sub. exact Hlt. }
  repeat split.
Qed.
